(** * PyEMMA tutorial notebooks: source model and checked properties

    The repository consists of Jupyter notebooks and one CI configuration.
    The code cells of every notebook are kept here line by line, next to the
    line of the source file they start at, together with small readers for
    the Python text (call sites, keyword arguments, statement keywords).
    The functions the notebooks define themselves ([observable],
    [is_within], [Karplus], the per-state averages) are written as functions
    of their own further down. *)

From Stdlib Require Import String Ascii List Bool Arith Lia.
From Stdlib Require Import QArith Qround Qreals Reals Lra Sorted.
Import ListNotations.
Close Scope Q_scope.
Open Scope string_scope.

(** ** Reading Python text *)

Module PyText.

(** The double-quote character, for the two source lines that hold a Python
    docstring. *)
Definition dq : string := String "034"%char EmptyString.

Definition newline : string := String "010"%char EmptyString.

Fixpoint contains (needle hay : string) : bool :=
  match hay with
  | EmptyString => prefix needle hay
  | String _ t => prefix needle hay || contains needle t
  end.

Fixpoint drop (n : nat) (s : string) : string :=
  match n, s with
  | S m, String _ t => drop m t
  | _, _ => s
  end.

Fixpoint lstrip (s : string) : string :=
  match s with
  | String c t => if Ascii.eqb c " " then lstrip t else s
  | EmptyString => s
  end.

Definition is_ident_char (c : ascii) : bool :=
  let n := nat_of_ascii c in
  (((48 <=? n) && (n <=? 57)) || ((65 <=? n) && (n <=? 90))
   || ((97 <=? n) && (n <=? 122)) || (n =? 95))%nat.

(** [starts_with_keyword kw l]: the statement on line [l] opens with the
    keyword [kw] (and not with a longer identifier). *)
Definition starts_with_keyword (kw l : string) : bool :=
  let s := lstrip l in
  prefix kw s &&
  match get (String.length kw) s with
  | Some c => negb (is_ident_char c)
  | None => true
  end.

(** The text of a call's argument list: everything up to the parenthesis
    that closes the one just opened. *)
Fixpoint balanced (depth : nat) (s : string) : string :=
  match s with
  | EmptyString => EmptyString
  | String c t =>
      if Ascii.eqb c "(" then String c (balanced (S depth) t)
      else if Ascii.eqb c ")" then
        match depth with
        | O => EmptyString
        | S d => String c (balanced d t)
        end
      else String c (balanced depth t)
  end.

(** [calls f text]: the argument texts of all call sites [f(...)] in
    [text], in source order. *)
Fixpoint calls (f text : string) : list string :=
  match text with
  | EmptyString => []
  | String _ t =>
      (if prefix (f ++ "(") text
       then [balanced 0 (drop (String.length f + 1) text)]
       else []) ++ calls f t
  end.

Fixpoint until (stop : ascii) (s : string) : string :=
  match s with
  | EmptyString => EmptyString
  | String c t => if Ascii.eqb c stop then EmptyString else String c (until stop t)
  end.

(** The first positional argument when it is a string literal in single
    quotes. *)
Definition first_string_literal (args : string) : option string :=
  match lstrip args with
  | String c t => if Ascii.eqb c "'" then Some (until "'" t) else None
  | EmptyString => None
  end.

(** The text after the last dot of a file name. *)
Fixpoint extension (s : string) : option string :=
  match s with
  | EmptyString => None
  | String c t =>
      match extension t with
      | Some e => Some e
      | None => if Ascii.eqb c "." then Some t else None
      end
  end.

(** The value text of the keyword argument [name=...] of a call. *)
Fixpoint kwarg (name args : string) : option string :=
  match args with
  | EmptyString => None
  | String _ t =>
      if prefix (name ++ "=") args
      then Some (until "," (drop (String.length name + 1) args))
      else kwarg name t
  end.

(** The name a [def] line defines. *)
Definition def_name (l : string) : option string :=
  if starts_with_keyword "def" l
  then Some (until "(" (lstrip (drop 3 (lstrip l))))
  else None.

End PyText.
Import PyText.

(** ** The notebooks *)

Record Cell := mkCell {
  first_line : nat;
  skip : bool;
  source : list string }.

Record Notebook := mkNotebook {
  nb_file : string;
  nb_title : string;
  cells : list Cell }.

Definition cell_text (c : Cell) : string := String.concat newline (source c).

(** [nb01], unnamed/part_003: the code cells of the notebook "01 - Data-I/O and featurization"; the number of a cell is the line of part_003 its source starts at. *)
Definition nb01_cell_18 : Cell := mkCell 18 false
  [ "%matplotlib inline";
    "import matplotlib.pyplot as plt";
    "import numpy as np";
    "import mdshare";
    "import pyemma" ].

Definition nb01_cell_39 : Cell := mkCell 39 false
  [ "file = mdshare.fetch('hmm-doublewell-2d-100k.npz', working_directory='data')";
    "with np.load(file) as fh:";
    "    data = fh['trajectory']";
    "";
    "print(data)" ].

Definition nb01_cell_59 : Cell := mkCell 59 false
  [ "pyemma.plots.plot_feature_histograms(data, feature_labels=['$x$', '$y$']);" ].

Definition nb01_cell_77 : Cell := mkCell 77 false
  [ "fig, ax = pyemma.plots.plot_free_energy(*data.T)";
    "ax.set_xlabel('$x$')";
    "ax.set_ylabel('$y$')";
    "fig.tight_layout()" ].

Definition nb01_cell_99 : Cell := mkCell 99 false
  [ "pdb = mdshare.fetch('alanine-dipeptide-nowater.pdb', working_directory='data')";
    "files = mdshare.fetch('alanine-dipeptide-*-250ns-nowater.dcd', working_directory='data')";
    "print(pdb)";
    "print(files)" ].

Definition nb01_cell_118 : Cell := mkCell 118 false
  [ "import mdtraj";
    "import nglview";
    "from nglview.player import TrajectoryPlayer";
    "import os";
    "from threading import Timer";
    "";
    "widget = nglview.show_mdtraj(mdtraj.load(";
    "    os.path.join('data', 'alanine-dipeptide-nowater.pdb')))";
    "p = TrajectoryPlayer(widget)";
    "widget._camera_orientation = [13, 9.2, -8.2, 0, 11.95,";
    "                              -5.7, 10.95, 0, 3.16, -13.3, -10.4, 0, -2.4, -22.3, 0, 1]";
    "p.spin = True";
    "def stop_spin():";
    "    p.spin = False";
    "Timer(30, stop_spin).start()";
    "";
    "widget" ].

Definition nb01_cell_150 : Cell := mkCell 150 false
  [ "feat = pyemma.coordinates.featurizer(pdb)" ].

Definition nb01_cell_166 : Cell := mkCell 166 false
  [ "feat.add_backbone_torsions()" ].

Definition nb01_cell_182 : Cell := mkCell 182 false
  [ "print(feat.describe())" ].

Definition nb01_cell_198 : Cell := mkCell 198 false
  [ "data = pyemma.coordinates.load(files, features=feat)";
    "print(data)" ].

Definition nb01_cell_215 : Cell := mkCell 215 false
  [ "pyemma.plots.plot_feature_histograms(np.concatenate(data), feature_labels=['$\Phi$', '$\Psi$']);" ].

Definition nb01_cell_224 : Cell := mkCell 224 false
  [ "fig, ax = pyemma.plots.plot_free_energy(*np.concatenate(data).T)";
    "ax.set_xlabel('$\Phi$')";
    "ax.set_ylabel('$\Psi$')";
    "fig.tight_layout()" ].

Definition nb01_cell_245 : Cell := mkCell 245 false
  [ "feat = pyemma.coordinates.featurizer(pdb)";
    "feat.add_selection(feat.select_Heavy())";
    "";
    "data = pyemma.coordinates.load(files, features=feat)";
    "";
    "feat_desc = feat.describe()";
    "print(feat_desc)" ].

Definition nb01_cell_267 : Cell := mkCell 267 false
  [ "fig, ax = plt.subplots(figsize=(10, 7))";
    "pyemma.plots.plot_feature_histograms(np.concatenate(data), feature_labels=feat_desc, ax=ax)";
    "fig.tight_layout()" ].

Definition nb01_cell_288 : Cell := mkCell 288 false
  [ "print(data)" ].

Definition nb01_cell_304 : Cell := mkCell 304 false
  [ "data = pyemma.coordinates.source(files, features=feat)";
    "print(data)" ].

Definition nb01_cell_321 : Cell := mkCell 321 false
  [ "data_out = data.get_output(stride=5)";
    "print(data_out)" ].

Definition nb01_cell_338 : Cell := mkCell 338 false
  [ "fig, ax = plt.subplots(figsize=(10, 7))";
    "pyemma.plots.plot_feature_histograms(np.concatenate(data_out), feature_labels=feat_desc, ax=ax)";
    "fig.tight_layout()" ].

Definition nb01_cell_370 : Cell := mkCell 370 false
  [ "feat = pyemma.coordinates.featurizer(pdb)";
    "feat. #FIXME";
    "";
    "data = pyemma.coordinates.load(files, features=feat)";
    "";
    "fig, ax = plt.subplots(figsize=(10, 7))";
    "pyemma.plots.plot_feature_histograms(np.concatenate(data), feature_labels=feat.describe(), ax=ax)";
    "fig.tight_layout()" ].

Definition nb01_cell_388 : Cell := mkCell 388 false
  [ "feat = pyemma.coordinates.featurizer(pdb)";
    "feat.add_distances(feat.select_Heavy())";
    "";
    "data = pyemma.coordinates.load(files, features=feat)";
    "";
    "fig, ax = plt.subplots(figsize=(10, 7))";
    "pyemma.plots.plot_feature_histograms(np.concatenate(data), feature_labels=feat.describe(), ax=ax)";
    "fig.tight_layout()" ].

Definition nb01_cell_412 : Cell := mkCell 412 false
  [ "pdb = mdshare.fetch('pentapeptide-impl-solv.pdb', working_directory='data')";
    "files = mdshare.fetch('pentapeptide-*-500ns-impl-solv.xtc', working_directory='data')" ].

Definition nb01_cell_429 : Cell := mkCell 429 false
  [ "widget = nglview.show_mdtraj(mdtraj.load(";
    "    os.path.join('data', 'pentapeptide-impl-solv.pdb')))";
    "p = TrajectoryPlayer(widget)";
    "widget.add_ball_and_stick()";
    "p.spin = True";
    "def stop_spin():";
    "    p.spin = False";
    "Timer(30, stop_spin).start()";
    "widget" ].

Definition nb01_cell_453 : Cell := mkCell 453 false
  [ "feat = pyemma.coordinates.featurizer(pdb)";
    "feat.add_backbone_torsions(cossin=True)";
    "feat.add_sidechain_torsions(which='chi1', cossin=True)";
    "";
    "data = pyemma.coordinates.load(files, features=feat)";
    "data_all = np.concatenate(data)";
    "";
    "feat_desc = feat.describe()";
    "print(feat_desc)" ].

Definition nb01_cell_477 : Cell := mkCell 477 false
  [ "fig, ax = plt.subplots(figsize=(10, 7))";
    "pyemma.plots.plot_feature_histograms(data_all, feature_labels=feat_desc, ax=ax)";
    "fig.tight_layout()" ].

Definition nb01_cell_502 : Cell := mkCell 502 false
  [ "feat = pyemma.coordinates.featurizer(pdb)";
    "feat. #FIXME";
    "";
    "data = pyemma.coordinates.load(files, features=feat)";
    "data_all = np.concatenate(data)";
    "";
    "fig, ax = plt.subplots(figsize=(10, 7))";
    "pyemma.plots.plot_feature_histograms(data_all, feature_labels=feat.describe(), ax=ax)";
    "fig.tight_layout()" ].

Definition nb01_cell_521 : Cell := mkCell 521 false
  [ "feat = pyemma.coordinates.featurizer(pdb)";
    "feat.add_distances_ca()";
    "";
    "data = pyemma.coordinates.load(files, features=feat)";
    "data_all = np.concatenate(data)";
    "";
    "fig, ax = plt.subplots(figsize=(10, 7))";
    "pyemma.plots.plot_feature_histograms(data_all, feature_labels=feat.describe(), ax=ax)";
    "fig.tight_layout()" ].

Definition nb01_cell_550 : Cell := mkCell 550 false
  [ "feat = pyemma.coordinates.featurizer(pdb)";
    "feat. #FIXME";
    "";
    "data = pyemma.coordinates.load(files, features=feat)";
    "data_all = np.concatenate(data)";
    "";
    "fig, ax = plt.subplots(figsize=(10, 7))";
    "pyemma.plots.plot_feature_histograms(data_all, feature_labels=feat.describe(), ax=ax)";
    "fig.tight_layout()" ].

Definition nb01_cell_569 : Cell := mkCell 569 false
  [ "feat = pyemma.coordinates.featurizer(pdb)";
    "feat.add_residue_mindist()";
    "";
    "data = pyemma.coordinates.load(files, features=feat)";
    "data_all = np.concatenate(data)";
    "";
    "fig, ax = plt.subplots(figsize=(10, 7))";
    "pyemma.plots.plot_feature_histograms(data_all, feature_labels=feat.describe(), ax=ax)";
    "fig.tight_layout()" ].

Definition nb01_cell_598 : Cell := mkCell 598 false
  [ "feat = pyemma.coordinates.featurizer(pdb)";
    "feat. #FIXME";
    "";
    "data = pyemma.coordinates.load(files, features=feat)";
    "data_all = np.concatenate(data)";
    "";
    "fig, ax = plt.subplots(figsize=(10, 7))";
    "pyemma.plots.plot_feature_histograms(data_all, feature_labels=feat.describe(), ax=ax)";
    "fig.tight_layout()" ].

Definition nb01_cell_617 : Cell := mkCell 617 false
  [ "feat = pyemma.coordinates.featurizer(pdb)";
    "feat.add_selection(feat.select_Backbone())";
    "";
    "data = pyemma.coordinates.load(files, features=feat)";
    "data_all = np.concatenate(data)";
    "";
    "fig, ax = plt.subplots(figsize=(10, 12))";
    "pyemma.plots.plot_feature_histograms(data_all, feature_labels=feat.describe(), ax=ax)";
    "fig.tight_layout()" ].

Definition nb01_cell_646 : Cell := mkCell 646 false
  [ "feat = pyemma.coordinates.featurizer(pdb)";
    "feat. #FIXME";
    "";
    "data = pyemma.coordinates.load(files, features=feat)";
    "data_all = np.concatenate(data)";
    "";
    "fig, ax = plt.subplots(figsize=(10, 7))";
    "pyemma.plots.plot_feature_histograms(data_all, feature_labels=feat.describe(), ax=ax)";
    "fig.tight_layout()" ].

Definition nb01_cell_665 : Cell := mkCell 665 false
  [ "feat = pyemma.coordinates.featurizer(pdb)";
    "feat.add_selection(feat.select_Ca())";
    "";
    "data = pyemma.coordinates.load(files, features=feat)";
    "data_all = np.concatenate(data)";
    "";
    "fig, ax = plt.subplots(figsize=(10, 7))";
    "pyemma.plots.plot_feature_histograms(data_all, feature_labels=feat.describe(), ax=ax)";
    "fig.tight_layout()" ].

Definition nb01 : Notebook := mkNotebook "unnamed/part_003" "01 - Data-I/O and featurization"
  [ nb01_cell_18; nb01_cell_39; nb01_cell_59; nb01_cell_77;
    nb01_cell_99; nb01_cell_118; nb01_cell_150; nb01_cell_166;
    nb01_cell_182; nb01_cell_198; nb01_cell_215; nb01_cell_224;
    nb01_cell_245; nb01_cell_267; nb01_cell_288; nb01_cell_304;
    nb01_cell_321; nb01_cell_338; nb01_cell_370; nb01_cell_388;
    nb01_cell_412; nb01_cell_429; nb01_cell_453; nb01_cell_477;
    nb01_cell_502; nb01_cell_521; nb01_cell_550; nb01_cell_569;
    nb01_cell_598; nb01_cell_617; nb01_cell_646; nb01_cell_665 ].

(** [nb02], unnamed/part_001: the code cells of the notebook "02 - Dimension reduction and discretization"; the number of a cell is the line of part_001 its source starts at. *)
Definition nb02_cell_17 : Cell := mkCell 17 false
  [ "%matplotlib inline";
    "import matplotlib.pyplot as plt";
    "import numpy as np";
    "import mdshare";
    "import pyemma" ].

Definition nb02_cell_38 : Cell := mkCell 38 false
  [ "file = mdshare.fetch('hmm-doublewell-2d-100k.npz', working_directory='data')";
    "with np.load(file) as fh:";
    "    data = fh['trajectory']";
    "";
    "fig, axes = plt.subplots(1, 2, figsize=(10, 4))";
    "pyemma.plots.plot_feature_histograms(data, feature_labels=['$x$', '$y$'], ax=axes[0])";
    "for i, dim in enumerate(['x', 'y']): ";
    "    axes[0].plot(data[:300, i], np.linspace(-0.2 + i, 0.8 + i, 300), color='C2', alpha=0.6)";
    "    axes[0].annotate(";
    "        '${}$(time)'.format(dim),";
    "        xy=(3, 0.6 + i),";
    "        xytext=(3, i),";
    "        arrowprops=dict(fc='C2', ec='None', alpha=0.6, width=2))";
    "";
    "axes[1].scatter(*data.T, s=1, alpha=0.3)";
    "axes[1].set_xlabel('$x$')";
    "axes[1].set_ylabel('$y$')";
    "fig.tight_layout()" ].

Definition nb02_cell_71 : Cell := mkCell 71 false
  [ "cluster_kmeans = pyemma.coordinates.cluster_kmeans(data, k=200)" ].

Definition nb02_cell_87 : Cell := mkCell 87 false
  [ "cluster_regspace = pyemma.coordinates.cluster_regspace(data, dmin=0.3)" ].

Definition nb02_cell_103 : Cell := mkCell 103 false
  [ "fig, axes = plt.subplots(1, 2, figsize=(10, 4))";
    "for ax, cls in zip(axes.flat, [cluster_kmeans, cluster_regspace]):";
    "    ax.scatter(*data.T, s=1, alpha=0.3)";
    "    ax.scatter(*cls.clustercenters.T, s=15)";
    "    ax.set_xlabel('$x$')";
    "    ax.set_ylabel('$y$')";
    "fig.tight_layout()" ].

Definition nb02_cell_127 : Cell := mkCell 127 false
  [ "print(cluster_kmeans.dtrajs)";
    "print(cluster_regspace.dtrajs)" ].

Definition nb02_cell_150 : Cell := mkCell 150 false
  [ "pca = pyemma.coordinates.pca(data, dim=1)";
    "pca_out = pca.get_output()";
    "print(pca_out)" ].

Definition nb02_cell_168 : Cell := mkCell 168 false
  [ "tica = pyemma.coordinates.tica(data, dim=1, lag=1)";
    "tica_out = tica.get_output()";
    "print(tica_out)" ].

Definition nb02_cell_186 : Cell := mkCell 186 false
  [ "fig, axes = plt.subplots(1, 2, figsize=(10, 4))";
    "pyemma.plots.plot_feature_histograms(";
    "    np.concatenate([pca_out[0], tica_out[0]], axis=1),";
    "    feature_labels=['PCA', 'TICA'],";
    "    ax=axes[0])";
    "axes[1].scatter(*data.T, s=0.1, alpha=0.3, c='grey')";
    "axes[1].plot(";
    "    [0, 3 * abs(pca.eigenvectors[0, 0])],";
    "    [0, 3 * abs(pca.eigenvectors[1, 0])],";
    "    linewidth=3,";
    "    label='PCA')";
    "axes[1].plot(";
    "    [0, 3 * abs(tica.eigenvectors[0, 0])],";
    "    [0, 3 * abs(tica.eigenvectors[1, 0])],";
    "    linewidth=3,";
    "    label='TICA')";
    "axes[1].set_xlabel('$x$')";
    "axes[1].set_ylabel('$y$')";
    "axes[1].legend()";
    "fig.tight_layout()" ].

Definition nb02_cell_223 : Cell := mkCell 223 false
  [ "fig, ax = plt.subplots(figsize=(10, 3))";
    "ax.plot(pca_out[0][:300], label='PCA')";
    "ax.plot(tica_out[0][:300], label='TICA')";
    "ax.set_xlabel('time / steps')";
    "ax.set_ylabel('feature values')";
    "ax.legend()";
    "fig.tight_layout()" ].

Definition nb02_cell_249 : Cell := mkCell 249 false
  [ "centers_pca = np.linspace(np.min(pca_out), np.max(pca_out), 50)";
    "dtrajs_pca = pyemma.coordinates.assign_to_centers(pca_out, centers=centers_pca.reshape(-1, 1))";
    "print(dtrajs_pca)" ].

Definition nb02_cell_267 : Cell := mkCell 267 false
  [ "centers_tica = np.linspace(np.min(tica_out), np.max(tica_out), 50)";
    "dtrajs_tica = pyemma.coordinates.assign_to_centers(tica_out, centers=centers_tica.reshape(-1, 1))";
    "print(dtrajs_tica)" ].

Definition nb02_cell_286 : Cell := mkCell 286 false
  [ "pdb = mdshare.fetch('alanine-dipeptide-nowater.pdb', working_directory='data')";
    "files = mdshare.fetch('alanine-dipeptide-*-250ns-nowater.dcd', working_directory='data')";
    "";
    "feat = pyemma.coordinates.featurizer(pdb)";
    "feat.add_backbone_torsions()";
    "data = pyemma.coordinates.load(files, features=feat)";
    "";
    "fig, axes = plt.subplots(1, 2, figsize=(10, 4))";
    "pyemma.plots.plot_feature_histograms(np.concatenate(data), feature_labels=['$\Phi$', '$\Psi$'], ax=axes[0])";
    "axes[1].scatter(*np.concatenate(data).T, s=1, alpha=0.3)";
    "axes[1].set_xlabel('$\Phi$')";
    "axes[1].set_ylabel('$\Psi$')";
    "fig.tight_layout()" ].

Definition nb02_cell_314 : Cell := mkCell 314 false
  [ "cluster_kmeans = pyemma.coordinates.cluster_kmeans(data, k=200)";
    "cluster_regspace = pyemma.coordinates.cluster_regspace(data, dmin=0.3)";
    "";
    "fig, axes = plt.subplots(1, 2, figsize=(10, 4))";
    "for ax, cls in zip(axes.flat, [cluster_kmeans, cluster_regspace]):";
    "    ax.scatter(*np.concatenate(data).T, s=1, alpha=0.3)";
    "    ax.scatter(*cls.clustercenters.T, s=15)";
    "    ax.set_xlabel('$x$')";
    "    ax.set_ylabel('$y$')";
    "fig.tight_layout()" ].

Definition nb02_cell_346 : Cell := mkCell 346 false
  [ "feat = pyemma.coordinates.featurizer(pdb)";
    "feat. #FIXME";
    "data = pyemma.coordinates.load(files, features=feat)";
    "";
    "print('We have {} features.'.format(feat.dimension()))";
    "";
    "fig, ax = plt.subplots(figsize=(10, 7))";
    "pyemma.plots.plot_feature_histograms(np.concatenate(data), feature_labels=feat.describe(), ax=ax)";
    "fig.tight_layout()" ].

Definition nb02_cell_365 : Cell := mkCell 365 false
  [ "feat = pyemma.coordinates.featurizer(pdb)";
    "feat.add_selection(feat.select_Heavy())";
    "data = pyemma.coordinates.load(files, features=feat)";
    "";
    "print('We have {} features.'.format(feat.dimension()))";
    "";
    "fig, ax = plt.subplots(figsize=(10, 7))";
    "pyemma.plots.plot_feature_histograms(np.concatenate(data), feature_labels=feat.describe(), ax=ax)";
    "fig.tight_layout()" ].

Definition nb02_cell_389 : Cell := mkCell 389 false
  [ "pca = pyemma.coordinates.pca(data)";
    "pca_all = np.concatenate(pca.get_output())";
    "";
    "fig, axes = plt.subplots(1, 3, figsize=(12, 4))";
    "pyemma.plots.plot_feature_histograms(";
    "    pca_all, ['PC {}'.format(i + 1) for i in range(pca.dimension())], ax=axes[0])";
    "axes[1].scatter(*pca_all[:, :2].T, s=1, alpha=0.3)";
    "pyemma.plots.plot_free_energy(*pca_all[:, :2].T, ax=axes[2])";
    "for ax in axes.flat[1:]:";
    "    ax.set_xlabel('PC 1')";
    "    ax.set_ylabel('PC 2')";
    "fig.tight_layout()" ].

Definition nb02_cell_421 : Cell := mkCell 421 false
  [ "tica = #FIXME";
    "tica_all = np.concatenate(tica.get_output())";
    "";
    "fig, axes = plt.subplots(1, 3, figsize=(12, 4))";
    "pyemma.plots.plot_feature_histograms(";
    "    tica_all, ['IC {}'.format(i + 1) for i in range(tica.dimension())], ax=axes[0])";
    "axes[1].scatter(*tica_all[:, :2].T, s=1, alpha=0.3)";
    "pyemma.plots.plot_free_energy(*tica_all[:, :2].T, ax=axes[2])";
    "for ax in axes.flat[1:]:";
    "    ax.set_xlabel('IC 1')";
    "    ax.set_ylabel('IC 2')";
    "fig.tight_layout()" ].

Definition nb02_cell_443 : Cell := mkCell 443 false
  [ "tica = pyemma.coordinates.tica(data)";
    "tica_all = np.concatenate(tica.get_output())";
    "";
    "fig, axes = plt.subplots(1, 3, figsize=(12, 4))";
    "pyemma.plots.plot_feature_histograms(";
    "    tica_all, ['IC {}'.format(i + 1) for i in range(tica.dimension())], ax=axes[0])";
    "axes[1].scatter(*tica_all[:, :2].T, s=1, alpha=0.3)";
    "pyemma.plots.plot_free_energy(*tica_all[:, :2].T, ax=axes[2])";
    "for ax in axes.flat[1:]:";
    "    ax.set_xlabel('IC 1')";
    "    ax.set_ylabel('IC 2')";
    "fig.tight_layout()" ].

Definition nb02_cell_479 : Cell := mkCell 479 false
  [ "pca = #FIXME";
    "pca_all = #FIXME";
    "";
    "cluster = pyemma.coordinates.cluster_kmeans(pca, k=200, max_iter=50)";
    "";
    "fig, axes = plt.subplots(1, 2, figsize=(10, 4))";
    "pyemma.plots.plot_feature_histograms(";
    "    pca_all, ['PC {}'.format(i + 1) for i in range(pca.dimension())], ax=axes[0])";
    "axes[1].scatter(*pca_all.T, s=1, alpha=0.3)";
    "axes[1].scatter(*cluster.clustercenters.T, s=15)";
    "axes[1].set_xlabel('PC 1')";
    "axes[1].set_ylabel('PC 2')";
    "fig.tight_layout()" ].

Definition nb02_cell_502 : Cell := mkCell 502 false
  [ "pca = pyemma.coordinates.pca(data, dim=2)";
    "pca_all = np.concatenate(pca.get_output())";
    "";
    "cluster = pyemma.coordinates.cluster_kmeans(pca, k=200, max_iter=50)";
    "";
    "fig, axes = plt.subplots(1, 2, figsize=(10, 4))";
    "pyemma.plots.plot_feature_histograms(";
    "    pca_all, ['PC {}'.format(i + 1) for i in range(pca.dimension())], ax=axes[0])";
    "axes[1].scatter(*pca_all.T, s=1, alpha=0.3)";
    "axes[1].scatter(*cluster.clustercenters.T, s=15)";
    "axes[1].set_xlabel('PC 1')";
    "axes[1].set_ylabel('PC 2')";
    "fig.tight_layout()" ].

Definition nb02_cell_535 : Cell := mkCell 535 false
  [ "tica = #FIXME";
    "tica_all = #FIXME";
    "";
    "cluster = #FIXME";
    "";
    "fig, axes = plt.subplots(1, 2, figsize=(10, 4))";
    "pyemma.plots.plot_feature_histograms(";
    "    tica_all, ['IC {}'.format(i + 1) for i in range(tica.dimension())], ax=axes[0])";
    "axes[1].scatter(*tica_all.T, s=1, alpha=0.3)";
    "axes[1].scatter(*cluster.clustercenters.T, s=15)";
    "axes[1].set_xlabel('IC 1')";
    "axes[1].set_ylabel('IC 2')";
    "fig.tight_layout()" ].

Definition nb02_cell_558 : Cell := mkCell 558 false
  [ "tica = pyemma.coordinates.tica(data, lag=1, dim=2)";
    "tica_all = np.concatenate(tica.get_output())";
    "";
    "cluster = pyemma.coordinates.cluster_kmeans(tica, k=200, max_iter=50)";
    "";
    "fig, axes = plt.subplots(1, 2, figsize=(10, 4))";
    "pyemma.plots.plot_feature_histograms(";
    "    tica_all, ['IC {}'.format(i + 1) for i in range(tica.dimension())], ax=axes[0])";
    "axes[1].scatter(*tica_all.T, s=1, alpha=0.3)";
    "axes[1].scatter(*cluster.clustercenters.T, s=15)";
    "axes[1].set_xlabel('IC 1')";
    "axes[1].set_ylabel('IC 2')";
    "fig.tight_layout()" ].

Definition nb02_cell_593 : Cell := mkCell 593 false
  [ "pdb = mdshare.fetch('pentapeptide-impl-solv.pdb', working_directory='data')";
    "files = mdshare.fetch('pentapeptide-*-500ns-impl-solv.xtc', working_directory='data')";
    "";
    "feat = #FIXME";
    "feat. #FIXME";
    "feat. #FIXME";
    "";
    "data = pyemma.coordinates.load(files, features=feat)";
    "data_all = np.concatenate(data)";
    "";
    "fig, ax = plt.subplots(figsize=(10, 7))";
    "pyemma.plots.plot_feature_histograms(data_all, feature_labels=feat.describe(), ax=ax)";
    "fig.tight_layout()" ].

Definition nb02_cell_616 : Cell := mkCell 616 false
  [ "pdb = mdshare.fetch('pentapeptide-impl-solv.pdb', working_directory='data')";
    "files = mdshare.fetch('pentapeptide-*-500ns-impl-solv.xtc', working_directory='data')";
    "";
    "feat = pyemma.coordinates.featurizer(pdb)";
    "feat.add_backbone_torsions(cossin=True)";
    "feat.add_sidechain_torsions(which='chi1', cossin=True)";
    "";
    "data = pyemma.coordinates.load(files, features=feat)";
    "data_all = np.concatenate(data)";
    "";
    "fig, ax = plt.subplots(figsize=(10, 7))";
    "pyemma.plots.plot_feature_histograms(data_all, feature_labels=feat.describe(), ax=ax)";
    "fig.tight_layout()" ].

Definition nb02_cell_647 : Cell := mkCell 647 false
  [ "pca = #FIXME";
    "pca_all = np.concatenate(pca.get_output())";
    "";
    "fig, axes = plt.subplots(1, 3, figsize=(12, 4))";
    "pyemma.plots.plot_feature_histograms(";
    "    pca_all, ['PC {}'.format(i + 1) for i in range(pca.dimension())], ax=axes[0])";
    "axes[1].scatter(*pca_all[:, :2].T, s=1, alpha=0.3)";
    "pyemma.plots.plot_free_energy(*pca_all[:, :2].T, ax=axes[2])";
    "for ax in axes.flat[1:]:";
    "    ax.set_xlabel('PC 1')";
    "    ax.set_ylabel('PC 2')";
    "fig.tight_layout()" ].

Definition nb02_cell_669 : Cell := mkCell 669 false
  [ "pca = pyemma.coordinates.pca(data)";
    "pca_all = np.concatenate(pca.get_output())";
    "";
    "fig, axes = plt.subplots(1, 3, figsize=(12, 4))";
    "pyemma.plots.plot_feature_histograms(";
    "    pca_all, ['PC {}'.format(i + 1) for i in range(pca.dimension())], ax=axes[0])";
    "axes[1].scatter(*pca_all[:, :2].T, s=1, alpha=0.3)";
    "pyemma.plots.plot_free_energy(*pca_all[:, :2].T, ax=axes[2])";
    "for ax in axes.flat[1:]:";
    "    ax.set_xlabel('PC 1')";
    "    ax.set_ylabel('PC 2')";
    "fig.tight_layout()" ].

Definition nb02_cell_699 : Cell := mkCell 699 false
  [ "lags = [1, 2, 5, 10, 20, 50]";
    "";
    "fig, axes = plt.subplots(len(lags), 3, figsize=(10, len(lags) * 3))";
    "for i, lag in enumerate(lags):";
    "    tica = # FIXME";
    "    tica_all = #FIXME";
    "    pyemma.plots.plot_feature_histograms(";
    "        tica_all, ['IC {}'.format(i + 1) for i in range(tica.dimension())], ax=axes[i, 0])";
    "    axes[i, 0].set_title('lag time = {} steps'.format(lag))";
    "    axes[i, 1].scatter(*tica_all[:, :2].T, s=1, alpha=0.3)";
    "    pyemma.plots.plot_free_energy(*tica_all[:, :2].T, ax=axes[i, 2], cbar=False)";
    "for ax in axes[:, 1:].flat:";
    "    ax.set_xlabel('IC 1')";
    "    ax.set_ylabel('IC 2')";
    "fig.tight_layout()" ].

Definition nb02_cell_724 : Cell := mkCell 724 false
  [ "lags = [1, 2, 5, 10, 20, 50]";
    "";
    "fig, axes = plt.subplots(len(lags), 3, figsize=(10, len(lags) * 3))";
    "for i, lag in enumerate(lags):";
    "    tica = pyemma.coordinates.tica(data, lag=lag)";
    "    tica_all = np.concatenate(tica.get_output())";
    "    pyemma.plots.plot_feature_histograms(";
    "        tica_all, ['IC {}'.format(i + 1) for i in range(tica.dimension())], ax=axes[i, 0])";
    "    axes[i, 0].set_title('lag time = {} steps'.format(lag))";
    "    axes[i, 1].scatter(*tica_all[:, :2].T, s=1, alpha=0.3)";
    "    pyemma.plots.plot_free_energy(*tica_all[:, :2].T, ax=axes[i, 2], cbar=False)";
    "for ax in axes[:, 1:].flat:";
    "    ax.set_xlabel('IC 1')";
    "    ax.set_ylabel('IC 2')";
    "fig.tight_layout()" ].

Definition nb02_cell_765 : Cell := mkCell 765 false
  [ "pca = #FIXME";
    "pca_all = np.concatenate(pca.get_output(stride=5))";
    "";
    "cluster = #FIXME";
    "";
    "fig, axes = plt.subplots(2, 2, figsize=(10, 8))";
    "pyemma.plots.plot_feature_histograms(";
    "    pca_all, ['PC {}'.format(i + 1) for i in range(pca.dimension())], ax=axes[0, 0])";
    "for ax, (i, j) in zip(axes.flat[1:], [[0, 1], [0, 2], [1, 2]]):";
    "    ax.scatter(*pca_all[:, [i, j]].T, s=1, alpha=0.3)";
    "    ax.scatter(*cluster.clustercenters[:, [i, j]].T, s=15)";
    "    ax.set_xlabel('PC {}'.format(i + 1))";
    "    ax.set_ylabel('PC {}'.format(j + 1))";
    "fig.tight_layout()" ].

Definition nb02_cell_789 : Cell := mkCell 789 false
  [ "pca = pyemma.coordinates.pca(data, dim=3)";
    "pca_all = np.concatenate(pca.get_output(stride=5))";
    "";
    "cluster = pyemma.coordinates.cluster_kmeans(pca, k=200, max_iter=50, stride=5)";
    "";
    "fig, axes = plt.subplots(2, 2, figsize=(10, 8))";
    "pyemma.plots.plot_feature_histograms(";
    "    pca_all, ['PC {}'.format(i + 1) for i in range(pca.dimension())], ax=axes[0, 0])";
    "for ax, (i, j) in zip(axes.flat[1:], [[0, 1], [0, 2], [1, 2]]):";
    "    ax.scatter(*pca_all[:, [i, j]].T, s=1, alpha=0.3)";
    "    ax.scatter(*cluster.clustercenters[:, [i, j]].T, s=15)";
    "    ax.set_xlabel('PC {}'.format(i + 1))";
    "    ax.set_ylabel('PC {}'.format(j + 1))";
    "fig.tight_layout()" ].

Definition nb02_cell_821 : Cell := mkCell 821 false
  [ "tica = #FIXME";
    "tica_all = #FIXME";
    "";
    "cluster = #FIXME";
    "";
    "fig, axes = plt.subplots(2, 2, figsize=(10, 8))";
    "pyemma.plots.plot_feature_histograms(";
    "    tica_all, ['IC {}'.format(i + 1) for i in range(tica.dimension())], ax=axes[0, 0])";
    "for ax, (i, j) in zip(axes.flat[1:], [[0, 1], [0, 2], [1, 2]]):";
    "    ax.scatter(*tica_all[:, [i, j]].T, s=1, alpha=0.3)";
    "    ax.scatter(*cluster.clustercenters[:, [i, j]].T, s=15)";
    "    ax.set_xlabel('IC {}'.format(i + 1))";
    "    ax.set_ylabel('IC {}'.format(j + 1))";
    "fig.tight_layout()" ].

Definition nb02_cell_845 : Cell := mkCell 845 false
  [ "tica = pyemma.coordinates.tica(data, lag=20, dim=3)";
    "tica_all = np.concatenate(tica.get_output(stride=5))";
    "";
    "cluster = pyemma.coordinates.cluster_kmeans(tica, k=200, max_iter=50, stride=5)";
    "";
    "fig, axes = plt.subplots(2, 2, figsize=(10, 8))";
    "pyemma.plots.plot_feature_histograms(";
    "    tica_all, ['IC {}'.format(i + 1) for i in range(tica.dimension())], ax=axes[0, 0])";
    "for ax, (i, j) in zip(axes.flat[1:], [[0, 1], [0, 2], [1, 2]]):";
    "    ax.scatter(*tica_all[:, [i, j]].T, s=1, alpha=0.3)";
    "    ax.scatter(*cluster.clustercenters[:, [i, j]].T, s=15)";
    "    ax.set_xlabel('IC {}'.format(i + 1))";
    "    ax.set_ylabel('IC {}'.format(j + 1))";
    "fig.tight_layout()" ].

Definition nb02 : Notebook := mkNotebook "unnamed/part_001" "02 - Dimension reduction and discretization"
  [ nb02_cell_17; nb02_cell_38; nb02_cell_71; nb02_cell_87;
    nb02_cell_103; nb02_cell_127; nb02_cell_150; nb02_cell_168;
    nb02_cell_186; nb02_cell_223; nb02_cell_249; nb02_cell_267;
    nb02_cell_286; nb02_cell_314; nb02_cell_346; nb02_cell_365;
    nb02_cell_389; nb02_cell_421; nb02_cell_443; nb02_cell_479;
    nb02_cell_502; nb02_cell_535; nb02_cell_558; nb02_cell_593;
    nb02_cell_616; nb02_cell_647; nb02_cell_669; nb02_cell_699;
    nb02_cell_724; nb02_cell_765; nb02_cell_789; nb02_cell_821;
    nb02_cell_845 ].

(** [nb03], notebooks/03-msm-estimation-and-validation.ipynb: the code cells of the notebook "03 - MSM estimation and validation"; the number of a cell is the line of 03-msm-estimation-and-validation.ipynb its source starts at. *)
Definition nb03_cell_17 : Cell := mkCell 17 false
  [ "%matplotlib inline";
    "import matplotlib.pyplot as plt";
    "import numpy as np";
    "import mdshare";
    "import pyemma" ].

Definition nb03_cell_38 : Cell := mkCell 38 false
  [ "file = mdshare.fetch('hmm-doublewell-2d-100k.npz', working_directory='data')";
    "with np.load(file) as fh:";
    "    data = fh['trajectory']";
    "";
    "cluster = pyemma.coordinates.cluster_kmeans(data, k=50, max_iter=50)";
    "";
    "fig, axes = plt.subplots(1, 2, figsize=(10, 4))";
    "pyemma.plots.plot_feature_histograms(data, feature_labels=['$x$', '$y$'], ax=axes[0])";
    "axes[1].scatter(*data.T, s=1, alpha=0.3)";
    "axes[1].scatter(*cluster.clustercenters.T, s=15)";
    "axes[1].set_xlabel('$x$')";
    "axes[1].set_ylabel('$y$')";
    "fig.tight_layout()" ].

Definition nb03_cell_66 : Cell := mkCell 66 false
  [ "its = pyemma.msm.its(cluster.dtrajs, lags=[1, 2, 3, 5, 7, 10], nits=3, errors='bayes')" ].

Definition nb03_cell_82 : Cell := mkCell 82 false
  [ "pyemma.plots.plot_implied_timescales(its, ylog=False);" ].

Definition nb03_cell_104 : Cell := mkCell 104 false
  [ "msm = pyemma.msm.estimate_markov_model(cluster.dtrajs, lag=1)";
    "pyemma.plots.plot_cktest(msm.cktest(2));" ].

Definition nb03_cell_126 : Cell := mkCell 126 false
  [ "pdb = mdshare.fetch('alanine-dipeptide-nowater.pdb', working_directory='data')";
    "files = mdshare.fetch('alanine-dipeptide-*-250ns-nowater.dcd', working_directory='data')";
    "";
    "feat = pyemma.coordinates.featurizer(pdb)";
    "feat.add_backbone_torsions()";
    "data = pyemma.coordinates.load(files, features=feat)";
    "";
    "cluster = pyemma.coordinates.cluster_kmeans(data, k=200, max_iter=50, stride=10)";
    "its = pyemma.msm.its(cluster.dtrajs, lags=[1, 2, 5, 10, 20, 50], nits=4, errors='bayes')";
    "";
    "fig, axes = plt.subplots(1, 3, figsize=(12, 3))";
    "pyemma.plots.plot_feature_histograms(np.concatenate(data), feature_labels=['$\Phi$', '$\Psi$'], ax=axes[0])";
    "axes[1].scatter(*np.concatenate(data).T, s=1, alpha=0.3)";
    "axes[1].scatter(*cluster.clustercenters.T, s=15)";
    "axes[1].set_xlabel('$\Phi$')";
    "axes[1].set_ylabel('$\Psi$')";
    "pyemma.plots.plot_implied_timescales(its, ax=axes[2], units='ps')";
    "fig.tight_layout()" ].

Definition nb03_cell_161 : Cell := mkCell 161 false
  [ "fig, axes = plt.subplots(2, 3, figsize=(12, 6))";
    "for i, k in enumerate([20, 50, 100]):";
    "    cls = pyemma.coordinates.cluster_kmeans(data, k=k, max_iter=50, stride=10)";
    "    axes[0, i].scatter(*np.concatenate(data).T, s=1, alpha=0.3)";
    "    axes[0, i].scatter(*cls.clustercenters.T, s=15)";
    "    axes[0, i].set_xlabel('$\Phi$')";
    "    axes[0, i].set_ylabel('$\Psi$')";
    "    axes[0, i].set_title('k = {} centers'.format(k))";
    "    pyemma.plots.plot_implied_timescales(";
    "        pyemma.msm.its(cls.dtrajs, lags=[1, 2, 5, 10, 20, 50], nits=4, errors='bayes'),";
    "        ax=axes[1, i], units='ps')";
    "    axes[1, i].set_ylim(1, 2000)";
    "fig.tight_layout()" ].

Definition nb03_cell_191 : Cell := mkCell 191 false
  [ "msm = pyemma.msm.estimate_markov_model(cluster.dtrajs, lag=10, dt_traj='1 ps')";
    "pyemma.plots.plot_cktest(msm.cktest(4));" ].

Definition nb03_cell_210 : Cell := mkCell 210 false
  [ "bayesian_msm = pyemma.msm.bayesian_markov_model(cluster.dtrajs, lag=10, dt_traj='1 ps', conf=0.95)";
    "pyemma.plots.plot_cktest(bayesian_msm.cktest(4));" ].

Definition nb03_cell_232 : Cell := mkCell 232 false
  [ "feat =  #FIXME";
    "feat. #FIXME";
    "data =  #FIXME";
    "";
    "pca = pyemma.coordinates.pca(data, dim=2)";
    "tica = #FIXME";
    "";
    "cls_pca = pyemma.coordinates.cluster_kmeans(pca, k=100, max_iter=50, stride=10)";
    "cls_tica = #FIXME";
    "";
    "its_pca = pyemma.msm.its(cls_pca.dtrajs, lags=[1, 2, 5, 10, 20, 50], nits=4, errors='bayes')";
    "its_tica = #FIXME";
    "";
    "fig, axes = plt.subplots(2, 3, figsize=(12, 6))";
    "pyemma.plots.plot_feature_histograms(np.concatenate(pca.get_output()), ax=axes[0, 0])";
    "pyemma.plots.plot_feature_histograms(np.concatenate(tica.get_output()), ax=axes[1, 0])";
    "axes[0, 0].set_title('PCA')";
    "axes[1, 0].set_title('TICA')";
    "axes[0, 1].scatter(*np.concatenate(pca.get_output()).T, s=1, alpha=0.3)";
    "axes[0, 1].scatter(*cls_pca.clustercenters.T, s=15)";
    "axes[0, 1].set_xlabel('PC 1')";
    "axes[0, 1].set_ylabel('PC 2')";
    "axes[1, 1].scatter(*np.concatenate(tica.get_output()).T, s=1, alpha=0.3)";
    "axes[1, 1].scatter(*cls_tica.clustercenters.T, s=15)";
    "axes[1, 1].set_xlabel('IC 1')";
    "axes[1, 1].set_ylabel('IC 2')";
    "pyemma.plots.plot_implied_timescales(its_pca, ax=axes[0, 2], units='ps')";
    "pyemma.plots.plot_implied_timescales(its_tica, ax=axes[1, 2], units='ps')";
    "axes[0, 2].set_ylim(1, 2000)";
    "axes[1, 2].set_ylim(1, 2000)";
    "fig.tight_layout()" ].

Definition nb03_cell_273 : Cell := mkCell 273 false
  [ "feat = pyemma.coordinates.featurizer(pdb)";
    "feat.add_distances(feat.select_Heavy())";
    "data = pyemma.coordinates.load(files, features=feat)";
    "";
    "pca = pyemma.coordinates.pca(data, dim=2)";
    "tica = pyemma.coordinates.tica(data, lag=3, dim=2)";
    "";
    "cls_pca = pyemma.coordinates.cluster_kmeans(pca, k=100, max_iter=50, stride=10)";
    "cls_tica = pyemma.coordinates.cluster_kmeans(tica, k=100, max_iter=50, stride=10)";
    "";
    "its_pca = pyemma.msm.its(cls_pca.dtrajs, lags=[1, 2, 5, 10, 20, 50], nits=4, errors='bayes')";
    "its_tica = pyemma.msm.its(cls_tica.dtrajs, lags=[1, 2, 5, 10, 20, 50], nits=4, errors='bayes')";
    "";
    "fig, axes = plt.subplots(2, 3, figsize=(12, 6))";
    "pyemma.plots.plot_feature_histograms(np.concatenate(pca.get_output()), ax=axes[0, 0])";
    "pyemma.plots.plot_feature_histograms(np.concatenate(tica.get_output()), ax=axes[1, 0])";
    "axes[0, 0].set_title('PCA')";
    "axes[1, 0].set_title('TICA')";
    "axes[0, 1].scatter(*np.concatenate(pca.get_output()).T, s=1, alpha=0.3)";
    "axes[0, 1].scatter(*cls_pca.clustercenters.T, s=15)";
    "axes[0, 1].set_xlabel('PC 1')";
    "axes[0, 1].set_ylabel('PC 2')";
    "axes[1, 1].scatter(*np.concatenate(tica.get_output()).T, s=1, alpha=0.3)";
    "axes[1, 1].scatter(*cls_tica.clustercenters.T, s=15)";
    "axes[1, 1].set_xlabel('IC 1')";
    "axes[1, 1].set_ylabel('IC 2')";
    "pyemma.plots.plot_implied_timescales(its_pca, ax=axes[0, 2], units='ps')";
    "pyemma.plots.plot_implied_timescales(its_tica, ax=axes[1, 2], units='ps')";
    "axes[0, 2].set_ylim(1, 2000)";
    "axes[1, 2].set_ylim(1, 2000)";
    "fig.tight_layout()" ].

Definition nb03_cell_328 : Cell := mkCell 328 false
  [ "bayesian_msm = pyemma.msm.bayesian_markov_model(cls_tica.dtrajs, lag=10, dt_traj='1 ps')";
    "pyemma.plots. #FIXME" ].

Definition nb03_cell_340 : Cell := mkCell 340 false
  [ "bayesian_msm = pyemma.msm.bayesian_markov_model(cls_tica.dtrajs, lag=10, dt_traj='1 ps')";
    "pyemma.plots.plot_cktest(bayesian_msm.cktest(4));" ].

Definition nb03_cell_364 : Cell := mkCell 364 false
  [ "pdb = mdshare.fetch('pentapeptide-impl-solv.pdb', working_directory='data')";
    "files = mdshare.fetch('pentapeptide-*-500ns-impl-solv.xtc', working_directory='data')";
    "";
    "feat = #FIXME";
    "feat. #FIXME";
    "feat. #FIXME";
    "data = #FIXME";
    "";
    "tica = #FIXME";
    "cluster = #FIXME";
    "its = #FIXME";
    "";
    "fig, axes = plt.subplots(1, 2, figsize=(10, 4))";
    "pyemma.plots.plot_feature_histograms(np.concatenate(tica.get_output()), ax=axes[0])";
    "pyemma.plots.plot_implied_timescales(its, ax=axes[1], dt=0.1, units='ns')";
    "fig.tight_layout()" ].

Definition nb03_cell_390 : Cell := mkCell 390 false
  [ "pdb = mdshare.fetch('pentapeptide-impl-solv.pdb', working_directory='data')";
    "files = mdshare.fetch('pentapeptide-*-500ns-impl-solv.xtc', working_directory='data')";
    "";
    "feat = pyemma.coordinates.featurizer(pdb)";
    "feat.add_backbone_torsions(cossin=True)";
    "feat.add_sidechain_torsions(which='chi1', cossin=True)";
    "data = pyemma.coordinates.load(files, features=feat)";
    "";
    "tica = pyemma.coordinates.tica(data, lag=20, var_cutoff=0.9)";
    "cluster = pyemma.coordinates.cluster_kmeans(tica, k=250, max_iter=50, stride=10)";
    "its = pyemma.msm.its(cluster.dtrajs, lags=30, nits=10, errors='bayes')";
    "";
    "fig, axes = plt.subplots(1, 2, figsize=(10, 4))";
    "pyemma.plots.plot_feature_histograms(np.concatenate(tica.get_output()), ax=axes[0])";
    "pyemma.plots.plot_implied_timescales(its, ax=axes[1], dt=0.1, units='ns')";
    "fig.tight_layout()" ].

Definition nb03_cell_428 : Cell := mkCell 428 false
  [ "msm = #FIXME" ].

Definition nb03_cell_439 : Cell := mkCell 439 false
  [ "msm = pyemma.msm.estimate_markov_model(cluster.dtrajs, lag=12, dt_traj='0.1 ns')" ].

Definition nb03_cell_455 : Cell := mkCell 455 false
  [ "timescales = msm.timescales(k=10)";
    "";
    "plt.plot(timescales, '-o')";
    "plt.xlabel('timescale index')";
    "plt.ylabel('timescale / ns');" ].

Definition nb03_cell_482 : Cell := mkCell 482 false
  [ "bayesian_msm = #FIXME";
    "pyemma.plots. #FIXME" ].

Definition nb03_cell_494 : Cell := mkCell 494 false
  [ "bayesian_msm = pyemma.msm.bayesian_markov_model(cluster.dtrajs, lag=12)";
    "pyemma.plots.plot_cktest(bayesian_msm.cktest(2));" ].

Definition nb03_cell_514 : Cell := mkCell 514 false
  [ "bayesian_msm = #FIXME";
    "pyemma.plots. #FIXME" ].

Definition nb03_cell_526 : Cell := mkCell 526 false
  [ "bayesian_msm = pyemma.msm.bayesian_markov_model(cluster.dtrajs, lag=12)";
    "pyemma.plots.plot_cktest(bayesian_msm.cktest(4));" ].

Definition nb03 : Notebook := mkNotebook "notebooks/03-msm-estimation-and-validation.ipynb" "03 - MSM estimation and validation"
  [ nb03_cell_17; nb03_cell_38; nb03_cell_66; nb03_cell_82;
    nb03_cell_104; nb03_cell_126; nb03_cell_161; nb03_cell_191;
    nb03_cell_210; nb03_cell_232; nb03_cell_273; nb03_cell_328;
    nb03_cell_340; nb03_cell_364; nb03_cell_390; nb03_cell_428;
    nb03_cell_439; nb03_cell_455; nb03_cell_482; nb03_cell_494;
    nb03_cell_514; nb03_cell_526 ].

(** [nb05], notebooks/03-msm-estimation-and-validation.ipynb: the code cells of the notebook "05 - hidden Markov state models (HMMs)"; the number of a cell is the line of 03-msm-estimation-and-validation.ipynb its source starts at. *)
Definition nb05_cell_601 : Cell := mkCell 601 false
  [ "%matplotlib inline";
    "import matplotlib.pyplot as plt";
    "import matplotlib as mpl";
    "import numpy as np";
    "import mdshare";
    "import pyemma" ].

Definition nb05_cell_623 : Cell := mkCell 623 false
  [ "file = mdshare.fetch('hmm-doublewell-2d-100k.npz', working_directory='data')";
    "with np.load(file) as fh:";
    "    data = fh['trajectory']";
    "    good_dtraj = fh['discrete_trajectory']" ].

Definition nb05_cell_642 : Cell := mkCell 642 false
  [ "poor_clustercenters = np.asarray([[-0.1, -0.6], [0.1, 1.4]])";
    "poor_dtraj = pyemma.coordinates.assign_to_centers(data, centers=poor_clustercenters)[0]" ].

Definition nb05_cell_659 : Cell := mkCell 659 false
  [ "fig, axes = plt.subplots(1, 2, figsize=(10, 4), sharex=True, sharey=True)";
    "axes[0].scatter(*data.T, s=1, c=poor_dtraj)";
    "axes[0].scatter(*poor_clustercenters.T, s=75, c='red', marker='x')";
    "axes[1].scatter(*data.T, s=1, c=good_dtraj)";
    "axes[1].scatter(*np.asarray([[0, -1], [0, 1]]).T, s=75, c='red', marker='x')";
    "for ax in axes.flat:";
    "    ax.set_xlabel('$x$')";
    "    ax.set_ylabel('$y$')";
    "axes[0].set_title('poor discretization')";
    "axes[1].set_title('good discretization')";
    "fig.tight_layout()" ].

Definition nb05_cell_685 : Cell := mkCell 685 false
  [ "lags = [i + 1 for i in range(10)]";
    "";
    "fig, axes = plt.subplots(1, 2, figsize=(10, 4), sharex=True, sharey=True)";
    "pyemma.plots.plot_implied_timescales(";
    "    pyemma.msm.its(poor_dtraj, lags=lags, errors='bayes'), ylog=False, ax=axes[0])";
    "pyemma.plots.plot_implied_timescales(";
    "    pyemma.msm.its(good_dtraj, lags=lags, errors='bayes'), ylog=False, ax=axes[1])";
    "axes[0].set_title('MSM with poor discretization')";
    "axes[1].set_title('MSM with good discretization')";
    "fig.tight_layout()" ].

Definition nb05_cell_712 : Cell := mkCell 712 false
  [ "poor_msm = pyemma.msm.estimate_markov_model(poor_dtraj, lag=5)";
    "good_msm = pyemma.msm.estimate_markov_model(good_dtraj, lag=1)";
    "";
    "print('MSM (poor): 1. implied timescale = {:.2f} steps'.format(poor_msm.timescales()[0]))";
    "print('MSM (good): 1. implied timescale = {:.2f} steps'.format(good_msm.timescales()[0]))" ].

Definition nb05_cell_734 : Cell := mkCell 734 false
  [ "pyemma.plots.plot_cktest(poor_msm.cktest(2));" ].

Definition nb05_cell_750 : Cell := mkCell 750 false
  [ "pyemma.plots.plot_cktest(good_msm.cktest(2));" ].

Definition nb05_cell_768 : Cell := mkCell 768 false
  [ "fig, axes = plt.subplots(1, 2, figsize=(10, 4), sharey=True)";
    "pyemma.plots.plot_implied_timescales(";
    "    pyemma.msm.timescales_hmsm(poor_dtraj, 2, lags=lags, errors='bayes'), ylog=False, ax=axes[0])";
    "pyemma.plots.plot_implied_timescales(";
    "    pyemma.msm.timescales_hmsm(good_dtraj, 2, lags=lags, errors='bayes'), ylog=False, ax=axes[1])";
    "axes[0].set_title('HMM with poor discretization')";
    "axes[1].set_title('HMM with good discretization')";
    "fig.tight_layout()" ].

Definition nb05_cell_793 : Cell := mkCell 793 false
  [ "poor_hmm = pyemma.msm.estimate_hidden_markov_model(poor_dtraj, 2, lag=1)";
    "good_hmm = pyemma.msm.estimate_hidden_markov_model(good_dtraj, 2, lag=1)";
    "";
    "print('HMM (poor): 1. implied timescale = {:.2f} steps'.format(poor_hmm.timescales()[0]))";
    "print('HMM (good): 1. implied timescale = {:.2f} steps'.format(good_hmm.timescales()[0]))" ].

Definition nb05_cell_817 : Cell := mkCell 817 false
  [ "pyemma.plots.plot_cktest(poor_hmm.cktest(2));" ].

Definition nb05_cell_833 : Cell := mkCell 833 false
  [ "pyemma.plots.plot_cktest(good_hmm.cktest(2));" ].

Definition nb05_cell_851 : Cell := mkCell 851 false
  [ "bad_clustercenters = np.asarray([[-2.5, -1.4], [0.3, 1.2], [2.7, -0.6]])";
    "bad_dtraj = pyemma.coordinates.assign_to_centers(data, centers=bad_clustercenters)[0]";
    "";
    "fig, axes = plt.subplots(1, 3, figsize=(12, 3))";
    "axes[0].scatter(*data.T, s=1, c=bad_dtraj)";
    "axes[0].scatter(*bad_clustercenters.T, s=75, c='red', marker='x')";
    "pyemma.plots.plot_implied_timescales(";
    "    pyemma.msm.its(bad_dtraj, lags=lags, errors='bayes'), ylog=False, ax=axes[1])";
    "pyemma.plots.plot_implied_timescales(";
    "    pyemma.msm.timescales_hmsm(bad_dtraj, 2, lags=lags, errors='bayes'), ylog=False, ax=axes[2])";
    "axes[0].set_xlabel('$x$')";
    "axes[0].set_ylabel('$y$')";
    "axes[0].set_title('bad discretization')";
    "axes[1].set_title('MSM with bad discretization')";
    "axes[2].set_title('HMM with bad discretization')";
    "for ax in axes.flat[1:]:";
    "    ax.set_ylim(-0.5, 12.5)";
    "fig.tight_layout()" ].

Definition nb05_cell_886 : Cell := mkCell 886 false
  [ "bad_hmm = pyemma.msm.estimate_hidden_markov_model(bad_dtraj, 2, lag=1)";
    "print('HMM (bad): 1. implied timescale = {:.2f} steps'.format(bad_hmm.timescales()[0]))";
    "pyemma.plots.plot_cktest(bad_hmm.cktest(2));" ].

Definition nb05_cell_908 : Cell := mkCell 908 false
  [ "bad_msm = pyemma.msm.estimate_markov_model(bad_dtraj, lag=1)";
    "print('MSM (bad, normal): 1. implied timescale = {:.2f} steps'.format(bad_msm.timescales()[0]))";
    "";
    "bad_coarse_msm = bad_msm.coarse_grain(2)";
    "print(type(bad_coarse_msm))" ].

Definition nb05_cell_928 : Cell := mkCell 928 false
  [ "print('MSM (bad, coarse): 1. implied timescale = {:.2f} steps'.format(bad_coarse_msm.timescales()[0]))";
    "";
    "pyemma.plots.plot_cktest(bad_coarse_msm.cktest(2));" ].

Definition nb05_cell_953 : Cell := mkCell 953 false
  [ "pdb = mdshare.fetch('alanine-dipeptide-nowater.pdb', working_directory='data')";
    "files = mdshare.fetch('alanine-dipeptide-*-250ns-nowater.dcd', working_directory='data')";
    "";
    "feat = pyemma.coordinates.featurizer(pdb)";
    "feat.add_backbone_torsions()";
    "data = pyemma.coordinates.load(files, features=feat)";
    "data_out = np.concatenate(data)";
    "";
    "cluster = pyemma.coordinates.cluster_kmeans(data, k=100, max_iter=50, stride=10)";
    "its = pyemma.msm.its(cluster.dtrajs, lags=[1, 2, 5, 10, 20, 50], nits=4, errors='bayes')";
    "";
    "fig, axes = plt.subplots(1, 3, figsize=(12, 3))";
    "pyemma.plots.plot_feature_histograms(data_out, feature_labels=['$\Phi$', '$\Psi$'], ax=axes[0])";
    "axes[1].scatter(*data_out.T, s=1, alpha=0.3)";
    "axes[1].scatter(*cluster.clustercenters.T, s=15)";
    "axes[1].set_xlabel('$\Phi$')";
    "axes[1].set_ylabel('$\Psi$')";
    "pyemma.plots.plot_implied_timescales(its, ax=axes[2], units='ps')";
    "fig.tight_layout()" ].

Definition nb05_cell_987 : Cell := mkCell 987 false
  [ "bayesian_msm = pyemma.msm.bayesian_markov_model(cluster.dtrajs, lag=10, dt_traj='0.001 ns')";
    "";
    "nstates = 4";
    "pyemma.plots.plot_cktest(bayesian_msm.cktest(nstates));" ].

Definition nb05_cell_1006 : Cell := mkCell 1006 false
  [ "hmm = bayesian_msm.coarse_grain(nstates)";
    "";
    "print('MSM: lagtime = {} ({} steps), data timestep = {}'.format(";
    "    bayesian_msm.dt_model, bayesian_msm.lag, bayesian_msm.dt_traj))";
    "print('HMM: lagtime = {} ({} steps), data timestep = {}'.format(";
    "    hmm.dt_model, hmm.lag, hmm.dt_traj))" ].

Definition nb05_cell_1029 : Cell := mkCell 1029 false
  [ "fig, axes = plt.subplots(1, 2, figsize=(10, 4), sharex=True, sharey=True)";
    "im = axes[0].scatter(";
    "    *data_out.T,";
    "    s=1,";
    "    c=bayesian_msm.pi[np.concatenate(cluster.dtrajs)])";
    "cb = fig.colorbar(im, ax=axes[0])";
    "cb.set_label('stationary distribution')";
    "im = axes[1].scatter(";
    "    *data_out.T,";
    "    s=1,";
    "    c=hmm.metastable_assignments[np.concatenate(cluster.dtrajs)],";
    "    cmap=mpl.cm.get_cmap('viridis', nstates),";
    "    norm=mpl.colors.BoundaryNorm(np.arange(-0.5, nstates, 1), nstates))";
    "cb = fig.colorbar(im, ax=axes[1])";
    "cb.set_label('metastable state')";
    "cb.set_ticks(np.arange(nstates))";
    "for ax in axes.flat:";
    "    ax.set_xlabel('$\Phi$')";
    "    ax.set_ylabel('$\Psi$')";
    "fig.tight_layout()" ].

Definition nb05_cell_1065 : Cell := mkCell 1065 false
  [ "cluster = pyemma.coordinates.cluster_regspace(data, dmin=1.0)";
    "its = pyemma.msm.its(cluster.dtrajs, lags=[1, 2, 5, 10, 20, 50], nits=6, errors='bayes')";
    "";
    "fig, axes = plt.subplots(1, 3, figsize=(12, 3))";
    "pyemma.plots.plot_feature_histograms(data_out, feature_labels=['$\Phi$', '$\Psi$'], ax=axes[0])";
    "axes[1].scatter(*data_out.T, s=1, alpha=0.3, c=np.concatenate(cluster.dtrajs))";
    "axes[1].scatter(*cluster.clustercenters.T, s=75, c='red', marker='x')";
    "axes[1].set_xlabel('$\Phi$')";
    "axes[1].set_ylabel('$\Psi$')";
    "pyemma.plots.plot_implied_timescales(its, ax=axes[2], units='ps')";
    "fig.tight_layout()" ].

Definition nb05_cell_1091 : Cell := mkCell 1091 false
  [ "fig, axes = plt.subplots(1, 2, figsize=(10, 4), sharex=True, sharey=True)";
    "pyemma.plots.plot_implied_timescales(";
    "    pyemma.msm.timescales_hmsm(cluster.dtrajs, 4, lags=[1, 2, 3, 4, 5], errors='bayes'), ax=axes[0])";
    "pyemma.plots.plot_implied_timescales(";
    "    pyemma.msm.timescales_hmsm(cluster.dtrajs, 6, lags=[1, 2, 3, 4, 5], errors='bayes'), ax=axes[1])";
    "fig.tight_layout()" ].

Definition nb05_cell_1116 : Cell := mkCell 1116 false
  [ "hmm_4 = pyemma.msm.bayesian_hidden_markov_model(cluster.dtrajs, 4, lag=1, dt_traj='0.001 ns')";
    "pyemma.plots.plot_cktest(hmm_4.cktest(mlags=5));" ].

Definition nb05_cell_1133 : Cell := mkCell 1133 false
  [ "hmm_6 = pyemma.msm.bayesian_hidden_markov_model(cluster.dtrajs, 6, lag=1, dt_traj='0.001 ns')";
    "pyemma.plots.plot_cktest(hmm_6.cktest(mlags=2));" ].

Definition nb05_cell_1152 : Cell := mkCell 1152 false
  [ "fig, axes = plt.subplots(1, 2, figsize=(10, 4), sharex=True, sharey=True)";
    "for hmm, ax in zip([hmm_4, hmm_6], axes.flat):";
    "    im = ax.scatter(";
    "        *data_out.T,";
    "        s=1,";
    "        c=hmm.metastable_assignments[np.concatenate(cluster.dtrajs)],";
    "        cmap=mpl.cm.get_cmap('viridis', hmm.nstates),";
    "        norm=mpl.colors.BoundaryNorm(np.arange(-0.5, hmm.nstates, 1), hmm.nstates))";
    "    ax.set_xlabel('$\Phi$')";
    "    ax.set_ylabel('$\Psi$')";
    "    ax.set_title('HMM with {} hidden states'.format(hmm.nstates))";
    "    cb = fig.colorbar(im, ax=ax)";
    "    cb.set_label('metastable state')";
    "    cb.set_ticks(np.arange(hmm.nstates))";
    "fig.tight_layout()" ].

Definition nb05_cell_1191 : Cell := mkCell 1191 false
  [ "feat = #FIXME";
    "feat. #FIXME";
    "data = #FIXME";
    "";
    "tica = #FIXME";
    "tica_out = np.concatenate(tica.get_output())";
    "";
    "cluster = #FIXME";
    "its = pyemma.msm.its(cluster.dtrajs, lags=[1, 2, 5, 10, 20, 50], nits=4, errors='bayes')";
    "";
    "fig, axes = plt.subplots(1, 3, figsize=(12, 3))";
    "pyemma.plots.plot_feature_histograms(tica_out, ax=axes[0])";
    "axes[1].scatter(*tica_out[:, :2].T, s=1, alpha=0.3)";
    "axes[1].scatter(*cluster.clustercenters[:, :2].T, s=15)";
    "axes[1].set_xlabel('IC 1')";
    "axes[1].set_ylabel('IC 2')";
    "pyemma.plots.plot_implied_timescales(its, ax=axes[2], units='ps')";
    "fig.tight_layout()" ].

Definition nb05_cell_1219 : Cell := mkCell 1219 false
  [ "feat = pyemma.coordinates.featurizer(pdb)";
    "feat.add_distances(feat.select_Heavy())";
    "data = pyemma.coordinates.load(files, features=feat)";
    "";
    "tica = pyemma.coordinates.tica(data, lag=3)";
    "tica_out = np.concatenate(tica.get_output())";
    "";
    "cluster = pyemma.coordinates.cluster_kmeans(tica, k=100, max_iter=50, stride=10)";
    "its = pyemma.msm.its(cluster.dtrajs, lags=[1, 2, 5, 10, 20, 50], nits=4, errors='bayes')";
    "";
    "fig, axes = plt.subplots(1, 3, figsize=(12, 3))";
    "pyemma.plots.plot_feature_histograms(tica_out, ax=axes[0])";
    "axes[1].scatter(*tica_out[:, :2].T, s=1, alpha=0.3)";
    "axes[1].scatter(*cluster.clustercenters[:, :2].T, s=15)";
    "axes[1].set_xlabel('IC 1')";
    "axes[1].set_ylabel('IC 2')";
    "pyemma.plots.plot_implied_timescales(its, ax=axes[2], units='ps')";
    "fig.tight_layout()" ].

Definition nb05_cell_1255 : Cell := mkCell 1255 false
  [ "pyemma.plots.plot_implied_timescales #FIXME" ].

Definition nb05_cell_1266 : Cell := mkCell 1266 false
  [ "pyemma.plots.plot_implied_timescales(";
    "    pyemma.msm.timescales_hmsm(cluster.dtrajs, 6, lags=[1, 2, 3, 4], errors='bayes'));" ].

Definition nb05_cell_1286 : Cell := mkCell 1286 false
  [ "hmm = #FIXME";
    "pyemma.plots. #FIXME" ].

Definition nb05_cell_1298 : Cell := mkCell 1298 false
  [ "hmm = pyemma.msm.bayesian_hidden_markov_model(cluster.dtrajs, 6, lag=1, dt_traj='0.001 ns')";
    "pyemma.plots.plot_cktest(hmm.cktest(mlags=2));" ].

Definition nb05_cell_1318 : Cell := mkCell 1318 false
  [ "#FIXME" ].

Definition nb05_cell_1329 : Cell := mkCell 1329 false
  [ "def draw_panel(ax, i, j):";
    "    im = ax.scatter(";
    "        *tica_out[:, [i, j]].T,";
    "        s=1,";
    "        c=hmm.metastable_assignments[np.concatenate(cluster.dtrajs)],";
    "        cmap=mpl.cm.get_cmap('viridis', 6),";
    "        norm=mpl.colors.BoundaryNorm(np.arange(-0.5, 6, 1), 6))";
    "    cb = fig.colorbar(im, ax=ax)";
    "    cb.set_label('metastable state')";
    "    cb.set_ticks(np.arange(6))";
    "    ax.set_xlabel('IC {}'.format(i + 1))";
    "    ax.set_ylabel('IC {}'.format(j + 1))";
    "";
    "fig, axes = plt.subplots(2, 2, figsize=(10, 8))";
    "draw_panel(axes[0, 0], 0, 2)";
    "draw_panel(axes[0, 1], 1, 2)";
    "draw_panel(axes[1, 0], 0, 1)";
    "axes[1, 1].set_axis_off()";
    "fig.tight_layout()" ].

Definition nb05 : Notebook := mkNotebook "notebooks/03-msm-estimation-and-validation.ipynb" "05 - hidden Markov state models (HMMs)"
  [ nb05_cell_601; nb05_cell_623; nb05_cell_642; nb05_cell_659;
    nb05_cell_685; nb05_cell_712; nb05_cell_734; nb05_cell_750;
    nb05_cell_768; nb05_cell_793; nb05_cell_817; nb05_cell_833;
    nb05_cell_851; nb05_cell_886; nb05_cell_908; nb05_cell_928;
    nb05_cell_953; nb05_cell_987; nb05_cell_1006; nb05_cell_1029;
    nb05_cell_1065; nb05_cell_1091; nb05_cell_1116; nb05_cell_1133;
    nb05_cell_1152; nb05_cell_1191; nb05_cell_1219; nb05_cell_1255;
    nb05_cell_1266; nb05_cell_1286; nb05_cell_1298; nb05_cell_1318;
    nb05_cell_1329 ].

(** [nb07], unnamed/part_000: the code cells of the notebook "07 - common problems & bad data situations"; the number of a cell is the line of part_000 its source starts at. *)
Definition nb07_cell_17 : Cell := mkCell 17 false
  [ "%matplotlib inline";
    "import matplotlib.pyplot as plt";
    "import numpy as np";
    "import mdshare";
    "import pyemma" ].

Definition nb07_cell_39 : Cell := mkCell 39 false
  [ "file = mdshare.fetch('hmm-doublewell-2d-100k.npz', working_directory='data')";
    "with np.load(file) as fh:";
    "    data = fh['trajectory']";
    "trjs = pyemma.coordinates.tica(data).get_output()" ].

Definition nb07_cell_51 : Cell := mkCell 51 false
  [ "def plot_1D_histogram_trajectories(trjs, cl=None, max_traj_length=200, ax=None):";
    "    if ax is None:";
    "        fig, ax = plt.subplots()";
    "    for n, _traj in enumerate(trjs):";
    "        ax.hist(_traj, bins=30, alpha=.33, density=True, color='C{}'.format(n));";
    "    ylims = ax.get_ylim()";
    "    xlims = ax.get_xlim()";
    "    for n, _traj in enumerate(trjs):";
    "        ax.plot(";
    "            _traj[:min(len(_traj), max_traj_length)], ";
    "            np.linspace(*ylims, min(len(_traj), max_traj_length)), ";
    "            alpha=0.6, color='C{}'.format(n), label='traj {}'.format(n))";
    "        if cl is not None:";
    "            ax.plot(";
    "                cl.clustercenters[cl.dtrajs[n][:min(len(_traj), max_traj_length)], 0], ";
    "                np.linspace(*ylims, min(len(_traj), max_traj_length)), ";
    "                '.-', alpha=.6, label='dtraj {}'.format(n), linewidth=.3)";
    "    ax.annotate(";
    "        '', xy=(0.85 * xlims[1], 0.7 * ylims[1]), xytext=(0.85 * xlims[1], 0.3 * ylims[1]),";
    "        arrowprops=dict(fc='C0', ec='None', alpha=0.6, width=2))";
    "    ax.text(0.86 * xlims[1], 0.5 * ylims[1], '$x(time)$', ha='left', va='center', rotation=90)";
    "    ax.set_xlabel('TICA coordinate')";
    "    ax.set_ylabel('histogram counts & trajecotory time')";
    "    ax.legend(loc=2)" ].

Definition nb07_cell_83 : Cell := mkCell 83 false
  [ "fig, ax = plt.subplots(1, 2, figsize=(10, 4))";
    "";
    "cl = pyemma.coordinates.cluster_regspace(trjs, dmin=0.05)";
    "";
    "plot_1D_histogram_trajectories(trjs, cl=cl, ax=ax[0])";
    "";
    "lags = [i + 1 for i in range(10)]";
    "its = pyemma.msm.its(cl.dtrajs, lags=lags)";
    "pyemma.plots.plot_implied_timescales(its, marker='o', ax=ax[1], nits=4)";
    "fig.tight_layout()" ].

Definition nb07_cell_118 : Cell := mkCell 118 false
  [ "file = mdshare.fetch('doublewell_oneway.npy', working_directory='data')";
    "trjs = [trj for trj in np.load(file)]" ].

Definition nb07_cell_128 : Cell := mkCell 128 false
  [ "plot_1D_histogram_trajectories(trjs, max_traj_length=trjs[0].shape[0])" ].

Definition nb07_cell_146 : Cell := mkCell 146 false
  [ "cl_fine = pyemma.coordinates.cluster_regspace(trjs, dmin=0.1)";
    "cl_bad = pyemma.coordinates.cluster_regspace(trjs, dmin=0.7)";
    "print(cl_fine.n_clusters, cl_bad.n_clusters)" ].

Definition nb07_cell_159 : Cell := mkCell 159 false
  [ "fig, axes = plt.subplots(2, 2, figsize=(10, 6), sharey='col')";
    "for cl, ax in zip([cl_bad, cl_fine], axes):";
    "    plot_1D_histogram_trajectories(trjs, cl=cl, max_traj_length=trjs[0].shape[0], ax=ax[0])";
    "    its = pyemma.msm.its(cl.dtrajs, lags=[1, 10, 100, 200, 300, 500, 800, 1000])";
    "    pyemma.plots.plot_implied_timescales(its, marker='o', ax=ax[1], nits=4)";
    "fig.tight_layout()" ].

Definition nb07_cell_186 : Cell := mkCell 186 false
  [ "msm = pyemma.msm.estimate_markov_model(cl_fine.dtrajs, 200)";
    "fig, ax = plt.subplots(1,1)";
    "ax.plot(";
    "    cl_fine.clustercenters[msm.active_set, 0],";
    "    msm.eigenvectors_right()[:, 1],";
    "    'o:',";
    "    label='first eigvec')";
    "tx = ax.twinx()";
    "tx.hist(np.concatenate(trjs), bins=30, alpha=0.33)";
    "tx.set_yticklabels([])";
    "tx.set_yticks([])";
    "fig.legend()";
    "fig.tight_layout()" ].

Definition nb07_cell_216 : Cell := mkCell 216 false
  [ "print(msm.active_set)" ].

Definition nb07_cell_233 : Cell := mkCell 233 false
  [ "file = mdshare.fetch('doublewell_disconnected.npy', working_directory='data')";
    "trjs = [trj for trj in np.load(file)]" ].

Definition nb07_cell_243 : Cell := mkCell 243 false
  [ "plot_1D_histogram_trajectories(trjs, max_traj_length=trjs[0].shape[0])" ].

Definition nb07_cell_252 : Cell := mkCell 252 false
  [ "cl_fine = pyemma.coordinates.cluster_regspace(trjs, dmin=0.1)";
    "cl_bad = pyemma.coordinates.cluster_regspace(trjs, dmin=0.7)";
    "print(cl_fine.n_clusters, cl_bad.n_clusters)" ].

Definition nb07_cell_263 : Cell := mkCell 263 false
  [ "fig, axes = plt.subplots(2, 2, figsize=(10, 6), sharey='col')";
    "for cl, ax in zip([cl_bad, cl_fine], axes):";
    "    plot_1D_histogram_trajectories(trjs, cl=cl, max_traj_length=trjs[0].shape[0], ax=ax[0])";
    "    its = pyemma.msm.its(cl.dtrajs, lags=[1, 10, 100, 200, 300, 500, 800, 1000])";
    "    pyemma.plots.plot_implied_timescales(its, marker='o', ax=ax[1], nits=4)";
    "fig.tight_layout()" ].

Definition nb07_cell_292 : Cell := mkCell 292 false
  [ "msm = pyemma.msm.estimate_markov_model(cl_bad.dtrajs, 200)";
    "msm.pcca(2)";
    "index_order = np.argsort(cl_bad.clustercenters[:, 0])";
    "";
    "fig, ax = plt.subplots(1, 3, figsize=(12, 3))";
    "ax[0].plot(";
    "    cl_bad.clustercenters[index_order, 0],";
    "    msm.eigenvectors_right()[index_order, 1],";
    "    'o:',";
    "    label='1st eigvec')";
    "ax[0].set_title('first eigenvector')";
    "for n, metastable_distribution in enumerate(msm.metastable_distributions):";
    "    ax[1].step(";
    "        cl_bad.clustercenters[index_order, 0],";
    "        metastable_distribution[index_order],";
    "        ':', ";
    "        label='md state {}'.format(n),";
    "        where='mid')";
    "ax[1].set_title('metastable distributions (md)')";
    "ax[2].step(";
    "    cl_bad.clustercenters[index_order, 0],";
    "    msm.pi[index_order],";
    "    'k--',";
    "    label='$\pi$',";
    "    where='mid')";
    "ax[2].set_title('stationary distribution $\pi$')";
    "for _ax in ax:";
    "    tx = _ax.twinx()";
    "    tx.hist(np.concatenate(trjs), bins=30, alpha=0.33)";
    "    tx.set_yticklabels([])";
    "    tx.set_yticks([])";
    "fig.legend(loc=7)";
    "fig.tight_layout()" ].

Definition nb07_cell_346 : Cell := mkCell 346 true
  [ "hmm = msm.coarse_grain(2)" ].

Definition nb07_cell_364 : Cell := mkCell 364 false
  [ "its = pyemma.msm.timescales_hmsm(cl_bad.dtrajs, 2, lags=[1, 3, 4, 10, 100])";
    "pyemma.plots.plot_implied_timescales(its, marker='o', ylog=True);" ].

Definition nb07_cell_393 : Cell := mkCell 393 false
  [ "pdb = mdshare.fetch('alanine-dipeptide-nowater.pdb', working_directory='data')";
    "files = mdshare.fetch('alanine-dipeptide-*-250ns-nowater.dcd', working_directory='data')";
    "feat = pyemma.coordinates.featurizer(pdb)";
    "";
    "feat.add_all()";
    "data = pyemma.coordinates.load(files, features=feat)" ].

Definition nb07_cell_414 : Cell := mkCell 414 false
  [ "tica = pyemma.coordinates.tica(data, lag=data[0].shape[0] - 100, dim=2)";
    "inp = tica.get_output()" ].

Definition nb07_cell_424 : Cell := mkCell 424 false
  [ "pyemma.plots.plot_free_energy(*np.concatenate(inp).T);" ].

Definition nb07_cell_440 : Cell := mkCell 440 false
  [ "clustering = pyemma.coordinates.cluster_kmeans(inp, k=200, max_iter=30, stride=100)" ].

Definition nb07_cell_449 : Cell := mkCell 449 false
  [ "its = pyemma.msm.its(clustering.dtrajs, lags=[1, 5, 10, 20, 30, 50])";
    "pyemma.plots.plot_implied_timescales(its, marker='o', units='ps');" ].

Definition nb07_cell_466 : Cell := mkCell 466 false
  [ "msm = pyemma.msm.estimate_markov_model(clustering.dtrajs, 20)";
    "msm.pcca(2);" ].

Definition nb07_cell_476 : Cell := mkCell 476 false
  [ "stride = 10";
    "metastable_trajs_strided = [msm.metastable_assignments[dtrj[::stride]] for dtrj in clustering.dtrajs]";
    "tica_trajs_strided = [i[::stride] for i in inp]";
    "plt.scatter(*np.concatenate(tica_trajs_strided).T, s=1, c=np.concatenate(metastable_trajs_strided));" ].

Definition nb07_cell_495 : Cell := mkCell 495 false
  [ "pyemma.plots.plot_cktest(msm.cktest(2), units='ps');" ].

Definition nb07_cell_514 : Cell := mkCell 514 false
  [ "fig, ax = plt.subplots(1, 1, figsize=(15, 6), sharey=True, sharex=True)";
    "ax_yticks_labels = []";
    "for n, pcca_traj in enumerate(metastable_trajs_strided):";
    "    ax.plot(range(len(pcca_traj)), msm.n_metastable * n + pcca_traj, color='k', linewidth=0.3)";
    "    ax.scatter(range(len(pcca_traj)), msm.n_metastable * n + pcca_traj, c=pcca_traj, s=0.1)";
    "    ax_yticks_labels.append(((msm.n_metastable * (2 * n + 1) - 1) / 2, n + 1))";
    "ax.set_yticks([l[0] for l in ax_yticks_labels])";
    "ax.set_yticklabels([str(l[1]) for l in ax_yticks_labels])";
    "ax.set_ylabel('Trajectory #')";
    "ax.set_xlabel('time / {} ps'.format(stride))";
    "fig.tight_layout()" ].

Definition nb07_cell_541 : Cell := mkCell 541 false
  [ "fig, axes = plt.subplots(2, 3, figsize=(12, 6), sharex=True, sharey='row')";
    "";
    "for n, trj in enumerate(inp):";
    "    for dim, traj1d in enumerate(trj.T):";
    "        axes[dim, n].plot(traj1d[::stride], linewidth=.5)";
    "for ax in axes[1]:";
    "    ax.set_xlabel('time / {} ps'.format(stride))";
    "for dim, ax in enumerate(axes[:, 0]):";
    "    ax.set_ylabel('IC {}'.format(dim + 1))";
    "for n, ax in enumerate(axes[0]):";
    "    ax.set_title('Trajectory # {}'.format(n + 1))";
    "fig.tight_layout()" ].

Definition nb07_cell_575 : Cell := mkCell 575 false
  [ "tica = pyemma.coordinates.tica(data, lag=10, dim=2)";
    "inp = tica.get_output()";
    "clustering = pyemma.coordinates.cluster_kmeans(inp, k=200, max_iter=30, stride=100)" ].

Definition nb07_cell_586 : Cell := mkCell 586 false
  [ "pyemma.plots.plot_free_energy(*np.concatenate(inp).T);" ].

Definition nb07_cell_602 : Cell := mkCell 602 false
  [ "msm = pyemma.msm.estimate_markov_model(clustering.dtrajs, lag=20)";
    "msm.pcca(2);" ].

Definition nb07_cell_612 : Cell := mkCell 612 false
  [ "metastable_trajs_strided = [msm.metastable_assignments[dtrj[::stride]] for dtrj in clustering.dtrajs]" ].

Definition nb07_cell_621 : Cell := mkCell 621 false
  [ "stride = 10";
    "tica_trajs_strided = [i[::stride] for i in inp]";
    "plt.scatter(*np.concatenate(tica_trajs_strided).T, s=1, c=np.concatenate(metastable_trajs_strided));" ].

Definition nb07_cell_639 : Cell := mkCell 639 false
  [ "fig, ax = plt.subplots(1, 1, figsize=(12, 6), sharey=True, sharex=True)";
    "ax_yticks_labels = []";
    "for n, pcca_traj in enumerate(metastable_trajs_strided):";
    "    ax.plot(range(len(pcca_traj)), msm.n_metastable * n + pcca_traj, color='k', linewidth=0.3)";
    "    ax.scatter(range(len(pcca_traj)), msm.n_metastable * n + pcca_traj, c=pcca_traj, s=0.1)";
    "    ax_yticks_labels.append(((msm.n_metastable * (2 * n + 1) - 1) / 2, n + 1))";
    "ax.set_yticks([l[0] for l in ax_yticks_labels])";
    "ax.set_yticklabels([str(l[1]) for l in ax_yticks_labels])";
    "ax.set_ylabel('Trajectory #')";
    "ax.set_xlabel('time / {} ps'.format(stride))";
    "fig.tight_layout()" ].

Definition nb07 : Notebook := mkNotebook "unnamed/part_000" "07 - common problems & bad data situations"
  [ nb07_cell_17; nb07_cell_39; nb07_cell_51; nb07_cell_83;
    nb07_cell_118; nb07_cell_128; nb07_cell_146; nb07_cell_159;
    nb07_cell_186; nb07_cell_216; nb07_cell_233; nb07_cell_243;
    nb07_cell_252; nb07_cell_263; nb07_cell_292; nb07_cell_346;
    nb07_cell_364; nb07_cell_393; nb07_cell_414; nb07_cell_424;
    nb07_cell_440; nb07_cell_449; nb07_cell_466; nb07_cell_476;
    nb07_cell_495; nb07_cell_514; nb07_cell_541; nb07_cell_575;
    nb07_cell_586; nb07_cell_602; nb07_cell_612; nb07_cell_621;
    nb07_cell_639 ].

(** [nb06], unnamed/part_000: the code cells of the notebook "06 - Expectations and Observables"; the number of a cell is the line of part_000 its source starts at. *)
Definition nb06_cell_727 : Cell := mkCell 727 false
  [ "%matplotlib inline";
    "import matplotlib.pyplot as plt";
    "import numpy as np";
    "import mdshare";
    "import pyemma" ].

Definition nb06_cell_747 : Cell := mkCell 747 false
  [ "file = mdshare.fetch('hmm-doublewell-2d-100k.npz', working_directory='data')";
    "with np.load(file) as fh:";
    "    data = fh['trajectory']";
    "";
    "cluster = pyemma.coordinates.cluster_kmeans(data, k=50, max_iter=50)";
    "its = pyemma.msm.its(";
    "    cluster.dtrajs, lags=[1, 2, 3, 5, 7, 10], nits=3, errors='bayes')";
    "";
    "fig, axes = plt.subplots(1, 3, figsize=(12, 3))";
    "pyemma.plots.plot_feature_histograms(";
    "    data, feature_labels=['$x$', '$y$'], ax=axes[0])";
    "axes[1].scatter(*data.T, s=1, alpha=0.3)";
    "axes[1].scatter(*cluster.clustercenters.T, s=15)";
    "axes[1].set_xlabel('$x$')";
    "axes[1].set_ylabel('$y$')";
    "pyemma.plots.plot_implied_timescales(its, ylog=False, ax=axes[2])";
    "fig.tight_layout()" ].

Definition nb06_cell_772 : Cell := mkCell 772 false
  [ "msm = pyemma.msm.estimate_markov_model(cluster.dtrajs, lag=1)";
    "bayesian_msm = pyemma.msm.bayesian_markov_model(cluster.dtrajs, lag=1)";
    "";
    "print('fraction of states used = {:f}'.format(msm.active_state_fraction))";
    "print('fraction of counts used = {:f}'.format(msm.active_count_fraction))";
    "";
    "nstates = 2";
    "pyemma.plots.plot_cktest(msm.cktest(nstates));" ].

Definition nb06_cell_798 : Cell := mkCell 798 false
  [ "def observable(x, y): ";
    "    return (0.5 * x + y + 4)";
    "";
    "";
    "pcca = msm.pcca(2)";
    "ftraj = observable(*data.T)" ].

Definition nb06_cell_812 : Cell := mkCell 812 false
  [ "fig, ax = plt.subplots(figsize=(5, 4))";
    "ax.hist(ftraj, bins=128, histtype='step', label='All data', color='k', density=True)";
    "for num, metastable_set in enumerate(pcca.metastable_sets):";
    "    traj_indices = np.where(np.isin(cluster.dtrajs[0], metastable_set))[0]";
    "    ax.hist(";
    "        ftraj[traj_indices], bins=64, density=True,";
    "        histtype='step', label='Metastable {}'.format(num + 1))";
    "";
    "ax.legend()";
    "ax.set_xlabel(r'$o(x, y)$')";
    "ax.set_ylabel('Empirical probability')";
    "ax.set_xlim([-2, 7.2])";
    "fig.tight_layout()" ].

Definition nb06_cell_841 : Cell := mkCell 841 false
  [ "observable_vec = np.array([ftraj[cluster.dtrajs[0] == i].mean()";
    "                           for i in range(cluster.n_clusters)])" ].

Definition nb06_cell_858 : Cell := mkCell 858 false
  [ "fig, axes = plt.subplots(1, 2, figsize=(10, 4))";
    "pyemma.plots.scatter_contour(";
    "    *cluster.clustercenters.T,";
    "    observable_vec,";
    "    ax=axes[0],";
    "    cmap='viridis')";
    "axes[0].set_title('Observable')";
    "pyemma.plots.scatter_contour(";
    "    *cluster.clustercenters.T,";
    "    msm.stationary_distribution,";
    "    ax=axes[1],";
    "    cmap='viridis')";
    "axes[1].set_title('MSM stationary distribution')";
    "fig.tight_layout()" ].

Definition nb06_cell_887 : Cell := mkCell 887 false
  [ "print('Experiment {:.3f} -- Prediction from MSM {:.3f}'.format(";
    "    3.5, msm.expectation(observable_vec)))" ].

Definition nb06_cell_907 : Cell := mkCell 907 false
  [ "observable_sample_mean = bayesian_msm.sample_mean('expectation', observable_vec)";
    "print('Bayesian Markov state model confidence interval {:.0f}%'.format(bayesian_msm.conf * 100))";
    "";
    "observable_ci = bayesian_msm.sample_conf('expectation', observable_vec)";
    "print('Observable prediction: {:.2f}, {:.0f}%   CI: [{:.2f}, {:.2f}]'.format(";
    "    observable_sample_mean, bayesian_msm.conf * 100, *observable_ci))" ].

Definition nb06_cell_935 : Cell := mkCell 935 false
  [ "def new_observable(x, y):";
    "    return #FIXME";
    "";
    "";
    "new_ftraj = #FIXME";
    "new_observable_vec = np.array([ftraj[cluster.dtrajs[0] == i].mean()";
    "                               for i in range(cluster.n_clusters)])";
    "";
    "";
    "def is_within(x, a, b):";
    "    return ' not ' if x < a or x > b else ' '";
    "";
    "";
    "experiment2 = 5.0";
    "msm_prediction = #FIXME";
    "bayesian_msm_sample_mean = #FIXME";
    "bayesian_msm_ci95 = #FIXME";
    "";
    "print('Difference between MSM and experiment {:.2f}'.format(experiment2 - msm_prediction))";
    "";
    "print('Expl. {:.1f}, Sample mean {:.2f} and CI [{:.2f}, {:.2f}]'.format(";
    "    experiment2,";
    "    bayesian_msm_sample_mean,";
    "    *bayesian_msm_ci95))";
    "print('Experiment is{}within the 95% CI of the Bayesian MSM'.format(";
    "    is_within(experiment2, *bayesian_msm_ci95)))" ].

Definition nb06_cell_971 : Cell := mkCell 971 false
  [ "def new_observable(x, y):";
    "    return ((2 + y)**2 + x)";
    "";
    "";
    "new_ftraj = new_observable(*data.T)";
    "new_observable_vec = np.array([ftraj[cluster.dtrajs[0] == i].mean()";
    "                               for i in range(cluster.n_clusters)])";
    "";
    "";
    "def is_within(x, a, b):";
    "    return ' not ' if x < a or x > b else ' '";
    "";
    "";
    "experiment2 = 5.0";
    "msm_prediction = msm.expectation(new_observable_vec)";
    "";
    "bayesian_msm_sample_mean = bayesian_msm.sample_mean('expectation', new_observable_vec)";
    "bayesian_msm_ci95 = bayesian_msm.sample_conf('expectation', new_observable_vec)";
    "";
    "print('Difference between MSM and experiment {:.2f}'.format(experiment2 - msm_prediction))";
    "";
    "print('Expl. {:.1f}, Sample mean {:.2f} and CI [{:.2f}, {:.2f}]'.format(";
    "    experiment2,";
    "    bayesian_msm_sample_mean,";
    "    *bayesian_msm_ci95))";
    "print('Experiment is{}within the 95% CI of the Bayesian MSM'.format(";
    "    is_within(experiment2, *bayesian_msm_ci95)))" ].

Definition nb06_cell_1013 : Cell := mkCell 1013 false
  [ "pdb = mdshare.fetch('alanine-dipeptide-nowater.pdb', working_directory='data')";
    "files = mdshare.fetch('alanine-dipeptide-*-250ns-nowater.dcd', working_directory='data')";
    "";
    "feat = pyemma.coordinates.featurizer(pdb)";
    "feat.add_backbone_torsions()";
    "data = pyemma.coordinates.load(files, features=feat)";
    "";
    "cluster = pyemma.coordinates.cluster_kmeans(";
    "    data, k=100, max_iter=50, stride=10)";
    "its = pyemma.msm.its(";
    "    cluster.dtrajs, lags=[1, 2, 5, 10, 20, 50], nits=4, errors='bayes')";
    "";
    "fig, axes = plt.subplots(1, 3, figsize=(12, 3))";
    "pyemma.plots.plot_feature_histograms(";
    "    np.concatenate(data), feature_labels=['$\Phi$', '$\Psi$'], ax=axes[0])";
    "axes[1].scatter(*np.concatenate(data).T, s=1, alpha=0.3)";
    "axes[1].scatter(*cluster.clustercenters.T, s=15)";
    "axes[1].set_xlabel('$\Phi$')";
    "axes[1].set_ylabel('$\Psi$')";
    "pyemma.plots.plot_implied_timescales(its, ax=axes[2], units='ps')";
    "fig.tight_layout()" ].

Definition nb06_cell_1042 : Cell := mkCell 1042 false
  [ "msm = pyemma.msm.estimate_markov_model(";
    "    cluster.dtrajs, lag=10, dt_traj='0.001 ns')";
    "";
    "print('fraction of states used = {:f}'.format(msm.active_state_fraction))";
    "print('fraction of counts used = {:f}'.format(msm.active_count_fraction))";
    "";
    "bayesian_msm = pyemma.msm.bayesian_markov_model(cluster.dtrajs, lag=10)";
    "";
    "nstates = 4";
    "pyemma.plots.plot_cktest(bayesian_msm.cktest(nstates));" ].

Definition nb06_cell_1072 : Cell := mkCell 1072 false
  [ "feat2 = pyemma.coordinates.featurizer(pdb)";
    "feat2.add_dihedrals([[7, 6, 8, 9]])  # add relevant dihedral";
    "print('Atoms involving dihedral: {}'.format(";
    "    [feat2.topology.atom(i) for i in [7, 6, 8, 9]]))";
    "";
    "dihedral = pyemma.coordinates.load(files, features=feat2)  # load to memory";
    "";
    "def Karplus(theta):";
    "    # define forward model";
    "    return 8.754 * np.cos(theta)**2 - 1.222 * np.cos(theta) + 0.111";
    "";
    "";
    "# evaluate forward model on all dihedral trajectories";
    "ftrajs = [Karplus(t.ravel()) for t in dihedral]";
    "";
    "# compute observable for Markov states";
    "jcoupl_markov = np.array([";
    "    [ft[dt == i].mean() for i in range(cluster.n_clusters)]";
    "    for dt, ft in zip([np.hstack(cluster.dtrajs)], [np.hstack(ftrajs)])][0])" ].

Definition nb06_cell_1106 : Cell := mkCell 1106 false
  [ "fig, axes = plt.subplots(1, 2, figsize=(10, 4))";
    "pyemma.plots.scatter_contour(";
    "    *cluster.clustercenters.T,";
    "    jcoupl_markov,";
    "    ax=axes[0], cmap='viridis')";
    "axes[0].set_title(r'$^3J$-coupling')";
    "axes[0].set_xlabel('$\Phi$')";
    "axes[0].set_ylabel('$\Psi$')";
    "pyemma.plots.scatter_contour(";
    "    *cluster.clustercenters.T,";
    "    msm.stationary_distribution,";
    "    ax=axes[1], cmap='viridis')";
    "axes[1].set_title('MSM stationary distribution')";
    "axes[1].set_xlabel('$\Phi$')";
    "axes[1].set_ylabel('$\Psi$')";
    "fig.tight_layout()" ].

Definition nb06_cell_1141 : Cell := mkCell 1141 true
  [ "predicted_3j #FIXME";
    "print('Predicted value of 3J coupling {:.3f} Hz'.format(predicted_3j))" ].

Definition nb06_cell_1153 : Cell := mkCell 1153 false
  [ "predicted_3j = msm.expectation(jcoupl_markov)";
    "print('Predicted value of 3J coupling {:.3f} Hz'.format(predicted_3j))" ].

Definition nb06_cell_1174 : Cell := mkCell 1174 true
  [ "bayesian_sample_mean_3j = #FIXME";
    "bayesian_ci_3j = #FIXME";
    "";
    "print('Predicted 3J coupling {:.3f} ({:.3f})'.format(bayesian_sample_mean_3j, bayesian_ci_3j))" ].

Definition nb06_cell_1188 : Cell := mkCell 1188 false
  [ "bayesian_sample_mean_3j = bayesian_msm.sample_mean('expectation', jcoupl_markov)";
    "bayesian_ci_3j = bayesian_msm.sample_std('expectation', jcoupl_markov)";
    "";
    "print('Predicted 3J coupling {:.3f} ({:.3f})'.format(bayesian_sample_mean_3j, bayesian_ci_3j))" ].

Definition nb06_cell_1207 : Cell := mkCell 1207 false
  [ "pdb = mdshare.fetch('pentapeptide-impl-solv.pdb', working_directory='data')";
    "files = mdshare.fetch('pentapeptide-*-500ns-impl-solv.xtc', working_directory='data')";
    "";
    "feat = pyemma.coordinates.featurizer(pdb)";
    "feat.add_backbone_torsions(cossin=True)";
    "feat.add_sidechain_torsions(which='chi1', cossin=True)";
    "data = pyemma.coordinates.load(files, features=feat)";
    "";
    "tica = pyemma.coordinates.tica(data, lag=20, var_cutoff=0.9)";
    "tica_out = np.concatenate(tica.get_output())";
    "cluster = pyemma.coordinates.cluster_kmeans(";
    "    tica, k=250, max_iter=50, stride=10)";
    "its = pyemma.msm.its(cluster.dtrajs, lags=30, nits=10, errors='bayes')";
    "";
    "fig, axes = plt.subplots(1, 2, figsize=(10, 4))";
    "pyemma.plots.plot_feature_histograms(tica_out, ax=axes[0])";
    "pyemma.plots.plot_implied_timescales(its, ax=axes[1], dt=0.1, units='ns')";
    "fig.tight_layout()" ].

Definition nb06_cell_1233 : Cell := mkCell 1233 false
  [ "msm = pyemma.msm.estimate_markov_model(";
    "    cluster.dtrajs, lag=12, dt_traj='0.1 ns')";
    "";
    "print('fraction of states used = {:f}'.format(msm.active_state_fraction))";
    "print('fraction of counts used = {:f}'.format(msm.active_count_fraction))";
    "";
    "bayesian_msm = pyemma.msm.bayesian_markov_model(";
    "    cluster.dtrajs, lag=12, dt_traj='0.1 ns')" ].

Definition nb06_cell_1249 : Cell := mkCell 1249 false
  [ "nstates = 9";
    "pyemma.plots.plot_cktest(bayesian_msm.cktest(nstates), diag=True)";
    "";
    "hmm = msm.coarse_grain(nstates)" ].

Definition nb06_cell_1287 : Cell := mkCell 1287 false
  [ "from mdtraj import shrake_rupley" ].

Definition nb06_cell_1304 : Cell := mkCell 1304 false
  [ "markov_samples = [pyemma.coordinates.save_traj(files, smpl, outfile=None, top=pdb)";
    "                  for smpl in msm.sample_by_state(50)]" ].

Definition nb06_cell_1314 : Cell := mkCell 1314 false
  [ "# Only the first residue is Tryptophan";
    "markov_average_trp_sasa = [shrake_rupley(sample, mode='residue')[:, 0].mean()";
    "                           for sample in markov_samples]" ].

Definition nb06_cell_1332 : Cell := mkCell 1332 false
  [ "eq_time_ml, eq_acf_ml = msm.correlation(markov_average_trp_sasa, maxtime=5)";
    "";
    "eq_time_bayes, eq_acf_bayes = bayesian_msm.sample_mean(";
    "    'correlation',";
    "    np.array(markov_average_trp_sasa),";
    "    maxtime=5)";
    "";
    "eq_acf_bayes_ci_l, eq_acf_bayes_ci_u = bayesian_msm.sample_conf(";
    "    'correlation',";
    "    np.array(markov_average_trp_sasa),";
    "    maxtime=5)";
    "";
    "fig, ax = plt.subplots(figsize=(5, 4))";
    "ax.plot(eq_time_ml, eq_acf_ml, color='orange', marker='.', label='ML MSM')";
    "ax.plot(";
    "    eq_time_bayes, eq_acf_bayes, ls='--',";
    "    color='teal', label='Bayes sample mean')";
    "ax.fill_between(";
    "    eq_time_bayes, eq_acf_bayes_ci_l[1], eq_acf_bayes_ci_u[1],";
    "    color='teal', alpha=0.2, lw=0)";
    "ax.semilogx()";
    "";
    "ax.set_xlim((eq_time_ml[1], eq_time_ml[-1]))";
    "ax.set_xlabel(r'time / $\mathrm{ns}$')";
    "ax.set_ylabel(r'Trp-1 SASA ACF / $\mathrm{nm}^4$')";
    "";
    "ax.legend()";
    "fig.tight_layout()" ].

Definition nb06_cell_1377 : Cell := mkCell 1377 false
  [ "eq_time_ml, eq_acf_ml = msm.relaxation(";
    "    hmm.metastable_distributions[6],";
    "    markov_average_trp_sasa,";
    "    maxtime=5)";
    "";
    "eq_time_bayes, eq_acf_bayes = bayesian_msm.sample_mean(";
    "    'relaxation',";
    "    hmm.metastable_distributions[6],";
    "    np.array(markov_average_trp_sasa),";
    "    maxtime=5)";
    "";
    "eq_acf_bayes_CI_l, eq_acf_bayes_CI_u = bayesian_msm.sample_conf(";
    "    'relaxation', ";
    "    hmm.metastable_distributions[6],";
    "    np.array(markov_average_trp_sasa),";
    "    maxtime=5)";
    "";
    "fig, ax = plt.subplots(figsize=(5, 4))";
    "ax.semilogx(eq_time_ml, eq_acf_ml, color='orange', marker='^', label='ML MSM')";
    "ax.plot(";
    "    eq_time_bayes, eq_acf_bayes, ls='--',";
    "    color='teal', label='Bayes sample mean')";
    "ax.fill_between(";
    "    eq_time_bayes, eq_acf_bayes_CI_l[1], eq_acf_bayes_CI_u[1],";
    "    color='teal', alpha=0.2, lw=0)";
    "ax.semilogx()";
    "";
    "ax.set_xlim((eq_time_ml[1], eq_time_ml[-1]))";
    "ax.set_xlabel(r'time / $\mathrm{ns}$')";
    "ax.set_ylabel(r'Average Trp-1 SASA / $\mathrm{nm}^2$')";
    "";
    "ax.legend()";
    "fig.tight_layout()" ].

Definition nb06_cell_1432 : Cell := mkCell 1432 false
  [ "#FIXME" ].

Definition nb06_cell_1443 : Cell := mkCell 1443 false
  [ "eq_time_ml, eq_acf_ml = msm.relaxation(";
    "    hmm.metastable_distributions[3],";
    "    markov_average_trp_sasa,";
    "    maxtime=5)";
    "";
    "eq_time_bayes, eq_acf_bayes = bayesian_msm.sample_mean(";
    "    'relaxation',";
    "    hmm.metastable_distributions[3],";
    "    np.array(markov_average_trp_sasa),";
    "    maxtime=5)";
    "";
    "eq_acf_bayes_ci_l, eq_acf_bayes_ci_u = bayesian_msm.sample_conf(";
    "    'relaxation',";
    "    hmm.metastable_distributions[3],";
    "    np.array(markov_average_trp_sasa),";
    "    maxtime=5)";
    "";
    "fig, ax = plt.subplots(figsize=(5, 4))";
    "";
    "ax.semilogx(";
    "    eq_time_ml, eq_acf_ml, color='orange', marker='^', label='ML MSM')";
    "ax.plot(";
    "    eq_time_bayes, eq_acf_bayes, ls='--',";
    "    color='teal', label='Bayes sample mean')";
    "ax.fill_between(";
    "    eq_time_bayes, eq_acf_bayes_ci_l[1], eq_acf_bayes_ci_u[1],";
    "    color='teal', alpha=0.2, lw=0)";
    "ax.semilogx()";
    "";
    "ax.set_xlim((eq_time_ml[1], eq_time_ml[-1]))";
    "ax.set_xlabel(r'time / $\mathrm{ns}$')";
    "ax.set_ylabel(r'Average Trp-1 SASA / $\mathrm{nm}^2$')";
    "";
    "ax.legend()";
    "fig.tight_layout()" ].

Definition nb06_cell_1503 : Cell := mkCell 1503 true
  [ "def new_observable(timescales, amplitudes):";
    "    return timescales[1:].dot(amplitudes[1:])";
    "";
    "";
    "timescales, amplitudes = #FIXME";
    "";
    "print('Value of new observable {:.3e} nm^2 ns'.format(";
    "    new_observable(timescales, amplitudes)))" ].

Definition nb06_cell_1521 : Cell := mkCell 1521 false
  [ "def new_observable(timescales, amplitudes):";
    "    return timescales[1:].dot(amplitudes[1:])";
    "";
    "";
    "timescales, amplitudes = msm.fingerprint_correlation(markov_average_trp_sasa)";
    "";
    "print('Value of new observable {:.3e} nm^2 ns'.format(";
    "    new_observable(timescales, amplitudes)))" ].

Definition nb06 : Notebook := mkNotebook "unnamed/part_000" "06 - Expectations and Observables"
  [ nb06_cell_727; nb06_cell_747; nb06_cell_772; nb06_cell_798;
    nb06_cell_812; nb06_cell_841; nb06_cell_858; nb06_cell_887;
    nb06_cell_907; nb06_cell_935; nb06_cell_971; nb06_cell_1013;
    nb06_cell_1042; nb06_cell_1072; nb06_cell_1106; nb06_cell_1141;
    nb06_cell_1153; nb06_cell_1174; nb06_cell_1188; nb06_cell_1207;
    nb06_cell_1233; nb06_cell_1249; nb06_cell_1287; nb06_cell_1304;
    nb06_cell_1314; nb06_cell_1332; nb06_cell_1377; nb06_cell_1432;
    nb06_cell_1443; nb06_cell_1503; nb06_cell_1521 ].

(** [nb_vamp], unnamed/part_002: the code cells of the notebook "VAMP score based feature selection"; the number of a cell is the line of part_002 its source starts at. *)
Definition nb_vamp_cell_26 : Cell := mkCell 26 false
  [ "%matplotlib inline";
    "import matplotlib.pyplot as plt";
    "import numpy as np";
    "import mdshare";
    "import pyemma" ].

Definition nb_vamp_cell_47 : Cell := mkCell 47 false
  [ "file = mdshare.fetch('hmm-doublewell-2d-100k.npz', working_directory='data')";
    "with np.load(file) as fh:";
    "    data = fh['trajectory']";
    "    good_dtraj = fh['discrete_trajectory']" ].

Definition nb_vamp_cell_66 : Cell := mkCell 66 false
  [ "x = data[:, 0]";
    "y = data[:, 1]";
    "";
    "pyemma.plots.plot_free_energy(x, y)" ].

Definition nb_vamp_cell_78 : Cell := mkCell 78 false
  [ "vamp = pyemma.coordinates.vamp(x)";
    "s_x = vamp.score(x)";
    "s_x" ].

Definition nb_vamp_cell_89 : Cell := mkCell 89 false
  [ "vamp = pyemma.coordinates.vamp(y)";
    "s_y = vamp.score(y)";
    "s_y" ].

Definition nb_vamp_cell_100 : Cell := mkCell 100 false
  [ "vamp = pyemma.coordinates.vamp(data)";
    "s_all = vamp.score(data)";
    "s_all" ].

Definition nb_vamp_cell_111 : Cell := mkCell 111 false
  [ "print('contribution of x-dimension:', s_all - s_y)" ].

Definition nb_vamp_cell_135 : Cell := mkCell 135 false
  [ "pdb = mdshare.fetch('alanine-dipeptide-nowater.pdb', working_directory='data')";
    "files = mdshare.fetch('alanine-dipeptide-*-250ns-nowater.dcd', working_directory='data')";
    "print(pdb)";
    "print(files)" ].

Definition nb_vamp_cell_154 : Cell := mkCell 154 false
  [ "lag = 10" ].

Definition nb_vamp_cell_163 : Cell := mkCell 163 false
  [ "reader_rmsd = pyemma.coordinates.source(files, top=pdb)";
    "reader_rmsd.featurizer.add_minrmsd_to_ref(pdb)";
    "";
    "vamp_minRMSD = pyemma.coordinates.vamp(reader_rmsd, lag=lag)";
    "vamp_minRMSD.score()" ].

Definition nb_vamp_cell_183 : Cell := mkCell 183 false
  [ "reader_bt = pyemma.coordinates.source(files, top=pdb)";
    "reader_bt.featurizer.add_backbone_torsions()";
    "";
    "vamp_bt = pyemma.coordinates.vamp(reader_bt, lag=lag)";
    "vamp_bt.score()" ].

Definition nb_vamp_cell_203 : Cell := mkCell 203 false
  [ "ax = pyemma.plots.plot_feature_histograms(";
    "    np.concatenate(reader_rmsd.get_output()";
    "                  ))";
    "ax.set_title('Minimum RMSD to reference')" ].

Definition nb_vamp_cell_222 : Cell := mkCell 222 false
  [ "cl_rmsd = pyemma.coordinates.cluster_kmeans(data, k=10, max_iter=50)" ].

Definition nb_vamp_cell_238 : Cell := mkCell 238 false
  [ "its_rmsd = pyemma.msm.its(cl_rmsd.dtrajs, lags=60)";
    "ax = pyemma.plots.plot_implied_timescales(its_rmsd, nits=9)";
    "ax.set_title('Implied timescales for minRMSD, 10 kmeans clusters.');" ].

Definition nb_vamp_cell_256 : Cell := mkCell 256 false
  [ "msm_rmsd = pyemma.msm.estimate_markov_model(cl_rmsd.dtrajs, lag=lag)";
    "msm_rmsd.score(cl_rmsd.dtrajs, score_k=3)" ].

Definition nb_vamp_cell_266 : Cell := mkCell 266 false
  [ "cl_backbone_torsions = pyemma.coordinates.cluster_kmeans(reader_bt, k=50)" ].

Definition nb_vamp_cell_275 : Cell := mkCell 275 false
  [ "its_bt = pyemma.msm.its(cl_backbone_torsions.dtrajs, lags=60)";
    "pyemma.plots.plot_implied_timescales(its_bt, nits=9)" ].

Definition nb_vamp_cell_292 : Cell := mkCell 292 false
  [ "msm_bt = pyemma.msm.estimate_markov_model(cl_backbone_torsions.dtrajs, lag=10)";
    "msm_bt.score(cl_backbone_torsions.dtrajs, score_k=3)" ].

Definition nb_vamp_cell_321 : Cell := mkCell 321 false
  [ "pdb = mdshare.fetch('pentapeptide-impl-solv.pdb', working_directory='data')";
    "files = mdshare.fetch('pentapeptide-*-500ns-impl-solv.xtc',";
    "                      working_directory='data')";
    "";
    "feat = pyemma.coordinates.featurizer(pdb)";
    "reader = pyemma.coordinates.source(files, features=feat)";
    "n_processes = 10";
    "lag = 20";
    "# ..." ].

Definition nb_vamp_cell_340 : Cell := mkCell 340 false
  [ "pdb = mdshare.fetch('pentapeptide-impl-solv.pdb', working_directory='data')";
    "files = mdshare.fetch('pentapeptide-*-500ns-impl-solv.xtc',";
    "                      working_directory='data')";
    "";
    "feat = pyemma.coordinates.featurizer(pdb)";
    "reader = pyemma.coordinates.source(files, features=feat)";
    "n_processes = 10";
    "lag = 20";
    "";
    "";
    "def test_feature(feat_name, *args, **kwargs):";
    "    feat.active_features = []";
    "    getattr(feat, 'add_'+feat_name)(*args, **kwargs)";
    "    print('input dimension:', feat.dimension())";
    "    v = pyemma.coordinates.vamp(";
    "        reader, lag=lag, dim=min(n_processes, feat.dimension()))";
    "    s = v.score()";
    "    return s";
    "";
    "";
    "# define distance pairs, including every 5th neighbour";
    "distance_pairs = feat.pairs(np.arange(feat.topology.n_atoms), 5)";
    "";
    "features = [('backbone_torsions', (), dict(cossin=False)),";
    "            ('sidechain_torsions', (), {}),";
    "            ('distances_ca', (), {}),";
    "            ('distances', (distance_pairs, ), {}),";
    "            ('contacts', (feat.topology.select('backbone'), ), {}),";
    "            ]";
    "results = {}";
    "for feat_name, args, kw in features:";
    "    print('scoring', feat_name)";
    "    score = test_feature(feat_name, *args, **kw)";
    "    results[feat_name] = score";
    "";
    "";
    "fig, ax = plt.subplots()";
    "for i, (f, score) in enumerate(results.items()):";
    "    ax.bar(i, height=score, label=f)";
    "ax.legend()";
    "ax.set_ylabel('VAMP-2 score')";
    "ax.set_xticks([])";
    "ax.set_title(r'Input feature score with max dim={dim} and lag $\tau={tau}$'.format(";
    "    dim=n_processes, tau=lag));" ].

Definition nb_vamp_cell_416 : Cell := mkCell 416 false
  [ "results_msm = []";
    "n_clusters = [10, 50, 100, 150, 200,";
    "              300, 500, 800, 1000][::-1]";
    "feat.active_features = []  # clear the active features.";
    "feat.add_???  # FIXME";
    "data = pyemma.coordinates.vamp(";
    "    reader, dim=???, lag=???).get_output()[0]  # FIXME";
    "";
    "";
    "def score_discretization(k, init_centers=None):";
    "    " ++ dq ++ dq ++ dq ++ " re-estimate the kmeans object and estimate/score a MSM on the state space." ++ dq ++ dq ++ dq;
    "    kw = {} if init_centers is None else {'clustercenters': init_centers}";
    "    cl.estimate(data, n_clusters=k, stride=3, **kw)";
    "    dtrajs = cl.assign(data)";
    "    msm = pyemma.msm.estimate_markov_model(dtrajs, lag=lag)";
    "    score_k = min(msm.nstates, n_processes)";
    "    # FIXME: score the msm!";
    "    s_cv = msm.???(score_k=score_k)";
    "    s=msm.???(score_k=score_k)";
    "    results_msm.append((k, s, s_cv))";
    "";
    "# estimate the first kmeans discretization";
    "cl = pyemma.coordinates.cluster_kmeans(keep_data=True, max_iter=15)";
    "score_discretization(k=n_clusters[0])";
    "";
    "# we sub-sample the already estimated centers";
    "# and iterate these for a while prior estimating and scoring the MSM.";
    "for k in n_clusters[1:]:";
    "    inds=np.random.randint(0, k, size=k)";
    "    new_initial_centers=cl.cluster_centers_[inds]";
    "    score_discretization(k, init_centers=new_initial_centers)";
    "";
    "fig, ax=plt.subplots()";
    "for i, (x, score, scores_cv) in enumerate(results_msm):";
    "    y_mean=scores_cv.mean()";
    "    ax.errorbar(x, y=y_mean, yerr=scores_cv.std(), color='green',";
    "                marker='o', label='CV' if i == 0 else None)";
    "    ax.scatter(x, score, marker='s', color='red',";
    "               label='Not validated' if i == 0 else None)";
    "ax.set_xlabel('Number of centers')";
    "ax.set_ylabel('VAMP-2 score')";
    "ax.set_title('MSM VAMP-2 score vs. cluster centers')";
    "ax.legend();" ].

Definition nb_vamp_cell_469 : Cell := mkCell 469 false
  [ "results_msm = []";
    "n_clusters = [10, 50, 100, 150, 200,";
    "              300, 500, 800, 1000][::-1]";
    "feat.active_features = []";
    "feat.add_distances(distance_pairs)";
    "data = pyemma.coordinates.vamp(";
    "    reader, dim=n_processes, lag=lag).get_output()[0]";
    "";
    "def score_discretization(k, init_centers=None):";
    "    " ++ dq ++ dq ++ dq ++ " re-estimate the kmeans object and estimate/score a MSM on the state space." ++ dq ++ dq ++ dq;
    "    kw = {} if init_centers is None else {'clustercenters':init_centers}";
    "    cl.estimate(data, n_clusters=k, stride=3, **kw)";
    "    dtrajs = cl.assign(data)";
    "    msm = pyemma.msm.estimate_markov_model(dtrajs, lag=lag)";
    "    score_k = min(msm.nstates, n_processes)";
    "    s_cv = msm.score_cv(dtrajs, score_k=score_k)";
    "    s = msm.score(dtrajs, score_k=score_k)";
    "    results_msm.append((k, s, s_cv))";
    "";
    "";
    "# estimate the first kmeans discretization";
    "cl = pyemma.coordinates.cluster_kmeans(keep_data=True, max_iter=15)";
    "score_discretization(k=n_clusters[0])";
    "";
    "# we sub-sample the already estimated centers";
    "# and iterate these for a while prior estimating and scoring the MSM.";
    "for k in n_clusters[1:]:";
    "    inds = np.random.randint(0, k, size=k)";
    "    new_initial_centers = cl.cluster_centers_[inds]";
    "    score_discretization(k, init_centers=new_initial_centers)";
    "";
    "fig, ax = plt.subplots()";
    "for i, (x, score, scores_cv) in enumerate(results_msm):";
    "    y_mean = scores_cv.mean()";
    "    ax.errorbar(x, y=y_mean, yerr=scores_cv.std(), color='green',";
    "                marker='o', label='CV' if i == 0 else None)";
    "    ax.scatter(x, score, marker='s', color='red',";
    "               label='Not validated' if i == 0 else None)";
    "ax.set_xlabel('Number of centers')";
    "ax.set_ylabel('VAMP-2 score')";
    "ax.set_title('MSM VAMP-2 score vs. cluster centers')";
    "ax.legend();" ].

Definition nb_vamp : Notebook := mkNotebook "unnamed/part_002" "VAMP score based feature selection"
  [ nb_vamp_cell_26; nb_vamp_cell_47; nb_vamp_cell_66; nb_vamp_cell_78;
    nb_vamp_cell_89; nb_vamp_cell_100; nb_vamp_cell_111; nb_vamp_cell_135;
    nb_vamp_cell_154; nb_vamp_cell_163; nb_vamp_cell_183; nb_vamp_cell_203;
    nb_vamp_cell_222; nb_vamp_cell_238; nb_vamp_cell_256; nb_vamp_cell_266;
    nb_vamp_cell_275; nb_vamp_cell_292; nb_vamp_cell_321; nb_vamp_cell_340;
    nb_vamp_cell_416; nb_vamp_cell_469 ].

Definition repository : list Notebook :=
  [nb01; nb02; nb03; nb05; nb06; nb07; nb_vamp].

(** [all_cells P]: the check [P] holds of every code cell of every
    notebook. *)
Definition all_cells (P : Notebook -> Cell -> bool) : bool :=
  forallb (fun nb => forallb (P nb) (cells nb)) repository.



(** *** Exception handling *)

Definition handler_keywords : list string := ["try"; "except"; "finally"].

Definition has_exception_handler (c : Cell) : bool :=
  existsb (fun l => existsb (fun kw => starts_with_keyword kw l) handler_keywords)
          (source c).

(** *** Fetched data sets *)

Definition fetch_calls (nb : Notebook) : list string :=
  flat_map (fun c => calls "mdshare.fetch" (cell_text c)) (cells nb).

Definition fetched_extension (args : string) : option string :=
  match first_string_literal args with
  | Some name => extension name
  | None => None
  end.

Definition spec_extensions : list string := ["npz"; "pdb"; "dcd"; "xtc"].
Definition fetched_extensions : list string := ["npz"; "npy"; "pdb"; "dcd"; "xtc"].

Definition has_extension (exts : list string) (args : string) : bool :=
  match fetched_extension args with
  | Some e => existsb (String.eqb e) exts
  | None => false
  end.

Definition into_data (args : string) : bool :=
  match kwarg "working_directory" args with
  | Some v => String.eqb v "'data'"
  | None => false
  end.

(** *** Threads *)






(** *** Components of the external library *)

Definition estimators : list string :=
  ["pyemma.coordinates.tica"; "pyemma.coordinates.cluster_kmeans";
   "pyemma.coordinates.cluster_regspace"; "pyemma.coordinates.pca";
   "pyemma.coordinates.vamp"; "pyemma.msm.its";
   "pyemma.msm.estimate_markov_model"; "pyemma.msm.bayesian_markov_model";
   "pyemma.msm.estimate_hidden_markov_model"].

Definition methods : list string :=
  [".score"; ".score_cv"; ".cktest"; ".expectation"; ".correlation";
   ".relaxation"; ".fingerprint_correlation"; ".pcca"; ".coarse_grain"].

Definition component_names : list string :=
  ["tica"; "cluster_kmeans"; "cluster_regspace"; "pca"; "vamp"; "its";
   "estimate_markov_model"; "bayesian_markov_model";
   "estimate_hidden_markov_model"; "score"; "score_cv"; "cktest";
   "expectation"; "correlation"; "relaxation"; "fingerprint_correlation";
   "pcca"; "coarse_grain"].

(** The cells in which [f] is called. *)
Definition call_sites (f : string) : list (string * nat) :=
  flat_map (fun nb =>
    flat_map (fun c => if contains (f ++ "(") (cell_text c)
                       then [(nb_file nb, first_line c)] else [])
             (cells nb)) repository.

Definition invoked (f : string) : bool :=
  match call_sites f with [] => false | _ :: _ => true end.

Definition def_names (c : Cell) : list string :=
  flat_map (fun l => match def_name l with Some n => [n] | None => [] end)
           (source c).

(** The functions the notebooks define themselves. *)
Definition helper_functions : list string :=
  ["stop_spin"; "draw_panel"; "observable"; "new_observable"; "is_within";
   "Karplus"; "plot_1D_histogram_trajectories"; "test_feature";
   "score_discretization"].

(** *** Output and files *)

(** How often [needle] occurs in [hay]. *)
Fixpoint occurrences (needle hay : string) : nat :=
  match hay with
  | EmptyString => 0
  | String _ t => (if prefix needle hay then 1 else 0) + occurrences needle t
  end.






Definition save_traj_calls (c : Cell) : list string :=
  calls "save_traj" (cell_text c).


(** ** The CI configuration (part_003, lines 728-749) *)

Module CI.

Inductive Step :=
| checkout
| run (name : option string) (command : list string)
| store_test_results (path : string).

Record Job := mkJob {
  docker_image : string;
  environment : list (string * string);
  parallelism : nat;
  steps : list Step }.

Definition build : Job :=
  mkJob "continuumio/miniconda3"
        [("PYTHONHASHSEED", "0"); ("OMP_NUM_THREADS", "1"); ("PYEMMA_NJOBS", "1")]
        4
        [ checkout;
          run (Some "conda_config")
              ["conda config --add channels conda-forge";
               "conda config --set always_yes true";
               "conda config --set quiet true"];
          run None ["conda install conda-build"];
          run None ["conda build ."];
          store_test_results "~/junit" ].

(** The shell commands of a job, in the order in which they are run. *)
Definition commands (j : Job) : list string :=
  flat_map (fun st => match st with run _ cmds => cmds | _ => [] end) (steps j).

Definition notebook_markers : list string :=
  ["ipynb"; "notebook"; "jupyter"; "nbconvert"; "nbval"].

Definition library_markers : list string := ["pyemma"; "PyEMMA"; "PYEMMA"].

Definition command_mentions (markers : list string) (cmd : string) : bool :=
  existsb (fun mk => contains mk cmd) markers.

(** The commands that build a conda recipe. *)
Definition build_commands (j : Job) : list string :=
  filter (prefix "conda build") (commands j).

(** The steps before the first command that builds a recipe. *)
Fixpoint steps_before_build (sts : list Step) : list Step :=
  match sts with
  | [] => []
  | run n cmds :: rest =>
      if existsb (prefix "conda build") cmds then []
      else run n cmds :: steps_before_build rest
  | st :: rest => st :: steps_before_build rest
  end.

End CI.

(** ** Notebook 06: observables

    Arrays of rank one are lists.  Case 1 is written over an arbitrary
    number type with its literals and operations, so that it reads the same
    for exact and for rounded arithmetic; [None] stands for a raised
    exception (an index error of a boolean mask of the wrong length, a name
    that is not assigned yet). *)

Module Nb06.

Section Case1.
Variable num : Type.
Variable lit : Q -> num.
Variables add mul div : num -> num -> num.
Variable pow : num -> nat -> num.
Variable of_nat : nat -> num.

(** [def observable(x, y): return (0.5 * x + y + 4)] *)
Definition observable (x y : num) : num :=
  add (add (mul (lit (1 # 2)) x) y) (lit 4).

(** [def new_observable(x, y): return ((2 + y)**2 + x)] *)
Definition new_observable (x y : num) : num :=
  add (pow (add (lit 2) y) 2) x.

Fixpoint map2 (f : num -> num -> num) (xs ys : list num) : list num :=
  match xs, ys with
  | x :: xs', y :: ys' => f x y :: map2 f xs' ys'
  | _, _ => []
  end.

(** [f] called on the unpacked transpose of [data]: its two columns,
    element by element. *)
Definition on_columns (f : num -> num -> num) (data : list (num * num))
  : list num :=
  map2 f (map fst data) (map snd data).

(** The entries of [a] where [mask] holds [True], for a mask of the length
    of [a]; [None] when the lengths differ. *)
Fixpoint select_where (a : list num) (mask : list bool) : option (list num) :=
  match a, mask with
  | [], [] => Some []
  | x :: a', b :: mask' =>
      match select_where a' mask' with
      | Some r => Some (if b then x :: r else r)
      | None => None
      end
  | _, _ => None
  end.

(** [a[mask]] for a boolean array [mask].  A mask of another length than
    [a] is an index error, [None]; numpy checks the length of a boolean
    index only when it is not zero, so the empty mask selects nothing from
    any array. *)
Definition mask_select (a : list num) (mask : list bool) : option (list num) :=
  match mask with
  | [] => Some []
  | _ :: _ => select_where a mask
  end.

Definition sum (a : list num) : num := fold_left add a (lit 0).

(** [a.mean()]; of an empty array it is [0 / 0] in the number type. *)
Definition mean (a : list num) : num := div (sum a) (of_nat (length a)).

Fixpoint all_some {A} (l : list (option A)) : option (list A) :=
  match l with
  | [] => Some []
  | Some x :: l' =>
      match all_some l' with
      | Some r => Some (x :: r)
      | None => None
      end
  | None :: _ => None
  end.

(** [np.array([f[dtraj == i].mean() for i in range(n)])] *)
Definition per_state_means (f : list num) (dtraj : list nat) (n : nat)
  : option (list num) :=
  all_some
    (map (fun i => option_map mean (mask_select f (map (fun d => Nat.eqb d i) dtraj)))
         (seq 0 n)).

(** The names of Case 1: [data], [cluster.dtrajs[0]] and
    [cluster.n_clusters] come from the loading cell and the library. *)
Record Env := mkEnv {
  data : list (num * num);
  dtrajs0 : list nat;
  n_clusters : nat;
  ftraj : option (list num);
  observable_vec : option (list num);
  new_ftraj : option (list num);
  new_observable_vec : option (list num) }.

Definition start (d : list (num * num)) (dtraj : list nat) (n : nat) : Env :=
  mkEnv d dtraj n None None None None.

(** part_000, line 798: [ftraj] is [observable] of the columns of
    [data]. *)
Definition cell_798 (e : Env) : option Env :=
  Some (mkEnv (data e) (dtrajs0 e) (n_clusters e)
              (Some (on_columns observable (data e)))
              (observable_vec e) (new_ftraj e) (new_observable_vec e)).

(** part_000, line 841 *)
Definition cell_841 (e : Env) : option Env :=
  match ftraj e with
  | None => None
  | Some f =>
      match per_state_means f (dtrajs0 e) (n_clusters e) with
      | None => None
      | Some v =>
          Some (mkEnv (data e) (dtrajs0 e) (n_clusters e) (ftraj e)
                      (Some v) (new_ftraj e) (new_observable_vec e))
      end
  end.

(** part_000, line 971, the solution of Exercise 1: [new_ftraj] is
    assigned, and the means are taken of [ftraj]. *)
Definition cell_971 (e : Env) : option Env :=
  let nf := on_columns new_observable (data e) in
  match ftraj e with
  | None => None
  | Some f =>
      match per_state_means f (dtrajs0 e) (n_clusters e) with
      | None => None
      | Some v =>
          Some (mkEnv (data e) (dtrajs0 e) (n_clusters e) (ftraj e)
                      (observable_vec e) (Some nf) (Some v))
      end
  end.

Definition then_cell (r : option Env) (c : Env -> option Env) : option Env :=
  match r with
  | Some e => c e
  | None => None
  end.

Definition run_case1 (e : Env) : option Env :=
  then_cell (then_cell (cell_798 e) cell_841) cell_971.
End Case1.

Arguments data {num} e.
Arguments dtrajs0 {num} e.
Arguments n_clusters {num} e.
Arguments ftraj {num} e.
Arguments observable_vec {num} e.
Arguments new_ftraj {num} e.
Arguments new_observable_vec {num} e.
Arguments start {num} d dtraj n.

(** Exact rational arithmetic, to run the cells. *)
Definition Qpow (x : Q) (n : nat) : Q := Qpower x (Z.of_nat n).
Definition Qof_nat (n : nat) : Q := inject_Z (Z.of_nat n).
Definition run_case1_Q : Env Q -> option (Env Q) :=
  run_case1 Q (fun q => q) Qplus Qmult Qdiv Qpow Qof_nat.

Definition two_frames : list (Q * Q) := [(0, 0); (1, 1)]%Q.

(** [is_within], lines 944 and 980 of part_000, over any numbers with
    their comparisons. *)
Section IsWithin.
Variable num : Type.
Variables lt gt : num -> num -> bool.

Definition is_within_on (x a b : num) : string :=
  if lt x a || gt x b then " not " else " ".
End IsWithin.

Definition Rlt_bool (x y : R) : bool := if Rlt_dec x y then true else false.
Definition Rgt_bool (x y : R) : bool := if Rgt_dec x y then true else false.

Definition is_within : R -> R -> R -> string := is_within_on R Rlt_bool Rgt_bool.

Definition Qlt_bool (x y : Q) : bool := negb (Qle_bool y x).
Definition is_within_Q : Q -> Q -> Q -> string :=
  is_within_on Q Qlt_bool (fun x y => Qlt_bool y x).

(** [Karplus], line 1079 of part_000. *)
Definition Karplus (theta : R) : R :=
  (8.754 * cos theta ^ 2 - 1.222 * cos theta + 0.111)%R.

(** The same polynomial in the cosine. *)
Definition Karplus_of_cos (c : R) : R :=
  (8.754 * c ^ 2 - 1.222 * c + 0.111)%R.

(** [Karplus(t.ravel())] on an array. *)
Definition Karplus_array (t : list R) : list R := map Karplus t.

End Nb06.

(** ** Notebook 07: the centres of a discrete trajectory

    [cl.clustercenters[cl.dtrajs[n][:k], 0]] in
    [plot_1D_histogram_trajectories] (part_000, line 65): the first [k]
    states of the trajectory, each looked up among the rows of the centres,
    column 0.  [None] is an index error. *)

Module Plot.

Definition row_column {A} (centers : list (list A)) (col i : nat) : option A :=
  match nth_error centers i with
  | Some row => nth_error row col
  | None => None
  end.

Fixpoint centers_of {A} (centers : list (list A)) (col : nat) (idx : list nat)
  : option (list A) :=
  match idx with
  | [] => Some []
  | i :: rest =>
      match row_column centers col i, centers_of centers col rest with
      | Some x, Some r => Some (x :: r)
      | _, _ => None
      end
  end.

Definition plotted_centers {A} (centers : list (list A)) (dtraj : list nat)
  (len_traj max_traj_length : nat) : option (list A) :=
  centers_of centers 0 (firstn (Nat.min len_traj max_traj_length) dtraj).

End Plot.

(** ** Notebook 06: what else is computed from the trajectories *)

Module Observables.

(** [np.isin(dtraj, metastable_set)] *)
Definition isin (dtraj metastable_set : list nat) : list bool :=
  map (fun d => existsb (Nat.eqb d) metastable_set) dtraj.

(** [np.where(mask)[0]]: the positions that hold [True]. *)
Fixpoint where_from (i : nat) (mask : list bool) : list nat :=
  match mask with
  | [] => []
  | b :: mask' => (if b then [i] else []) ++ where_from (S i) mask'
  end.

Definition np_where (mask : list bool) : list nat := where_from 0 mask.

(** [a[indices]] for an array of integers; [None] is an index error. *)
Fixpoint take {A} (a : list A) (indices : list nat) : option (list A) :=
  match indices with
  | [] => Some []
  | i :: rest =>
      match nth_error a i, take a rest with
      | Some x, Some r => Some (x :: r)
      | _, _ => None
      end
  end.

(** part_000, lines 815-817: the frames of [ftraj] whose state lies in
    the metastable set. *)
Definition traj_indices (dtraj metastable_set : list nat) : list nat :=
  np_where (isin dtraj metastable_set).

Definition histogram_sample {A} (ftraj : list A) (dtraj metastable_set : list nat)
  : option (list A) :=
  take ftraj (traj_indices dtraj metastable_set).

(** [np.hstack(arrays)] for one-dimensional arrays: the arrays one after
    the other; with no array to stack it is a value error, [None]. *)
Definition hstack {A} (arrays : list (list A)) : option (list A) :=
  match arrays with
  | [] => None
  | _ :: _ => Some (concat arrays)
  end.

Section JCoupling.
Variable num : Type.
Variable lit : Q -> num.
Variables add div : num -> num -> num.
Variable of_nat : nat -> num.

(** part_000, lines 1088-1090: both lists are stacked first; then one row
    of per-state means is computed for the one pair that [zip] yields, and
    of these rows the first is taken. *)
Definition jcoupl_rows (dtrajs : list (list nat)) (ftrajs : list (list num)) (n : nat)
  : option (list (option (list num))) :=
  match hstack dtrajs, hstack ftrajs with
  | Some dt, Some ft =>
      Some (map (fun p => Nb06.per_state_means num lit add div of_nat (snd p) (fst p) n)
                (combine [dt] [ft]))
  | _, _ => None
  end.

Definition jcoupl_markov (dtrajs : list (list nat)) (ftrajs : list (list num)) (n : nat)
  : option (list num) :=
  match jcoupl_rows dtrajs ftrajs n with
  | Some (row :: _) => row
  | _ => None
  end.
End JCoupling.

End Observables.

(** [new_observable(timescales, amplitudes)], lines 1503 and 1521 of
    part_000: the dot product of the two arrays without their first
    entries.  [None] is the error of [dot] for arrays of different
    lengths. *)

Module Fingerprint.

Section Dot.
Variable num : Type.
Variable lit : Q -> num.
Variables add mul : num -> num -> num.

Fixpoint dot (a b : list num) : option num :=
  match a, b with
  | [], [] => Some (lit 0)
  | x :: a', y :: b' => option_map (add (mul x y)) (dot a' b')
  | _, _ => None
  end.

Definition new_observable (timescales amplitudes : list num) : option num :=
  dot (tl timescales) (tl amplitudes).
End Dot.

Definition Rnew_observable : list R -> list R -> option R :=
  new_observable R Q2R Rplus Rmult.

Definition Qnew_observable : list Q -> list Q -> option Q :=
  new_observable Q (fun q => q) Qplus Qmult.

End Fingerprint.

(** ** Notebook 07: the metastable trajectories and their plot
    (part_000, lines 476-479 and 514-525, again at 612-649) *)

Module Metastable.

(** Of [a], the entry at hand and then every [stride]-th one after
    [skip] more. *)
Fixpoint every_from {A} (skip stride : nat) (a : list A) : list A :=
  match a with
  | [] => []
  | x :: a' =>
      match skip with
      | O => x :: every_from (stride - 1) stride a'
      | S k => every_from k stride a'
      end
  end.

(** [a[::stride]]; a step of zero is a value error. *)
Definition strided {A} (stride : nat) (a : list A) : option (list A) :=
  match stride with
  | O => None
  | S _ => Some (every_from 0 stride a)
  end.

(** [[msm.metastable_assignments[dtrj[::stride]] for dtrj in clustering.dtrajs]] *)
Definition metastable_trajs_strided (metastable_assignments : list nat)
  (stride : nat) (dtrajs : list (list nat)) : option (list (list nat)) :=
  Nb06.all_some
    (map (fun dtrj =>
            match strided stride dtrj with
            | Some d => Observables.take metastable_assignments d
            | None => None
            end) dtrajs).


(** [msm.n_metastable * n + pcca_traj] *)
Definition plotted_row (n_metastable n : nat) (pcca_traj : list nat) : list nat :=
  map (fun s => n_metastable * n + s) pcca_traj.

(** [(msm.n_metastable * (2 * n + 1) - 1) / 2] *)
Definition tick (n_metastable n : nat) : Q :=
  (inject_Z (Z.of_nat n_metastable * (2 * Z.of_nat n + 1) - 1)%Z / 2)%Q.

Definition ax_yticks_labels (n_metastable : nat) (trajs : list (list nat))
  : list (Q * nat) :=
  map (fun n => (tick n_metastable n, n + 1)) (seq 0 (length trajs)).

End Metastable.

(** ** Notebook 05: the colour bins of the metastable states
    (lines 1041, 1044, 1159 and 1335 of notebook 03's file) *)

Module ColourBins.

(** [np.arange(start, stop, step)]: the values [start + i * step], as
    many as the ceiling of [(stop - start) / step]. *)
Definition arange (start stop step : Q) : list Q :=
  map (fun i => (start + inject_Z (Z.of_nat i) * step)%Q)
      (seq 0 (Z.to_nat (Qceiling ((stop - start) / step)%Q))).

(** [np.arange(-0.5, nstates, 1)] *)
Definition boundaries (nstates : nat) : list Q :=
  arange (- (1 # 2))%Q (inject_Z (Z.of_nat nstates)) 1%Q.

(** [np.arange(nstates)] *)
Definition ticks (nstates : nat) : list Q :=
  arange 0%Q (inject_Z (Z.of_nat nstates)) 1%Q.

End ColourBins.

(** ** The VAMP notebook (part_002) *)

Module Vamp.

Definition n_processes : nat := 10.
Definition lag : nat := 20.

(** A dictionary keeps its keys in the order they were first set. *)
Fixpoint dict_set {V} (k : string) (v : V) (d : list (string * V)) : list (string * V) :=
  match d with
  | [] => [(k, v)]
  | (k', v') :: d' =>
      if String.eqb k k' then (k, v) :: d' else (k', v') :: dict_set k v d'
  end.

Inductive Printed :=
| scoring (feat_name : string)
| input_dimension (d : nat).

Section TestFeature.
Variables Feature Args Score : Type.
(** The featurizer's method [add_NAME] called with the arguments, on the
    active features it finds: the active features afterwards, or [None]
    when it raises. *)
Variable add : string -> Args -> list Feature -> option (list Feature).
Variable dimension : list Feature -> nat.
(** The score of the VAMP estimate of the reader's features at the lag
    and dimension given. *)
Variable vamp_score : list Feature -> nat -> nat -> Score.

Record Session := mkSession {
  active_features : list Feature;
  printed : list Printed }.

(** Lines 350-357: the score, or [None] when the call raised, and the
    session afterwards. *)
Definition test_feature (feat_name : string) (args : Args) (s : Session)
  : option Score * Session :=
  match add feat_name args [] with
  | None => (None, mkSession [] (printed s))
  | Some fs =>
      let d := dimension fs in
      (Some (vamp_score fs lag (Nat.min n_processes d)),
       mkSession fs (printed s ++ [input_dimension d]))
  end.

(** Lines 369-373: the loop over the features; [false] when a call
    raised and the loop was left. *)
Fixpoint score_features (features : list (string * Args))
  (results : list (string * Score)) (s : Session)
  : bool * list (string * Score) * Session :=
  match features with
  | [] => (true, results, s)
  | (feat_name, args) :: rest =>
      let s1 := mkSession (active_features s) (printed s ++ [scoring feat_name]) in
      match test_feature feat_name args s1 with
      | (Some score, s2) => score_features rest (dict_set feat_name score results) s2
      | (None, s2) => (false, results, s2)
      end
  end.

(** Lines 377-378: one bar per item of [results]: position, height,
    label. *)
Fixpoint bars_from (i : nat) (items : list (string * Score)) : list (nat * Score * string) :=
  match items with
  | [] => []
  | (f, score) :: rest => (i, score, f) :: bars_from (S i) rest
  end.

Definition bars (results : list (string * Score)) : list (nat * Score * string) :=
  bars_from 0 results.
End TestFeature.

Arguments mkSession {Feature} active_features printed.
Arguments active_features {Feature} s.
Arguments printed {Feature} s.

(** Lines 469-498: the discretizations of decreasing size. *)
Definition n_clusters : list nat :=
  rev [10; 50; 100; 150; 200; 300; 500; 800; 1000].

Section ScoreDiscretization.
Variables Center Score : Type.
(** [cl.estimate(data, n_clusters=k, stride=3, **kw)]: the centres of
    [cl] afterwards. *)
Variable estimate : nat -> option (list Center) -> list Center.
(** Assignment, MSM and the two scores [s] and [s_cv] for the centres. *)
Variable score_msm : list Center -> Score * Score.
(** [np.random.randint(0, k, size=k)] in the round given. *)
Variable randint : nat -> nat -> list nat.

Record Run := mkRun {
  cluster_centers_ : list Center;
  results_msm : list (nat * Score * Score) }.

Definition score_discretization (k : nat) (init_centers : option (list Center))
  (r : Run) : Run :=
  let c := estimate k init_centers in
  mkRun c (results_msm r ++ [(k, fst (score_msm c), snd (score_msm c))]).

Fixpoint subsample_rounds (round : nat) (ks : list nat) (r : Run) : option Run :=
  match ks with
  | [] => Some r
  | k :: ks' =>
      let inds := randint round k in
      match Observables.take (cluster_centers_ r) inds with
      | Some new_initial_centers =>
          subsample_rounds (S round) ks'
            (score_discretization k (Some new_initial_centers) r)
      | None => None
      end
  end.

(** [None] is an index error: of [n_clusters[0]] or of the centres. *)
Definition score_all_discretizations (ks : list nat) : option Run :=
  match ks with
  | [] => None
  | k0 :: rest =>
      subsample_rounds 0 rest (score_discretization k0 None (mkRun [] []))
  end.
End ScoreDiscretization.

Arguments cluster_centers_ {Center Score} r.
Arguments results_msm {Center Score} r.

End Vamp.

(** ** Notebook 01: the players the timers stop

    The two viewer cells each bind the global name [p] to a new player,
    set it spinning and start a timer; [stop_spin] looks [p] up when it is
    called.  Players are numbered in the order they are made. *)

Module Viewer.

Record Process := mkProcess {
  players : list bool;
  p : option nat;
  running : nat }.

Fixpoint set_spin (i : nat) (b : bool) (pl : list bool) : list bool :=
  match pl, i with
  | [], _ => []
  | _ :: pl', O => b :: pl'
  | x :: pl', S j => x :: set_spin j b pl'
  end.

(** Lines 126-132 and 431-436 of part_003. *)
Definition show_structure (k : Process) : Process :=
  mkProcess (players k ++ [true]) (Some (length (players k))) (S (running k)).

(** [def stop_spin(): p.spin = False]; [None] is a name error. *)
Definition stop_spin (k : Process) : option Process :=
  match p k with
  | Some i => Some (mkProcess (set_spin i false (players k)) (p k) (running k))
  | None => None
  end.

(** A timer that expires calls [stop_spin] and ends. *)
Definition expire (k : Process) : option Process :=
  match running k, stop_spin k with
  | S n, Some k' => Some (mkProcess (players k') (p k') n)
  | _, _ => None
  end.

End Viewer.

(** ** Exercises and their solutions *)

Definition stub_line (l : string) : bool := contains "FIXME" l || contains "???" l.

(** An exercise cell is one that still holds a gap to fill in. *)
Definition is_stub (c : Cell) : bool := existsb stub_line (source c).

(** The cells of a notebook, each with the one after it. *)
Fixpoint with_next {A} (l : list A) : list (A * A) :=
  match l with
  | x :: ((y :: _) as rest) => (x, y) :: with_next rest
  | _ => []
  end.

(** The lines of an exercise cell, gaps apart, that its solution does not
    repeat. *)
Definition lines_not_kept (stub solution : Cell) : list string :=
  filter (fun l => negb (stub_line l) && negb (existsb (String.eqb l) (source solution)))
         (source stub).

Definition verbatim_notebooks : list string :=
  ["02 - Dimension reduction and discretization";
   "03 - MSM estimation and validation";
   "05 - hidden Markov state models (HMMs)";
   "06 - Expectations and Observables"].

(** * Properties *)

(** ** Checks over all cells *)

Lemma all_cells_sound (P : Notebook -> Cell -> bool) :
  all_cells P = true ->
  forall nb c, In nb repository -> In c (cells nb) -> P nb c = true.
Proof.
  unfold all_cells. intros H nb c Hnb Hc.
  rewrite forallb_forall in H. specialize (H nb Hnb).
  rewrite forallb_forall in H. exact (H c Hc).
Qed.

Lemma existsb_eqb_In (x : string) (l : list string) :
  existsb (String.eqb x) l = true -> In x l.
Proof.
  intro H. apply existsb_exists in H. destruct H as [y [Hy Heq]].
  apply String.eqb_eq in Heq. now subst.
Qed.

Ltac in_list := simpl; repeat (first [left; reflexivity | right]).

(** ** Exceptions *)

(** The cell of notebook 07 that coarse-grains the model (part_000,
    line 346); its metadata carry [skip: true]. *)
Example cell_346_source :
  In nb07_cell_346 (cells nb07) /\
  source nb07_cell_346 = ["hmm = msm.coarse_grain(2)"] /\
  skip nb07_cell_346 = true.
Proof. repeat split. in_list. Qed.

Lemma no_handler_in_any_cell :
  all_cells (fun _ c =>
    negb (has_exception_handler c)
    && forallb (fun kw => Nat.eqb (occurrences kw (cell_text c)) 0)
               handler_keywords) = true.
Proof. vm_compute. reflexivity. Qed.

(** X24: no code cell of any notebook of the repository holds a [try],
    [except] or [finally] statement (the three words occur nowhere in the
    text of a cell), so nothing that a cell raises is caught by the
    notebook. *)
Theorem no_cell_catches_an_exception (nb : Notebook) (c : Cell) :
  In nb repository -> In c (cells nb) ->
  has_exception_handler c = false /\
  forall kw, In kw handler_keywords -> occurrences kw (cell_text c) = 0.
Proof.
  intros Hnb Hc.
  pose proof (all_cells_sound _ no_handler_in_any_cell nb c Hnb Hc) as H.
  cbv beta in H. apply andb_true_iff in H. destruct H as [H1 H2]. split.
  - now apply negb_true_iff in H1.
  - intros kw Hkw. rewrite forallb_forall in H2. now apply Nat.eqb_eq, H2.
Qed.

Lemma no_cell_catches_an_exception_witness :
  has_exception_handler nb07_cell_346 = false /\
  forall kw, In kw handler_keywords -> occurrences kw (cell_text nb07_cell_346) = 0.
Proof.
  apply (no_cell_catches_an_exception nb07 nb07_cell_346).
  - in_list.
  - in_list.
Defined.

(** ** Fetched files *)

Lemma fetches_checked :
  forallb (fun nb =>
    forallb (fun a => has_extension fetched_extensions a && into_data a)
            (fetch_calls nb)) repository = true.
Proof. vm_compute. reflexivity. Qed.

(** Every call of a function named [fetch] is a call of [mdshare.fetch]. *)
Example fetch_is_mdshare_fetch :
  all_cells (fun _ c =>
    Nat.eqb (length (calls "fetch" (cell_text c)))
            (length (calls "mdshare.fetch" (cell_text c)))) = true.
Proof. vm_compute. reflexivity. Qed.

(** C2, as stated, fails: notebook 07 fetches [doublewell_oneway.npy]
    (part_000, line 118), whose extension is none of npz, pdb, dcd, xtc. *)
Lemma npy_is_fetched :
  In nb07 repository /\
  In "'doublewell_oneway.npy', working_directory='data'" (fetch_calls nb07) /\
  fetched_extension "'doublewell_oneway.npy', working_directory='data'" = Some "npy" /\
  ~ In "npy" spec_extensions.
Proof.
  split; [in_list|]. split; [vm_compute; right; left; reflexivity|].
  split; [reflexivity|].
  simpl. intros [H|[H|[H|[H|[]]]]]; discriminate H.
Qed.

(** C2, amended: every data set fetched by a notebook is named with the
    extension npz, npy, pdb, dcd or xtc, and every fetch call passes
    [working_directory='data']. *)
Theorem fetches_go_into_data (nb : Notebook) (args : string) :
  In nb repository -> In args (fetch_calls nb) ->
  (exists e, fetched_extension args = Some e /\ In e fetched_extensions) /\
  kwarg "working_directory" args = Some "'data'".
Proof.
  intros Hnb Ha.
  pose proof fetches_checked as H.
  rewrite forallb_forall in H. specialize (H nb Hnb).
  rewrite forallb_forall in H. specialize (H args Ha).
  apply andb_true_iff in H. destruct H as [He Hd]. split.
  - unfold has_extension in He.
    destruct (fetched_extension args) as [e|]; [|discriminate].
    exists e. split; [reflexivity|]. now apply existsb_eqb_In.
  - unfold into_data in Hd.
    destruct (kwarg "working_directory" args) as [v|]; [|discriminate].
    apply String.eqb_eq in Hd. now subst.
Qed.

Lemma fetches_go_into_data_witness :
  (exists e, fetched_extension "'doublewell_disconnected.npy', working_directory='data'" = Some e
             /\ In e fetched_extensions) /\
  kwarg "working_directory" "'doublewell_disconnected.npy', working_directory='data'"
  = Some "'data'".
Proof.
  apply (fetches_go_into_data nb07).
  - in_list.
  - vm_compute. right. right. left. reflexivity.
Defined.

(** ** Threads *)






(** ** The build job *)

(** X25: the build job of the CI configuration runs one build command,
    [conda build .], after the checkout, the configuration of conda and the
    installation of conda-build; no command of the job names a notebook or
    the library, which shows only in the environment variable
    [PYEMMA_NJOBS]; the results stored are those of [~/junit]. *)
Theorem build_job_runs_one_conda_build :
  CI.build_commands CI.build = ["conda build ."] /\
  CI.steps_before_build (CI.steps CI.build)
  = [CI.checkout;
     CI.run (Some "conda_config")
            ["conda config --add channels conda-forge";
             "conda config --set always_yes true";
             "conda config --set quiet true"];
     CI.run None ["conda install conda-build"]] /\
  forallb (fun cmd =>
             negb (CI.command_mentions CI.notebook_markers cmd)
             && negb (CI.command_mentions CI.library_markers cmd))
          (CI.commands CI.build) = true /\
  filter (fun kv => CI.command_mentions CI.library_markers (fst kv))
         (CI.environment CI.build) = [("PYEMMA_NJOBS", "1")] /\
  last (CI.steps CI.build) CI.checkout = CI.store_test_results "~/junit".
Proof. repeat split. Qed.

(** ** Components *)

Example component_names_of_calls :
  map extension (estimators ++ methods) = map Some component_names.
Proof. reflexivity. Qed.

Lemma components_invoked : forallb invoked (estimators ++ methods) = true.
Proof. vm_compute. reflexivity. Qed.

Lemma defs_checked :
  all_cells (fun _ c =>
    forallb (fun n => existsb (String.eqb n) helper_functions) (def_names c)) = true.
Proof. vm_compute. reflexivity. Qed.

Lemma helpers_are_no_components (n : string) :
  In n helper_functions -> ~ In n component_names.
Proof.
  intros Hh Hc.
  assert (H : forallb (fun h => negb (existsb (String.eqb h) component_names))
                      helper_functions = true) by (vm_compute; reflexivity).
  rewrite forallb_forall in H. specialize (H n Hh).
  apply negb_true_iff in H.
  assert (existsb (String.eqb n) component_names = true) as H'.
  { apply existsb_exists. exists n. split; [assumption|apply String.eqb_refl]. }
  congruence.
Qed.

(** C5, as stated, fails: the cell of notebook 06 at line 1072 of part_000
    defines the forward model [Karplus] itself and evaluates it on all
    dihedral trajectories with numpy. *)
Lemma karplus_is_computed_by_the_notebook :
  In nb06 repository /\ In nb06_cell_1072 (cells nb06) /\
  def_names nb06_cell_1072 = ["Karplus"] /\
  In "    return 8.754 * np.cos(theta)**2 - 1.222 * np.cos(theta) + 0.111"
     (source nb06_cell_1072) /\
  In "ftrajs = [Karplus(t.ravel()) for t in dihedral]" (source nb06_cell_1072).
Proof.
  split; [in_list|]. split; [in_list|]. split; [vm_compute; reflexivity|].
  split; in_list.
Qed.

(** C5, amended: every estimator of the list is called by its qualified
    name in the library and every method of the list is called on an object,
    each at least once in some code cell; no notebook defines a function of
    one of these names: the functions the notebooks define are helpers
    ([stop_spin], [draw_panel], [observable], [new_observable],
    [is_within], [Karplus], [plot_1D_histogram_trajectories],
    [test_feature], [score_discretization]). *)
Theorem components_come_from_the_library (f : string) (nb : Notebook) (c : Cell) :
  In f (estimators ++ methods) -> In nb repository -> In c (cells nb) ->
  invoked f = true /\
  forall n, In n (def_names c) -> In n helper_functions /\ ~ In n component_names.
Proof.
  intros Hf Hnb Hc. split.
  - pose proof components_invoked as H.
    rewrite forallb_forall in H. exact (H f Hf).
  - intros n Hn.
    pose proof (all_cells_sound _ defs_checked nb c Hnb Hc) as H.
    cbv beta in H. rewrite forallb_forall in H. specialize (H n Hn).
    apply existsb_eqb_In in H. split; [assumption|].
    now apply helpers_are_no_components.
Qed.

Lemma components_come_from_the_library_witness :
  invoked ".score_cv" = true /\
  forall n, In n (def_names nb_vamp_cell_469) ->
            In n helper_functions /\ ~ In n component_names.
Proof.
  apply (components_come_from_the_library ".score_cv" nb_vamp nb_vamp_cell_469).
  - in_list.
  - in_list.
  - in_list.
Defined.

(** ** Output and files *)



Example save_traj_is_called_once :
  flat_map (fun nb => flat_map save_traj_calls (cells nb)) repository
  = ["files, smpl, outfile=None, top=pdb"].
Proof. vm_compute. reflexivity. Qed.


(** ** Observables *)

Section Case1Facts.
Variable num : Type.
Variable lit : Q -> num.
Variables add mul div : num -> num -> num.
Variable pow : num -> nat -> num.
Variable of_nat : nat -> num.

Lemma select_where_some (a : list num) (mask : list bool) :
  length mask = length a -> exists r, Nb06.select_where num a mask = Some r.
Proof.
  revert mask. induction a as [|x a IH]; intros [|b mask] H; simpl in H;
    try discriminate.
  - now exists [].
  - injection H as H. destruct (IH mask H) as [r Hr].
    simpl. rewrite Hr. eexists. reflexivity.
Qed.

Lemma mask_select_some (a : list num) (mask : list bool) :
  length mask = length a -> exists r, Nb06.mask_select num a mask = Some r.
Proof.
  intro H. destruct mask as [|b mask].
  - now exists [].
  - now apply select_where_some.
Qed.

Lemma all_some_map {A B} (f : A -> option B) (l : list A) :
  (forall x, In x l -> exists y, f x = Some y) ->
  exists r, Nb06.all_some (map f l) = Some r /\ length r = length l.
Proof.
  induction l as [|x l IH]; intro H.
  - now exists [].
  - destruct (H x (or_introl eq_refl)) as [y Hy].
    destruct IH as [r [Hr Hlen]]; [intros z Hz; apply H; now right|].
    exists (y :: r). simpl. rewrite Hy, Hr. split; [reflexivity|].
    simpl. now rewrite Hlen.
Qed.

Lemma per_state_means_some (f : list num) (dtraj : list nat) (n : nat) :
  length dtraj = length f ->
  exists v, Nb06.per_state_means num lit add div of_nat f dtraj n = Some v
            /\ length v = n.
Proof.
  intro H. unfold Nb06.per_state_means.
  destruct (all_some_map
              (fun i => option_map (Nb06.mean num lit add div of_nat)
                          (Nb06.mask_select num f (map (fun d => Nat.eqb d i) dtraj)))
              (seq 0 n)) as [v [Hv Hlen]].
  - intros i _.
    destruct (mask_select_some f (map (fun d => Nat.eqb d i) dtraj)) as [r Hr].
    + now rewrite length_map.
    + rewrite Hr. eexists. reflexivity.
  - exists v. split; [assumption|]. now rewrite Hlen, length_seq.
Qed.

Lemma length_map2 (f : num -> num -> num) (xs ys : list num) :
  length xs = length ys -> length (Nb06.map2 num f xs ys) = length xs.
Proof.
  revert ys. induction xs as [|x xs IH]; intros [|y ys] H; simpl in *;
    try discriminate; [reflexivity|].
  injection H as H. now rewrite IH.
Qed.

Lemma length_on_columns (f : num -> num -> num) (d : list (num * num)) :
  length (Nb06.on_columns num f d) = length d.
Proof.
  unfold Nb06.on_columns. rewrite length_map2; now rewrite !length_map.
Qed.
End Case1Facts.

(** In exact arithmetic, on two frames in two states, the means of
    [new_ftraj] would be 4 and 10; the vector the solution computes is 4 and
    11/2, the means of the first observable. *)
Example means_of_new_ftraj_differ :
  exists e,
    Nb06.run_case1_Q (Nb06.start Nb06.two_frames [0; 1] 2) = Some e /\
    Nb06.new_ftraj e = Some [4; 10]%Q /\
    option_map (map Qred) (Nb06.new_observable_vec e) = Some [4; 11 # 2]%Q /\
    option_map (map Qred)
      (Nb06.per_state_means Q (fun q => q) Qplus Qdiv Nb06.Qof_nat [4; 10]%Q [0; 1] 2)
    = Some [4; 10]%Q.
Proof. eexists. repeat split. Qed.

(** Whatever the names hold, the solution cell recomputes the vector of
    the cell at line 841 as long as [ftraj] and the clustering are the
    same. *)
Lemma cell_971_repeats_cell_841
  (num : Type) (lit : Q -> num) (add mul div : num -> num -> num)
  (pow : num -> nat -> num) (of_nat : nat -> num) (e e1 e2 : Nb06.Env num) :
  Nb06.cell_841 num lit add div of_nat e = Some e1 ->
  Nb06.cell_971 num lit add div pow of_nat e1 = Some e2 ->
  Nb06.new_observable_vec e2 = Nb06.observable_vec e2.
Proof.
  unfold Nb06.cell_841, Nb06.cell_971. intros H1 H2.
  destruct (Nb06.ftraj e) as [f|] eqn:Hf; [|discriminate].
  destruct (Nb06.per_state_means num lit add div of_nat f (Nb06.dtrajs0 e)
              (Nb06.n_clusters e)) as [v|] eqn:Hv; [|discriminate].
  injection H1 as <-. simpl in H2. rewrite Hv in H2.
  injection H2 as <-. reflexivity.
Qed.

(** C8: whatever the data, the clustering and the arithmetic, when the
    cells of Case 1 are run in order up to the solution of Exercise 1, the
    solution assigns [new_ftraj] and then computes [new_observable_vec] as
    the per-state means of [ftraj], the trajectory of the first observable:
    it is the same vector as [observable_vec], with one entry per cluster. *)
Theorem solution_vector_is_observable_vec
  (num : Type) (lit : Q -> num) (add mul div : num -> num -> num)
  (pow : num -> nat -> num) (of_nat : nat -> num)
  (d : list (num * num)) (dtraj : list nat) (n : nat) :
  length dtraj = length d ->
  exists e v,
    Nb06.run_case1 num lit add mul div pow of_nat (Nb06.start d dtraj n) = Some e /\
    Nb06.ftraj e = Some (Nb06.on_columns num (Nb06.observable num lit add mul) d) /\
    Nb06.new_ftraj e = Some (Nb06.on_columns num (Nb06.new_observable num lit add pow) d) /\
    Nb06.per_state_means num lit add div of_nat
      (Nb06.on_columns num (Nb06.observable num lit add mul) d) dtraj n = Some v /\
    Nb06.observable_vec e = Some v /\
    Nb06.new_observable_vec e = Some v /\
    length v = n.
Proof.
  intro H.
  destruct (per_state_means_some num lit add div of_nat
              (Nb06.on_columns num (Nb06.observable num lit add mul) d) dtraj n)
    as [v [Hv Hlen]].
  - now rewrite length_on_columns.
  - eexists. exists v.
    unfold Nb06.run_case1, Nb06.cell_798, Nb06.then_cell, Nb06.cell_841. simpl.
    rewrite Hv. unfold Nb06.cell_971. simpl. rewrite Hv.
    repeat split; assumption.
Qed.

Lemma solution_vector_is_observable_vec_witness :
  exists e v,
    Nb06.run_case1_Q (Nb06.start Nb06.two_frames [0; 1] 2) = Some e /\
    Nb06.ftraj e
    = Some (Nb06.on_columns Q (Nb06.observable Q (fun q => q) Qplus Qmult) Nb06.two_frames) /\
    Nb06.new_ftraj e
    = Some (Nb06.on_columns Q (Nb06.new_observable Q (fun q => q) Qplus Nb06.Qpow) Nb06.two_frames) /\
    Nb06.per_state_means Q (fun q => q) Qplus Qdiv Nb06.Qof_nat
      (Nb06.on_columns Q (Nb06.observable Q (fun q => q) Qplus Qmult) Nb06.two_frames)
      [0; 1] 2 = Some v /\
    Nb06.observable_vec e = Some v /\
    Nb06.new_observable_vec e = Some v /\
    length v = 2.
Proof.
  apply (solution_vector_is_observable_vec Q (fun q => q) Qplus Qmult Qdiv
           Nb06.Qpow Nb06.Qof_nat Nb06.two_frames [0; 1] 2).
  reflexivity.
Defined.

Lemma Rlt_bool_true (x y : R) : Nb06.Rlt_bool x y = true <-> (x < y)%R.
Proof.
  unfold Nb06.Rlt_bool. destruct (Rlt_dec x y); split; intro H;
    try reflexivity; try assumption; try discriminate; contradiction.
Qed.

Lemma Rgt_bool_true (x y : R) : Nb06.Rgt_bool x y = true <-> (x > y)%R.
Proof.
  unfold Nb06.Rgt_bool. destruct (Rgt_dec x y); split; intro H;
    try reflexivity; try assumption; try discriminate; contradiction.
Qed.

Lemma is_within_not (x a b : R) :
  Nb06.is_within x a b = " not " <-> (x < a \/ x > b)%R.
Proof.
  unfold Nb06.is_within, Nb06.is_within_on.
  rewrite <- Rlt_bool_true, <- Rgt_bool_true, <- orb_true_iff.
  destruct (Nb06.Rlt_bool x a || Nb06.Rgt_bool x b); split; intro H;
    try reflexivity; discriminate.
Qed.

Lemma is_within_values (x a b : R) :
  Nb06.is_within x a b = " not " \/ Nb06.is_within x a b = " ".
Proof.
  unfold Nb06.is_within, Nb06.is_within_on.
  destruct (Nb06.Rlt_bool x a || Nb06.Rgt_bool x b); auto.
Qed.

Example is_within_runs :
  Nb06.is_within_Q 5 (9 # 2) (11 # 2) = " " /\
  Nb06.is_within_Q 5 (51 # 10) 6 = " not " /\
  Nb06.is_within_Q 5 3 4 = " not ".
Proof. repeat split. Qed.

(** C9: for all real numbers [x], [a], [b], [is_within x a b] is [" not "]
    exactly when [x < a] or [x > b], and [" "] otherwise; so it is [" "]
    whenever [a <= x <= b]. *)
Theorem is_within_spec (x a b : R) :
  (Nb06.is_within x a b = " not " <-> (x < a \/ x > b)%R) /\
  (~ (x < a \/ x > b)%R -> Nb06.is_within x a b = " ") /\
  ((a <= x <= b)%R -> Nb06.is_within x a b = " ").
Proof.
  assert (Hno : ~ (x < a \/ x > b)%R -> Nb06.is_within x a b = " ").
  { intro Hn. destruct (is_within_values x a b) as [H|H]; [|assumption].
    apply is_within_not in H. contradiction. }
  split; [apply is_within_not|]. split; [assumption|].
  intros [Ha Hb]. apply Hno. intros [H|H]; lra.
Qed.

Lemma is_within_spec_witness :
  (4 <= 5 <= 6)%R /\ Nb06.is_within 5 4 6 = " ".
Proof.
  split; [lra|].
  apply (is_within_spec 5 4 6). lra.
Defined.

Lemma Karplus_through_cos (theta : R) :
  Nb06.Karplus theta = Nb06.Karplus_of_cos (cos theta).
Proof. reflexivity. Qed.

Lemma Karplus_array_even (t : list R) :
  Nb06.Karplus_array (map Ropp t) = Nb06.Karplus_array t.
Proof.
  unfold Nb06.Karplus_array. rewrite map_map. apply map_ext.
  intro theta. now rewrite !Karplus_through_cos, cos_neg.
Qed.

(** C10: the Karplus forward model has the same value at [theta] and at
    [- theta], for its value is a polynomial in [cos theta]. *)
Theorem Karplus_even (theta : R) :
  Nb06.Karplus (- theta) = Nb06.Karplus theta /\
  Nb06.Karplus theta = Nb06.Karplus_of_cos (cos theta).
Proof.
  split; [|apply Karplus_through_cos].
  now rewrite !Karplus_through_cos, cos_neg.
Qed.

(** ** Indexing the centres *)

Lemma centers_of_in_bounds {A} (centers : list (list A)) (idx : list nat) :
  Forall (fun row => row <> []) centers ->
  Forall (fun d => d < length centers) idx ->
  exists r, Plot.centers_of centers 0 idx = Some r.
Proof.
  intros Hrows Hd. induction Hd as [|i idx Hi _ IH]; simpl.
  - now exists [].
  - destruct IH as [r Hr]. rewrite Hr. unfold Plot.row_column.
    destruct (nth_error centers i) as [row|] eqn:Hrow.
    + rewrite Forall_forall in Hrows.
      destruct row as [|x row].
      * exfalso. apply (Hrows []); [|reflexivity].
        eapply nth_error_In; eassumption.
      * simpl. eexists. reflexivity.
    + apply nth_error_None in Hrow. lia.
Qed.

(** When every state of the discrete trajectory is the index of a centre,
    the lookup of [plot_1D_histogram_trajectories] succeeds, whatever
    [max_traj_length] is.  That the states are such indices is up to the
    clustering of the library. *)
Lemma plotted_centers_in_bounds {A} (centers : list (list A)) (dtraj : list nat)
  (len_traj max_traj_length : nat) :
  Forall (fun row => row <> []) centers ->
  Forall (fun d => d < length centers) dtraj ->
  exists r, Plot.plotted_centers centers dtraj len_traj max_traj_length = Some r.
Proof.
  intros Hrows Hd. unfold Plot.plotted_centers.
  apply centers_of_in_bounds; [assumption|].
  rewrite <- (firstn_skipn (Nat.min len_traj max_traj_length) dtraj) in Hd.
  apply Forall_app in Hd. tauto.
Qed.

Example index_past_the_centres_raises :
  Plot.plotted_centers [[1]; [2]] [0; 2; 1] 3 200 = None.
Proof. reflexivity. Qed.
(** * More properties of the notebooks' own code *)

(** ** [is_within] *)

Lemma is_within_blank (x a b : R) :
  Nb06.is_within x a b = " " <-> (a <= x <= b)%R.
Proof.
  split.
  - intro H. destruct (Rlt_dec x a) as [Hl|Hl].
    + assert (Hn : Nb06.is_within x a b = " not ") by (apply is_within_not; now left).
      rewrite Hn in H. discriminate.
    + destruct (Rgt_dec x b) as [Hg|Hg].
      * assert (Hn : Nb06.is_within x a b = " not ") by (apply is_within_not; now right).
        rewrite Hn in H. discriminate.
      * lra.
  - intros [Ha Hb]. destruct (is_within_values x a b) as [H|H]; [|assumption].
    apply is_within_not in H. lra.
Qed.

(** X1: when the bounds come in the wrong order, [b < a], nothing is
    within: [is_within] answers [" not "] for every [x]. *)
Theorem is_within_inverted_bounds (x a b : R) :
  (b < a)%R -> Nb06.is_within x a b = " not ".
Proof.
  intro H. apply is_within_not.
  destruct (Rlt_dec x a); [now left|right; lra].
Qed.

Lemma is_within_inverted_bounds_witness :
  Nb06.is_within 5 6 4 = " not ".
Proof. apply (is_within_inverted_bounds 5 6 4). lra. Defined.

(** X2: what is within an interval is within every wider one. *)
Theorem is_within_wider (x a b a' b' : R) :
  Nb06.is_within x a b = " " -> (a' <= a)%R -> (b <= b')%R ->
  Nb06.is_within x a' b' = " ".
Proof.
  intros H Ha Hb. apply is_within_blank in H. apply is_within_blank. lra.
Qed.

Lemma is_within_wider_witness :
  Nb06.is_within 5 3 7 = " ".
Proof.
  apply (is_within_wider 5 4 6 3 7).
  - apply is_within_blank. lra.
  - lra.
  - lra.
Defined.

Lemma Qlt_bool_Rlt_bool (x y : Q) :
  Nb06.Qlt_bool x y = Nb06.Rlt_bool (Q2R x) (Q2R y).
Proof.
  unfold Nb06.Qlt_bool, Nb06.Rlt_bool.
  destruct (Rlt_dec (Q2R x) (Q2R y)) as [H|H].
  - apply Rlt_Qlt in H. apply negb_true_iff.
    destruct (Qle_bool y x) eqn:E; [|reflexivity].
    apply Qle_bool_iff in E. exfalso. apply (Qlt_not_le _ _ H). exact E.
  - apply negb_false_iff. apply Qle_bool_iff.
    apply Qnot_lt_le. intro Hq. apply H. now apply Qlt_Rlt.
Qed.

(** On rational numbers, the version of [is_within] that runs gives
    the answer of the version on the real numbers. *)
Theorem is_within_Q_agrees (x a b : Q) :
  Nb06.is_within_Q x a b = Nb06.is_within (Q2R x) (Q2R a) (Q2R b).
Proof.
  unfold Nb06.is_within_Q, Nb06.is_within, Nb06.is_within_on.
  rewrite !Qlt_bool_Rlt_bool.
  replace (Nb06.Rgt_bool (Q2R x) (Q2R b)) with (Nb06.Rlt_bool (Q2R b) (Q2R x));
    [reflexivity|].
  unfold Nb06.Rlt_bool, Nb06.Rgt_bool.
  destruct (Rlt_dec (Q2R b) (Q2R x)), (Rgt_dec (Q2R x) (Q2R b)); try reflexivity;
    unfold Rgt in *; contradiction.
Qed.

(** ** [Karplus] *)

(** X3: the coupling the Karplus model gives is positive and bounded: it
    lies between 0.068 and 10.087 Hz for every angle, and 10.087 is its
    value at [PI]. *)
Theorem Karplus_bounds (theta : R) :
  (0.068 <= Nb06.Karplus theta <= 10.087)%R /\ Nb06.Karplus PI = 10.087%R.
Proof.
  split.
  - rewrite Karplus_through_cos. unfold Nb06.Karplus_of_cos.
    pose proof (COS_bound theta) as [Hl Hu].
    set (c := cos theta) in *. split.
    + assert (0 <= (c - 0.07) ^ 2)%R by apply pow2_ge_0. nra.
    + nra.
  - rewrite Karplus_through_cos, cos_PI. unfold Nb06.Karplus_of_cos. lra.
Qed.

(** ** Per-state means *)

Lemma select_where_none_iff (num : Type) (a : list num) (mask : list bool) :
  Nb06.select_where num a mask = None <-> length mask <> length a.
Proof.
  revert mask. induction a as [|x a IH]; intros [|b mask]; simpl.
  - split; [discriminate|congruence].
  - split; [discriminate|reflexivity].
  - split; [discriminate|reflexivity].
  - specialize (IH mask).
    destruct (Nb06.select_where num a mask) as [r|].
    + split; [discriminate|]. intro H. exfalso.
      assert (Hne : length mask <> length a) by congruence.
      apply IH in Hne. discriminate.
    + split; [|reflexivity]. intros _ H. injection H as H.
      destruct IH as [IH _]. now apply IH.
Qed.

(** Indexing by a mask fails exactly for a mask that is not empty and is
    not of the length of the array. *)
Lemma mask_select_none_iff (num : Type) (a : list num) (mask : list bool) :
  Nb06.mask_select num a mask = None <-> mask <> [] /\ length mask <> length a.
Proof.
  destruct mask as [|b mask].
  - simpl. split; [discriminate|intros [H _]; now contradiction H].
  - unfold Nb06.mask_select. rewrite select_where_none_iff.
    split; [intro H; split; [discriminate|exact H]|intros [_ H]; exact H].
Qed.

Lemma all_some_none_iff {A} (l : list (option A)) :
  Nb06.all_some l = None <-> In None l.
Proof.
  induction l as [|[x|] l IH]; simpl.
  - split; [discriminate|contradiction].
  - destruct (Nb06.all_some l) as [r|].
    + split; [discriminate|]. intros [H|H]; [discriminate|].
      apply IH in H. discriminate.
    + split; [|reflexivity]. intros _. right. now apply IH.
  - split; [now left|reflexivity].
Qed.

Lemma all_some_length {A} (l : list (option A)) (v : list A) :
  Nb06.all_some l = Some v -> length v = length l.
Proof.
  revert v. induction l as [|[x|] l IH]; intros v H; simpl in H.
  - now injection H as <-.
  - destruct (Nb06.all_some l) as [r|]; [|discriminate].
    injection H as <-. simpl. now rewrite (IH r).
  - discriminate.
Qed.

Lemma per_state_means_length
  (num : Type) (lit : Q -> num) (add div : num -> num -> num) (of_nat : nat -> num)
  (f : list num) (dtraj : list nat) (n : nat) (v : list num) :
  Nb06.per_state_means num lit add div of_nat f dtraj n = Some v -> length v = n.
Proof.
  unfold Nb06.per_state_means. intro H. apply all_some_length in H.
  now rewrite length_map, length_seq in H.
Qed.

Lemma per_state_means_none_iff
  (num : Type) (lit : Q -> num) (add div : num -> num -> num) (of_nat : nat -> num)
  (f : list num) (dtraj : list nat) (n : nat) :
  Nb06.per_state_means num lit add div of_nat f dtraj n = None
  <-> n <> 0 /\ dtraj <> [] /\ length dtraj <> length f.
Proof.
  unfold Nb06.per_state_means. rewrite all_some_none_iff, in_map_iff. split.
  - intros [i [Hi Hin]]. apply in_seq in Hin. split; [lia|].
    destruct (Nb06.mask_select num f (map (fun d => Nat.eqb d i) dtraj)) eqn:E;
      [discriminate|].
    apply mask_select_none_iff in E. destruct E as [E1 E2].
    rewrite length_map in E2. split; [|exact E2].
    intros ->. now apply E1.
  - intros [Hn [Hd Hl]]. exists 0. split.
    + assert (E : Nb06.mask_select num f (map (fun d => Nat.eqb d 0) dtraj) = None).
      { apply mask_select_none_iff. rewrite length_map. split; [|exact Hl].
        destruct dtraj; [now contradiction Hd|discriminate]. }
      now rewrite E.
    + apply in_seq. lia.
Qed.

(** X4: the per-state means raise exactly when there is at least one state
    to average and the discrete trajectory is not empty and differs in
    length from the observable trajectory.  With no state nothing is
    indexed, and an empty discrete trajectory gives empty masks, which
    select nothing from an array of any length. *)
Theorem per_state_means_raises_iff
  (num : Type) (lit : Q -> num) (add div : num -> num -> num) (of_nat : nat -> num)
  (f : list num) (dtraj : list nat) (n : nat) :
  Nb06.per_state_means num lit add div of_nat f dtraj n = None
  <-> n <> 0 /\ dtraj <> [] /\ length dtraj <> length f.
Proof. apply per_state_means_none_iff. Qed.

Lemma per_state_means_raises_iff_witness :
  Nb06.per_state_means Q (fun q => q) Qplus Qdiv Nb06.Qof_nat [1; 2]%Q [0] 1 = None
  <-> 1 <> 0 /\ [0] <> [] /\ length [0] <> length [1; 2]%Q.
Proof.
  exact (per_state_means_raises_iff Q (fun q => q) Qplus Qdiv Nb06.Qof_nat
           [1; 2]%Q [0] 1).
Defined.

(** ** The J-coupling of the Markov states *)

Lemma hstack_some {A} (arrays : list (list A)) :
  arrays <> [] -> Observables.hstack arrays = Some (concat arrays).
Proof. destruct arrays; [contradiction|reflexivity]. Qed.

(** X6: [jcoupl_markov] stacks the trajectories before it averages.  It
    raises exactly when one of the two lists holds no trajectory to stack,
    or when there is a state to average and the stacked discrete
    trajectory is not empty and differs in length from the stacked
    observable trajectory; how the frames are split into trajectories does
    not matter.  When it returns, it has one entry per state. *)
Theorem jcoupl_markov_raises_iff
  (num : Type) (lit : Q -> num) (add div : num -> num -> num) (of_nat : nat -> num)
  (dtrajs : list (list nat)) (ftrajs : list (list num)) (n : nat) :
  (Observables.jcoupl_markov num lit add div of_nat dtrajs ftrajs n = None
   <-> dtrajs = [] \/ ftrajs = [] \/
       (n <> 0 /\ concat dtrajs <> [] /\
        length (concat dtrajs) <> length (concat ftrajs))) /\
  (forall v, Observables.jcoupl_markov num lit add div of_nat dtrajs ftrajs n = Some v ->
             length v = n).
Proof.
  unfold Observables.jcoupl_markov, Observables.jcoupl_rows.
  destruct dtrajs as [|dt dtrajs].
  - simpl. split; [split; [now left|reflexivity]|discriminate].
  - rewrite (hstack_some (dt :: dtrajs)) by discriminate.
    destruct ftrajs as [|ft ftrajs].
    + simpl. split; [split; [right; now left|reflexivity]|discriminate].
    + rewrite (hstack_some (ft :: ftrajs)) by discriminate.
      cbn [combine map fst snd]. split.
      * rewrite per_state_means_none_iff. split.
        -- intro H. right. now right.
        -- intros [H|[H|H]]; [discriminate|discriminate|exact H].
      * intros v Hv. now apply per_state_means_length in Hv.
Qed.

Lemma jcoupl_markov_raises_iff_witness :
  (Observables.jcoupl_markov Q (fun q => q) Qplus Qdiv Nb06.Qof_nat
     [[0]; [1]] [[1; 2]%Q; [3]%Q] 2 = None
   <-> [[0]; [1]] = [] \/ [[1; 2]%Q; [3]%Q] = [] \/
       (2 <> 0 /\ concat [[0]; [1]] <> [] /\
        length (concat [[0]; [1]]) <> length (concat [[1; 2]%Q; [3]%Q]))) /\
  (forall v, Observables.jcoupl_markov Q (fun q => q) Qplus Qdiv Nb06.Qof_nat
               [[0]; [1]] [[1; 2]%Q; [3]%Q] 2 = Some v ->
             length v = 2).
Proof.
  exact (jcoupl_markov_raises_iff Q (fun q => q) Qplus Qdiv Nb06.Qof_nat
           [[0]; [1]] [[1; 2]%Q; [3]%Q] 2).
Defined.

(** ** The histograms of the metastable sets *)

Lemma take_none_iff {A} (a : list A) (idx : list nat) :
  Observables.take a idx = None <-> exists i, In i idx /\ length a <= i.
Proof.
  induction idx as [|i idx IH]; simpl.
  - split; [discriminate|]. intros [i [[] _]].
  - destruct (nth_error a i) as [x|] eqn:Hx.
    + destruct (Observables.take a idx) as [r|].
      * split; [discriminate|]. intros [j [[<-|Hj] Hle]].
        -- apply nth_error_None in Hle. congruence.
        -- destruct IH as [_ IH]. discriminate IH. now exists j.
      * split; [|reflexivity]. intros _.
        destruct IH as [IH _]. destruct (IH eq_refl) as [j [Hj Hle]].
        exists j. split; [now right|assumption].
    + split; [|reflexivity]. intros _. exists i. split; [now left|].
      now apply nth_error_None.
Qed.


(** The frames selected from position [start] on, with the part of the
    trajectory that lies before them dropped. *)
Lemma take_where_from {A} (pre ftraj : list A) (dtraj set : list nat) :
  length dtraj <= length ftraj ->
  Observables.take (pre ++ ftraj)%list
    (Observables.where_from (length pre) (Observables.isin dtraj set))
  = Some (map fst (filter (fun fd => existsb (Nat.eqb (snd fd)) set)
                          (combine ftraj dtraj))).
Proof.
  revert pre ftraj. induction dtraj as [|d dtraj IH]; intros pre ftraj Hl.
  - destruct ftraj; reflexivity.
  - destruct ftraj as [|x ftraj]; [simpl in Hl; lia|].
    simpl in Hl. apply le_S_n in Hl.
    specialize (IH (pre ++ [x])%list ftraj Hl).
    rewrite <- app_assoc, length_app in IH. simpl in IH.
    rewrite Nat.add_1_r in IH.
    simpl. destruct (existsb (Nat.eqb d) set); simpl.
    + rewrite IH. rewrite nth_error_app2 by lia.
      rewrite Nat.sub_diag. reflexivity.
    + exact IH.
Qed.

(** X9: when [ftraj] has at least the frames of the discrete trajectory,
    the sample drawn for a metastable set never raises, and it holds, in
    the order of time, exactly the values of the frames whose state is in
    the set. *)
Theorem histogram_sample_is_the_frames_of_the_set {A}
  (ftraj : list A) (dtraj metastable_set : list nat) :
  length dtraj <= length ftraj ->
  Observables.histogram_sample ftraj dtraj metastable_set
  = Some (map fst (filter (fun fd => existsb (Nat.eqb (snd fd)) metastable_set)
                          (combine ftraj dtraj))).
Proof.
  intro H. exact (take_where_from [] ftraj dtraj metastable_set H).
Qed.

Lemma histogram_sample_is_the_frames_of_the_set_witness :
  Observables.histogram_sample [10; 11; 12; 13] [0; 2; 1; 2] [2]
  = Some (map fst (filter (fun fd => existsb (Nat.eqb (snd fd)) [2])
                          (combine [10; 11; 12; 13] [0; 2; 1; 2]))).
Proof.
  apply (histogram_sample_is_the_frames_of_the_set [10; 11; 12; 13] [0; 2; 1; 2] [2]).
  simpl. lia.
Defined.

Lemma where_from_length (mask : list bool) (i : nat) :
  length (Observables.where_from i mask) = length (filter (fun b => b) mask).
Proof.
  revert i. induction mask as [|b mask IH]; intro i; simpl; [reflexivity|].
  destruct b; simpl; now rewrite IH.
Qed.

Lemma traj_indices_cons (d : nat) (dtraj set : list nat) :
  length (Observables.traj_indices (d :: dtraj) set)
  = (if existsb (Nat.eqb d) set then 1 else 0)
    + length (Observables.traj_indices dtraj set).
Proof.
  unfold Observables.traj_indices, Observables.np_where. simpl.
  rewrite length_app, !where_from_length.
  destruct (existsb (Nat.eqb d) set); reflexivity.
Qed.

Lemma sum_of_memberships (d : nat) (sets : list (list nat)) :
  list_sum (map (fun s => if existsb (Nat.eqb d) s then 1 else 0) sets)
  = length (filter (fun s => existsb (Nat.eqb d) s) sets).
Proof.
  induction sets as [|s sets IH]; simpl; [reflexivity|].
  destruct (existsb (Nat.eqb d) s); simpl; now rewrite IH.
Qed.

(** X10: when every state of the discrete trajectory lies in exactly one
    of the metastable sets, the samples of the sets share the frames out:
    their sizes add up to the number of frames. *)
Theorem metastable_samples_share_the_frames
  (dtraj : list nat) (metastable_sets : list (list nat)) :
  (forall d, In d dtraj ->
             length (filter (fun s => existsb (Nat.eqb d) s) metastable_sets) = 1) ->
  list_sum (map (fun s => length (Observables.traj_indices dtraj s)) metastable_sets)
  = length dtraj.
Proof.
  induction dtraj as [|d dtraj IH]; intro H.
  - clear H. induction metastable_sets as [|s sets IHs]; [reflexivity|].
    simpl. exact IHs.
  - assert (Hsplit :
      list_sum (map (fun s => length (Observables.traj_indices (d :: dtraj) s))
                    metastable_sets)
      = list_sum (map (fun s => if existsb (Nat.eqb d) s then 1 else 0) metastable_sets)
        + list_sum (map (fun s => length (Observables.traj_indices dtraj s))
                        metastable_sets)).
    { clear. induction metastable_sets as [|s sets IHs]; simpl; [reflexivity|].
      rewrite traj_indices_cons, IHs. lia. }
    rewrite Hsplit, sum_of_memberships, (H d (or_introl eq_refl)), IH.
    + reflexivity.
    + intros d' Hd'. apply H. now right.
Qed.

Lemma metastable_samples_share_the_frames_witness :
  list_sum (map (fun s => length (Observables.traj_indices [0; 2; 1; 2; 3] s))
                [[0; 1]; [2; 3]])
  = length [0; 2; 1; 2; 3].
Proof.
  apply (metastable_samples_share_the_frames [0; 2; 1; 2; 3] [[0; 1]; [2; 3]]).
  intros d Hd. simpl in Hd.
  repeat (destruct Hd as [<-|Hd]; [reflexivity|]). contradiction.
Defined.

(** ** [new_observable] of timescales and amplitudes *)

Lemma dot_none_iff (num : Type) (lit : Q -> num) (add mul : num -> num -> num)
  (a b : list num) :
  Fingerprint.dot num lit add mul a b = None <-> length a <> length b.
Proof.
  revert b. induction a as [|x a IH]; intros [|y b]; simpl.
  - split; [discriminate|congruence].
  - split; [intros _; discriminate|reflexivity].
  - split; [intros _; discriminate|reflexivity].
  - specialize (IH b).
    destruct (Fingerprint.dot num lit add mul a b); simpl.
    + split; [discriminate|]. intro H. exfalso.
      assert (Hne : length a <> length b) by congruence.
      apply IH in Hne. discriminate.
    + split; [|reflexivity]. intros _ H. injection H as H.
      destruct IH as [IH _]. now apply IH.
Qed.

(** X11: [new_observable] raises exactly when the two arrays differ in
    length once their first entries are dropped: an empty array and an
    array of one entry pass together, and give the empty sum. *)
Theorem new_observable_raises_iff
  (num : Type) (lit : Q -> num) (add mul : num -> num -> num)
  (timescales amplitudes : list num) :
  (Fingerprint.new_observable num lit add mul timescales amplitudes = None
   <-> length (tl timescales) <> length (tl amplitudes)) /\
  (length timescales <= 1 -> length amplitudes <= 1 ->
   Fingerprint.new_observable num lit add mul timescales amplitudes = Some (lit 0%Q)).
Proof.
  unfold Fingerprint.new_observable. split; [apply dot_none_iff|].
  intros Ht Ha.
  destruct timescales as [|t [|t' ts]]; destruct amplitudes as [|a [|a' amps]];
    simpl in *; try lia; reflexivity.
Qed.

Lemma new_observable_raises_iff_witness :
  Fingerprint.Qnew_observable [] [5%Q] = Some 0%Q.
Proof.
  apply (new_observable_raises_iff Q (fun q => q) Qplus Qmult [] [5%Q]);
    simpl; lia.
Defined.

Lemma Rdot_sym (a b : list R) :
  Fingerprint.dot R Q2R Rplus Rmult a b = Fingerprint.dot R Q2R Rplus Rmult b a.
Proof.
  revert b. induction a as [|x a IH]; intros [|y b]; simpl; try reflexivity.
  rewrite IH, (Rmult_comm x y). reflexivity.
Qed.

(** X12: over the real numbers [new_observable] does not depend on the
    order of its two arguments, and it is the full dot product of the two
    arrays once the first timescale is replaced by zero: the first
    amplitude has no weight. *)
Theorem new_observable_symmetric (timescales amplitudes : list R) (t0 a0 : R) :
  Fingerprint.Rnew_observable timescales amplitudes
  = Fingerprint.Rnew_observable amplitudes timescales /\
  Fingerprint.Rnew_observable (t0 :: timescales) (a0 :: amplitudes)
  = Fingerprint.dot R Q2R Rplus Rmult (0%R :: timescales) (a0 :: amplitudes).
Proof.
  unfold Fingerprint.Rnew_observable, Fingerprint.new_observable. split.
  - apply Rdot_sym.
  - simpl. destruct (Fingerprint.dot R Q2R Rplus Rmult timescales amplitudes);
      simpl; [f_equal; lra|reflexivity].
Qed.

(** ** Strided trajectories *)


Lemma every_from_nth {A} (a : list A) (skip stride i : nat) :
  1 <= stride ->
  nth_error (Metastable.every_from skip stride a) i = nth_error a (skip + i * stride).
Proof.
  intro Hs. revert skip i. induction a as [|x a IH]; intros skip i; simpl.
  - now rewrite !nth_error_nil.
  - destruct skip as [|k].
    + destruct i as [|j]; simpl; [reflexivity|].
      rewrite IH. destruct stride as [|s']; [lia|]. simpl.
      f_equal. lia.
    + simpl. apply IH.
Qed.


Lemma take_some {A} (a : list A) (idx : list nat) :
  Forall (fun i => i < length a) idx ->
  exists r, Observables.take a idx = Some r.
Proof.
  intro H. destruct (Observables.take a idx) as [r|] eqn:E; [now exists r|].
  apply take_none_iff in E. destruct E as [i [Hi Hle]].
  rewrite Forall_forall in H. specialize (H i Hi). lia.
Qed.



(** X14: with a stride of at least one, the metastable trajectories raise
    an index error exactly when a state at a multiple of the stride is not
    an index of [metastable_assignments]; the states the stride skips are
    never looked up. *)
Theorem metastable_trajs_strided_raises_iff
  (metastable_assignments : list nat) (stride : nat) (dtrajs : list (list nat)) :
  1 <= stride ->
  (Metastable.metastable_trajs_strided metastable_assignments stride dtrajs = None
   <-> exists dtrj i s,
         In dtrj dtrajs /\ nth_error dtrj (i * stride) = Some s /\
         length metastable_assignments <= s).
Proof.
  intro Hs. unfold Metastable.metastable_trajs_strided, Metastable.strided.
  destruct stride as [|s']; [lia|].
  rewrite all_some_none_iff, in_map_iff. split.
  - intros [dtrj [Hnone Hin]]. apply take_none_iff in Hnone.
    destruct Hnone as [s [Hsin Hle]].
    apply In_nth_error in Hsin. destruct Hsin as [i Hi].
    rewrite every_from_nth in Hi by lia.
    exists dtrj, i, s. repeat split; assumption.
  - intros [dtrj [i [s [Hin [Hnth Hle]]]]]. exists dtrj. split; [|assumption].
    apply take_none_iff. exists s. split; [|assumption].
    apply nth_error_In with i. now rewrite every_from_nth by lia.
Qed.

Lemma metastable_trajs_strided_raises_iff_witness :
  Metastable.metastable_trajs_strided [0; 1] 2 [[0; 7; 1]; [1; 0; 2]] = None
  <-> exists dtrj i s,
        In dtrj [[0; 7; 1]; [1; 0; 2]] /\ nth_error dtrj (i * 2) = Some s /\
        length [0; 1] <= s.
Proof.
  apply (metastable_trajs_strided_raises_iff [0; 1] 2 [[0; 7; 1]; [1; 0; 2]]). lia.
Defined.

Example skipped_state_is_not_looked_up :
  Metastable.metastable_trajs_strided [0; 1] 2 [[0; 7; 1]] = Some [[0; 1]] /\
  Metastable.metastable_trajs_strided [0; 1] 1 [[0; 7; 1]] = None /\
  Metastable.metastable_trajs_strided [0; 1] 0 [[0; 1]] = None.
Proof. repeat split. Qed.

(** ** The rows of the trajectory plot and their ticks *)

(** X15: in the plot of the metastable trajectories every row stays in a
    band of its own: the values of a later trajectory lie above those of an
    earlier one, and the tick of a trajectory is the middle of its band,
    between [n_metastable * n] and [n_metastable * n + n_metastable - 1]. *)
Theorem rows_keep_to_their_bands (n_metastable n n' s s' : nat) :
  s < n_metastable -> s' < n_metastable -> n < n' ->
  n_metastable * n + s < n_metastable * n' + s' /\
  (Metastable.tick n_metastable n
   == (inject_Z (Z.of_nat (n_metastable * n))
       + inject_Z (Z.of_nat (n_metastable * n + (n_metastable - 1)))) / 2)%Q /\
  (Metastable.tick n_metastable n < Metastable.tick n_metastable n')%Q.
Proof.
  intros Hs Hs' Hn. split; [nia|].
  unfold Metastable.tick, Qeq, Qlt, Qdiv, Qmult, Qinv, Qplus, inject_Z.
  cbn [Qnum Qden Pos.mul]. split; nia.
Qed.

Lemma rows_keep_to_their_bands_witness :
  2 * 0 + 1 < 2 * 1 + 0 /\
  (Metastable.tick 2 0
   == (inject_Z (Z.of_nat (2 * 0)) + inject_Z (Z.of_nat (2 * 0 + (2 - 1)))) / 2)%Q /\
  (Metastable.tick 2 0 < Metastable.tick 2 1)%Q.
Proof. apply (rows_keep_to_their_bands 2 0 1 1 0); lia. Defined.

Example ticks_of_three_trajectories :
  Metastable.ax_yticks_labels 2 [[0; 1]; [1]; []]
  = [((1 # 2)%Q, 1); ((5 # 2)%Q, 2); ((9 # 2)%Q, 3)].
Proof. reflexivity. Qed.

(** ** The colour bins of the states *)

Lemma Qceiling_unique (q : Q) (z : Z) :
  (inject_Z z - 1 < q)%Q -> (q <= inject_Z z)%Q -> Qceiling q = z.
Proof.
  intros Hlo Hhi.
  pose proof (Qle_ceiling q) as Hc1. pose proof (Qceiling_lt q) as Hc2.
  assert (H1 : (inject_Z z - 1 < inject_Z (Qceiling q))%Q)
    by exact (Qlt_le_trans _ _ _ Hlo Hc1).
  assert (H2 : (inject_Z (Qceiling q - 1) < inject_Z z)%Q)
    by exact (Qlt_le_trans _ _ _ Hc2 Hhi).
  unfold Qlt, Qminus, Qplus, Qopp, inject_Z in H1, H2. cbn in H1, H2. lia.
Qed.

Lemma arange_nth (start stop step : Q) (m i : nat) :
  Z.to_nat (Qceiling ((stop - start) / step)%Q) = m -> i < m ->
  nth_error (ColourBins.arange start stop step) i
  = Some (start + inject_Z (Z.of_nat i) * step)%Q.
Proof.
  intros Hm Hi. unfold ColourBins.arange. rewrite Hm.
  rewrite nth_error_map, nth_error_seq.
  destruct (Nat.ltb_spec i m); [reflexivity|lia].
Qed.

Lemma boundaries_count (nstates : nat) :
  Z.to_nat (Qceiling ((inject_Z (Z.of_nat nstates) - - (1 # 2)) / 1)%Q) = S nstates.
Proof.
  rewrite (Qceiling_unique _ (Z.of_nat nstates + 1)); [lia| |];
    unfold Qlt, Qle, Qdiv, Qmult, Qinv, Qminus, Qplus, Qopp, inject_Z; cbn; lia.
Qed.

Lemma ticks_count (nstates : nat) :
  Z.to_nat (Qceiling ((inject_Z (Z.of_nat nstates) - 0) / 1)%Q) = nstates.
Proof.
  rewrite (Qceiling_unique _ (Z.of_nat nstates)); [lia| |];
    unfold Qlt, Qle, Qdiv, Qmult, Qinv, Qminus, Qplus, Qopp, inject_Z; cbn; lia.
Qed.

(** X16: the boundaries [np.arange(-0.5, nstates, 1)] are [nstates + 1]
    in number, and every state [s] below [nstates] lies strictly between
    the boundaries [s] and [s + 1]: there is one colour bin for each state,
    and the tick [s] of the colour bar is the state itself. *)
Theorem states_lie_inside_their_bins (nstates s : nat) :
  s < nstates ->
  length (ColourBins.boundaries nstates) = S nstates /\
  length (ColourBins.ticks nstates) = nstates /\
  exists lo hi t,
    nth_error (ColourBins.boundaries nstates) s = Some lo /\
    nth_error (ColourBins.boundaries nstates) (S s) = Some hi /\
    nth_error (ColourBins.ticks nstates) s = Some t /\
    (lo < inject_Z (Z.of_nat s) < hi)%Q /\ (t == inject_Z (Z.of_nat s))%Q.
Proof.
  intro Hs. unfold ColourBins.boundaries, ColourBins.ticks. split; [|split].
  - unfold ColourBins.arange. now rewrite length_map, length_seq, boundaries_count.
  - unfold ColourBins.arange. now rewrite length_map, length_seq, ticks_count.
  - do 3 eexists.
    rewrite (arange_nth _ _ _ (S nstates) s (boundaries_count nstates)) by lia.
    rewrite (arange_nth _ _ _ (S nstates) (S s) (boundaries_count nstates)) by lia.
    rewrite (arange_nth _ _ _ nstates s (ticks_count nstates)) by lia.
    repeat (split; [reflexivity|]).
    unfold Qlt, Qeq, Qmult, Qplus, Qopp, inject_Z. cbn [Qnum Qden Pos.mul]. lia.
Qed.

Lemma states_lie_inside_their_bins_witness :
  length (ColourBins.boundaries 6) = 7 /\
  length (ColourBins.ticks 6) = 6 /\
  exists lo hi t,
    nth_error (ColourBins.boundaries 6) 5 = Some lo /\
    nth_error (ColourBins.boundaries 6) 6 = Some hi /\
    nth_error (ColourBins.ticks 6) 5 = Some t /\
    (lo < inject_Z (Z.of_nat 5) < hi)%Q /\ (t == inject_Z (Z.of_nat 5))%Q.
Proof. apply (states_lie_inside_their_bins 6 5). lia. Defined.

(** ** The VAMP notebook: scoring features *)

Lemma dict_set_new {V} (k : string) (v : V) (d : list (string * V)) :
  ~ In k (map fst d) -> Vamp.dict_set k v d = (d ++ [(k, v)])%list.
Proof.
  induction d as [|[k' v'] d IH]; intro H; simpl; [reflexivity|].
  simpl in H. destruct (String.eqb_spec k k') as [->|Hne].
  - exfalso. apply H. now left.
  - rewrite IH; [reflexivity|]. intro Hin. apply H. now right.
Qed.

Lemma bars_from_labels {Score} (i : nat) (items : list (string * Score)) :
  map (fun b => (fst (fst b), snd b)) (Vamp.bars_from Score i items)
  = combine (seq i (length items)) (map fst items).
Proof.
  revert i. induction items as [|[f sc] items IH]; intro i; simpl; [reflexivity|].
  now rewrite IH.
Qed.

Lemma score_features_appends
  (Feature Args Score : Type)
  (add : string -> Args -> list Feature -> option (list Feature))
  (dimension : list Feature -> nat) (vamp_score : list Feature -> nat -> nat -> Score)
  (features : list (string * Args)) (results : list (string * Score))
  (s : Vamp.Session Feature) :
  NoDup (map fst features) ->
  (forall k, In k (map fst features) -> ~ In k (map fst results)) ->
  (forall fa, In fa features -> add (fst fa) (snd fa) [] <> None) ->
  exists new s',
    Vamp.score_features Feature Args Score add dimension vamp_score features results s
    = (true, (results ++ new)%list, s') /\
    Forall2 (fun fa r =>
               fst r = fst fa /\
               exists fs, add (fst fa) (snd fa) [] = Some fs /\
                          snd r = vamp_score fs Vamp.lag
                                    (Nat.min Vamp.n_processes (dimension fs)))
            features new.
Proof.
  revert results s. induction features as [|[name args] features IH];
    intros results s Hnd Hfresh Hok.
  - exists [], s. simpl. rewrite app_nil_r. split; [reflexivity|constructor].
  - simpl in Hnd. inversion Hnd as [|? ? Hnotin Hnd']; subst.
    simpl. unfold Vamp.test_feature.
    destruct (add name args []) as [fs|] eqn:Hadd.
    + rewrite dict_set_new by (apply Hfresh; now left).
      destruct (IH (results ++ [(name,
                     vamp_score fs Vamp.lag (Nat.min Vamp.n_processes (dimension fs)))])%list
                   (Vamp.mkSession fs
                      ((Vamp.printed s ++ [Vamp.scoring name]) ++
                       [Vamp.input_dimension (dimension fs)])%list) Hnd')
        as [new [s' [Hrun HF]]].
      * intros k Hk Hin. rewrite map_app, in_app_iff in Hin. simpl in Hin.
        destruct Hin as [Hin|[<-|[]]].
        -- apply (Hfresh k); [now right|assumption].
        -- contradiction.
      * intros fa Hfa. apply Hok. now right.
      * eexists. exists s'. cbn [Vamp.printed Vamp.active_features] in *.
        rewrite Hrun, <- app_assoc. split; [reflexivity|].
        constructor; [|exact HF]. simpl. split; [reflexivity|].
        exists fs. split; [assumption|reflexivity].
    + exfalso. apply (Hok (name, args)); [now left|assumption].
Qed.

(** X17: when the features have different names and none of the calls
    raises, the loop gives every feature the score it has when it is the
    only active feature of the featurizer, whatever was active before and
    whatever was scored before it; the results keep the order of the
    features, so bar [i] shows feature [i]. *)
Theorem features_are_scored_one_by_one
  (Feature Args Score : Type)
  (add : string -> Args -> list Feature -> option (list Feature))
  (dimension : list Feature -> nat) (vamp_score : list Feature -> nat -> nat -> Score)
  (features : list (string * Args)) (s : Vamp.Session Feature) :
  NoDup (map fst features) ->
  (forall fa, In fa features -> add (fst fa) (snd fa) [] <> None) ->
  exists results s',
    Vamp.score_features Feature Args Score add dimension vamp_score features [] s
    = (true, results, s') /\
    Forall2 (fun fa r =>
               fst r = fst fa /\
               exists fs, add (fst fa) (snd fa) [] = Some fs /\
                          snd r = vamp_score fs Vamp.lag
                                    (Nat.min Vamp.n_processes (dimension fs)))
            features results /\
    map (fun b => (fst (fst b), snd b)) (Vamp.bars Score results)
    = combine (seq 0 (length features)) (map fst features).
Proof.
  intros Hnd Hok.
  destruct (score_features_appends Feature Args Score add dimension vamp_score
              features [] s Hnd) as [new [s' [Hrun HF]]];
    [intros k _ []|assumption|].
  exists new, s'. split; [exact Hrun|]. split; [exact HF|].
  unfold Vamp.bars. rewrite bars_from_labels.
  assert (Hnames : map fst new = map fst features).
  { clear Hrun Hnd Hok. induction HF as [|fa r fs rs [Hr _] _ IH]; simpl;
      [reflexivity|now rewrite Hr, IH]. }
  now rewrite Hnames, <- (length_map fst new), Hnames, length_map.
Qed.

Lemma features_are_scored_one_by_one_witness :
  exists results s',
    Vamp.score_features nat nat nat (fun name a active => Some (a :: active))
      (fun fs => length fs) (fun fs lag dim => list_sum fs + lag + dim)
      [("distances_ca"%string, 3); ("contacts"%string, 5)]
      [] (Vamp.mkSession [7; 7] [])
    = (true, results, s') /\
    Forall2 (fun fa r =>
               fst r = fst fa /\
               exists fs, Some [snd fa] = Some fs /\
                          snd r = list_sum fs + Vamp.lag
                                  + Nat.min Vamp.n_processes (length fs))
            [("distances_ca"%string, 3); ("contacts"%string, 5)] results /\
    map (fun b => (fst (fst b), snd b)) (Vamp.bars nat results)
    = combine (seq 0 2) ["distances_ca"%string; "contacts"%string].
Proof.
  apply (features_are_scored_one_by_one nat nat nat
           (fun name a active => Some (a :: active))
           (fun fs => length fs) (fun fs lag dim => list_sum fs + lag + dim)
           [("distances_ca"%string, 3); ("contacts"%string, 5)]
           (Vamp.mkSession [7; 7] [])).
  - simpl. repeat constructor; simpl; intuition discriminate.
  - intros fa _. discriminate.
Defined.

Lemma score_features_stops
  (Feature Args Score : Type)
  (add : string -> Args -> list Feature -> option (list Feature))
  (dimension : list Feature -> nat) (vamp_score : list Feature -> nat -> nat -> Score)
  (before after : list (string * Args)) (feat_name : string) (args : Args)
  (results0 results : list (string * Score)) (s s1 : Vamp.Session Feature) :
  Vamp.score_features Feature Args Score add dimension vamp_score before results0 s
  = (true, results, s1) ->
  add feat_name args [] = None ->
  Vamp.score_features Feature Args Score add dimension vamp_score
    (before ++ (feat_name, args) :: after)%list results0 s
  = (false, results,
     Vamp.mkSession [] (Vamp.printed s1 ++ [Vamp.scoring feat_name])%list).
Proof.
  revert results0 s. induction before as [|[n a] before IH]; intros results0 s Hrun Hadd.
  - simpl in Hrun. injection Hrun as <- <-.
    simpl. unfold Vamp.test_feature. now rewrite Hadd.
  - simpl in *. destruct (Vamp.test_feature Feature Args Score add dimension vamp_score
                            n a _) as [[sc|] s2].
    + now apply IH.
    + discriminate.
Qed.

(** X18: when the call for one feature raises, the loop is left at once:
    the results are those of the features before it, the features after
    it are never scored, and the featurizer is left with no active feature
    at all. *)
Theorem scoring_stops_where_a_feature_raises
  (Feature Args Score : Type)
  (add : string -> Args -> list Feature -> option (list Feature))
  (dimension : list Feature -> nat) (vamp_score : list Feature -> nat -> nat -> Score)
  (before after : list (string * Args)) (feat_name : string) (args : Args)
  (results : list (string * Score)) (s s1 : Vamp.Session Feature) :
  Vamp.score_features Feature Args Score add dimension vamp_score before [] s
  = (true, results, s1) ->
  add feat_name args [] = None ->
  Vamp.score_features Feature Args Score add dimension vamp_score
    (before ++ (feat_name, args) :: after)%list [] s
  = (false, results,
     Vamp.mkSession [] (Vamp.printed s1 ++ [Vamp.scoring feat_name])%list).
Proof. apply score_features_stops. Qed.

Lemma scoring_stops_where_a_feature_raises_witness :
  Vamp.score_features nat nat nat
    (fun name a active => if String.eqb name "contacts" then None else Some (a :: active))
    (fun fs => length fs) (fun fs lag dim => list_sum fs + lag + dim)
    ([("distances_ca"%string, 3)] ++ ("contacts"%string, 5) :: [("distances"%string, 1)])%list
    [] (Vamp.mkSession [7; 7] [])
  = (false, [("distances_ca"%string, 24)],
     Vamp.mkSession []
       ([Vamp.scoring "distances_ca"; Vamp.input_dimension 1]
        ++ [Vamp.scoring "contacts"])%list).
Proof.
  apply (scoring_stops_where_a_feature_raises nat nat nat
           (fun name a active => if String.eqb name "contacts" then None else Some (a :: active))
           (fun fs => length fs) (fun fs lag dim => list_sum fs + lag + dim)
           [("distances_ca"%string, 3)] [("distances"%string, 1)] "contacts" 5
           [("distances_ca"%string, 24)] (Vamp.mkSession [7; 7] [])
           (Vamp.mkSession [3] [Vamp.scoring "distances_ca"; Vamp.input_dimension 1])).
  - reflexivity.
  - reflexivity.
Defined.

(** ** The VAMP notebook: discretizations of decreasing size *)

Example n_clusters_decrease :
  Vamp.n_clusters = [1000; 800; 500; 300; 200; 150; 100; 50; 10] /\
  Sorted (fun a b => b <= a) Vamp.n_clusters.
Proof.
  split; [reflexivity|]. unfold Vamp.n_clusters. simpl.
  repeat (constructor; [|repeat constructor; lia]). constructor.
Qed.

Lemma last_cons (k d : nat) (ks : list nat) : last (k :: ks) d = last ks k.
Proof.
  revert k d. induction ks as [|a ks IH]; intros k d; [reflexivity|].
  change (last (k :: a :: ks) d) with (last (a :: ks) d).
  now rewrite (IH a d), (IH a k).
Qed.

Lemma subsample_rounds_run
  (Center Score : Type) (estimate : nat -> option (list Center) -> list Center)
  (score_msm : list Center -> Score * Score) (randint : nat -> nat -> list nat)
  (ks : list nat) (round : nat) (r : Vamp.Run Center Score) :
  (forall k init, length (estimate k init) = k) ->
  (forall rd k, Forall (fun i => i < k) (randint rd k)) ->
  Sorted (fun a b => b <= a) ks ->
  HdRel (fun a b => b <= a) (length (Vamp.cluster_centers_ r)) ks ->
  exists r',
    Vamp.subsample_rounds Center Score estimate score_msm randint round ks r = Some r' /\
    map (fun x => fst (fst x)) (Vamp.results_msm r')
    = (map (fun x => fst (fst x)) (Vamp.results_msm r) ++ ks)%list /\
    length (Vamp.cluster_centers_ r') = last ks (length (Vamp.cluster_centers_ r)).
Proof.
  intros Hest Hrand. revert round r.
  induction ks as [|k ks IH]; intros round r Hsorted Hhd.
  - exists r. simpl. rewrite app_nil_r. repeat split.
  - cbn [Vamp.subsample_rounds].
    assert (Hk : k <= length (Vamp.cluster_centers_ r)) by (now inversion Hhd).
    destruct (take_some (Vamp.cluster_centers_ r) (randint round k)) as [c Hc].
    { eapply Forall_impl; [|apply Hrand]. simpl. intros i Hi. lia. }
    rewrite Hc. inversion Hsorted as [|? ? Hs Hh]; subst.
    destruct (IH (S round)
                (Vamp.score_discretization Center Score estimate score_msm k (Some c) r)
                Hs) as [r' [Hrun [Hks Hlast]]].
    { unfold Vamp.score_discretization. simpl. now rewrite Hest. }
    exists r'. split; [exact Hrun|]. split.
    + rewrite Hks. unfold Vamp.score_discretization. simpl.
      rewrite map_app, <- app_assoc. reflexivity.
    + rewrite last_cons, Hlast. unfold Vamp.score_discretization. simpl.
      now rewrite Hest.
Qed.

(** X19: as long as an estimate with [n_clusters=k] leaves [k] centres
    and the random indices lie below [k], the discretizations are scored
    without an index error whenever the numbers of centres do not
    increase, as they do not in [n_clusters]: the indices drawn always hit
    centres of the estimate before.  One result is recorded per number of
    centres, in their order. *)
Theorem decreasing_discretizations_are_scored
  (Center Score : Type) (estimate : nat -> option (list Center) -> list Center)
  (score_msm : list Center -> Score * Score) (randint : nat -> nat -> list nat)
  (k0 : nat) (ks : list nat) :
  (forall k init, length (estimate k init) = k) ->
  (forall rd k, Forall (fun i => i < k) (randint rd k)) ->
  Sorted (fun a b => b <= a) (k0 :: ks) ->
  exists r,
    Vamp.score_all_discretizations Center Score estimate score_msm randint (k0 :: ks)
    = Some r /\
    map (fun x => fst (fst x)) (Vamp.results_msm r) = k0 :: ks /\
    length (Vamp.cluster_centers_ r) = last ks k0.
Proof.
  intros Hest Hrand Hsorted. unfold Vamp.score_all_discretizations.
  inversion Hsorted as [|? ? Hs Hh]; subst.
  destruct (subsample_rounds_run Center Score estimate score_msm randint ks 0
              (Vamp.score_discretization Center Score estimate score_msm k0 None
                 (Vamp.mkRun Center Score [] []))
              Hest Hrand Hs) as [r [Hrun [Hks Hlast]]].
  - unfold Vamp.score_discretization. simpl. now rewrite Hest.
  - exists r. split; [exact Hrun|]. split; [exact Hks|].
    rewrite Hlast. unfold Vamp.score_discretization. simpl. now rewrite Hest.
Qed.

Lemma decreasing_discretizations_are_scored_witness :
  exists r,
    Vamp.score_all_discretizations nat nat (fun k _ => seq 0 k)
      (fun c => (length c, length c)) (fun rd k => repeat 0 k)
      (1000 :: [800; 500; 300; 200; 150; 100; 50; 10])
    = Some r /\
    map (fun x => fst (fst x)) (Vamp.results_msm r)
    = 1000 :: [800; 500; 300; 200; 150; 100; 50; 10] /\
    length (Vamp.cluster_centers_ r) = last [800; 500; 300; 200; 150; 100; 50; 10] 1000.
Proof.
  apply (decreasing_discretizations_are_scored nat nat (fun k _ => seq 0 k)
           (fun c => (length c, length c)) (fun rd k => repeat 0 k)).
  - intros k _. apply length_seq.
  - intros _ k. destruct k as [|k]; [constructor|].
    apply Forall_forall. intros i Hi. apply repeat_spec in Hi. lia.
  - exact (proj2 n_clusters_decrease).
Defined.

(** In increasing order the indices can miss the centres. *)
Example increasing_discretizations_can_raise :
  Vamp.score_all_discretizations nat nat (fun k _ => seq 0 k)
    (fun c => (length c, length c)) (fun rd k => repeat (k - 1) k) [10; 50]
  = None.
Proof. reflexivity. Qed.

(** ** Notebook 01: which player a timer stops *)

Lemma set_spin_at_length (b : bool) (before after : list bool) (x : bool) :
  Viewer.set_spin (length before) b (before ++ x :: after)%list
  = (before ++ b :: after)%list.
Proof. induction before as [|y before IH]; simpl; [reflexivity|now rewrite IH]. Qed.

(** X20: [stop_spin] looks the player up under the name [p] when it is
    called.  Once the second viewer cell has run, both timers stop the
    second player: the player of the first cell keeps spinning after both
    timers have expired. *)
Theorem first_player_keeps_spinning (k : Viewer.Process) :
  exists k1 k2,
    Viewer.expire (Viewer.show_structure (Viewer.show_structure k)) = Some k1 /\
    Viewer.expire k1 = Some k2 /\
    nth_error (Viewer.players k2) (length (Viewer.players k)) = Some true /\
    nth_error (Viewer.players k2) (S (length (Viewer.players k))) = Some false /\
    Viewer.running k2 = Viewer.running k.
Proof.
  destruct k as [pl p r]. unfold Viewer.show_structure, Viewer.expire, Viewer.stop_spin.
  cbn [Viewer.players Viewer.p Viewer.running].
  rewrite (set_spin_at_length false (pl ++ [true])%list [] true).
  do 2 eexists. split; [reflexivity|].
  cbn [Viewer.players Viewer.p Viewer.running].
  replace (length (pl ++ [true])%list) with (length (pl ++ [true])%list) by reflexivity.
  rewrite <- (app_nil_r ((pl ++ [true]) ++ [false])%list) at 1.
  rewrite <- app_assoc. cbn [app].
  rewrite (set_spin_at_length false (pl ++ [true])%list [] false).
  split; [reflexivity|]. cbn [Viewer.players Viewer.running].
  rewrite <- app_assoc. cbn [app]. repeat split.
  - rewrite nth_error_app2 by lia. now rewrite Nat.sub_diag.
  - rewrite nth_error_app2 by lia.
    replace (S (length pl) - length pl) with 1 by lia. reflexivity.
Qed.

(** When the first timer expires before the second cell is run, each
    timer stops the player of its own cell. *)
Example timers_in_turn_stop_both :
  let k0 := Viewer.mkProcess [] None 0 in
  match Viewer.expire (Viewer.show_structure k0) with
  | Some k1 => option_map Viewer.players (Viewer.expire (Viewer.show_structure k1))
  | None => None
  end = Some [false; false].
Proof. reflexivity. Qed.

(** ** The overlay of [plot_1D_histogram_trajectories] *)

Lemma centers_of_length {A} (centers : list (list A)) (col : nat) (idx : list nat)
  (r : list A) :
  Plot.centers_of centers col idx = Some r -> length r = length idx.
Proof.
  revert r. induction idx as [|i idx IH]; intros r H; simpl in H.
  - now injection H as <-.
  - destruct (Plot.row_column centers col i); [|discriminate].
    destruct (Plot.centers_of centers col idx) as [r'|]; [|discriminate].
    injection H as <-. simpl. now rewrite (IH r').
Qed.

Lemma centers_of_none_iff {A} (centers : list (list A)) (col : nat) (idx : list nat) :
  Plot.centers_of centers col idx = None
  <-> exists i, In i idx /\ Plot.row_column centers col i = None.
Proof.
  induction idx as [|i idx IH]; simpl.
  - split; [discriminate|]. intros [i [[] _]].
  - destruct (Plot.row_column centers col i) as [x|] eqn:Hx.
    + destruct (Plot.centers_of centers col idx) as [r|].
      * split; [discriminate|]. intros [j [[<-|Hj] Hn]]; [congruence|].
        destruct IH as [_ IH]. discriminate IH. now exists j.
      * split; [|reflexivity]. intros _. destruct IH as [IH _].
        destruct (IH eq_refl) as [j [Hj Hn]]. exists j. split; [now right|assumption].
    + split; [|reflexivity]. intros _. exists i. split; [now left|assumption].
Qed.

(** X21: when the lookup of the overlay returns, it has as many points as
    the shorter of the time axis, [min(len(_traj), max_traj_length)], and
    the discrete trajectory; so the overlay fits its time axis exactly
    when the discrete trajectory is not shorter than the axis. *)
Theorem overlay_fits_its_time_axis {A} (centers : list (list A)) (dtraj : list nat)
  (len_traj max_traj_length : nat) (r : list A) :
  Plot.plotted_centers centers dtraj len_traj max_traj_length = Some r ->
  length r = Nat.min (Nat.min len_traj max_traj_length) (length dtraj) /\
  (length r = Nat.min len_traj max_traj_length
   <-> Nat.min len_traj max_traj_length <= length dtraj).
Proof.
  unfold Plot.plotted_centers. intro H.
  apply centers_of_length in H. rewrite length_firstn in H. split; [exact H|]. lia.
Qed.

Lemma overlay_fits_its_time_axis_witness :
  length [1; 2] = Nat.min (Nat.min 5 200) (length [0; 1]) /\
  (length [1; 2] = Nat.min 5 200 <-> Nat.min 5 200 <= length [0; 1]).
Proof.
  apply (overlay_fits_its_time_axis [[1]; [2]] [0; 1] 5 200 [1; 2]). reflexivity.
Defined.

(** X22: when every centre has a coordinate, the lookup of the overlay
    raises exactly when one of the first [min(len(_traj), max_traj_length)]
    states of the discrete trajectory is not the index of a centre; states
    further on are not looked at. *)
Theorem overlay_raises_iff {A} (centers : list (list A)) (dtraj : list nat)
  (len_traj max_traj_length : nat) :
  Forall (fun row => row <> []) centers ->
  (Plot.plotted_centers centers dtraj len_traj max_traj_length = None
   <-> exists k s, k < Nat.min len_traj max_traj_length /\
                   nth_error dtraj k = Some s /\ length centers <= s).
Proof.
  intro Hrows. unfold Plot.plotted_centers. rewrite centers_of_none_iff. split.
  - intros [s [Hin Hnone]]. apply In_nth_error in Hin. destruct Hin as [k Hk].
    assert (Hlt : k < length (firstn (Nat.min len_traj max_traj_length) dtraj))
      by (apply nth_error_Some; congruence).
    rewrite length_firstn in Hlt.
    exists k, s. split; [lia|]. split.
    + rewrite nth_error_firstn in Hk.
      destruct (Nat.ltb_spec k (Nat.min len_traj max_traj_length)); [assumption|lia].
    + unfold Plot.row_column in Hnone.
      destruct (nth_error centers s) as [row|] eqn:Hrow.
      * destruct row as [|x row]; [|discriminate].
        exfalso. rewrite Forall_forall in Hrows. apply (Hrows []); [|reflexivity].
        eapply nth_error_In; eassumption.
      * now apply nth_error_None.
  - intros [k [s [Hk [Hnth Hle]]]]. exists s. split.
    + apply nth_error_In with k. rewrite nth_error_firstn.
      destruct (Nat.ltb_spec k (Nat.min len_traj max_traj_length)); [assumption|lia].
    + unfold Plot.row_column. apply nth_error_None in Hle. now rewrite Hle.
Qed.

Lemma overlay_raises_iff_witness :
  Plot.plotted_centers [[1]; [2]] [0; 1; 5] 3 2 = None
  <-> exists k s, k < Nat.min 3 2 /\ nth_error [0; 1; 5] k = Some s /\
                  length [[1]; [2]] <= s.
Proof.
  apply (overlay_raises_iff [[1]; [2]] [0; 1; 5] 3 2).
  repeat constructor; discriminate.
Defined.

(** ** Exercises *)

Lemma exercises_checked :
  forallb (fun nb =>
    forallb (fun pr =>
               if is_stub (fst pr)
               then negb (is_stub (snd pr))
                    && (if existsb (String.eqb (nb_title nb)) verbatim_notebooks
                        then match lines_not_kept (fst pr) (snd pr) with
                             | [] => true
                             | _ :: _ => false
                             end
                        else true)
               else true)
            (with_next (cells nb))
    && match rev (cells nb) with
       | last_cell :: _ => negb (is_stub last_cell)
       | [] => true
       end) repository = true.
Proof. vm_compute. reflexivity. Qed.

(** X23: in every notebook a cell that leaves a gap to fill in (FIXME or
    ???) is directly followed by a cell without gaps, its solution; and in
    notebooks 02, 03, 05 and 06 the solution repeats every line of the
    exercise that is not a gap, word for word. *)
Theorem every_exercise_has_its_solution (nb : Notebook) (stub next : Cell) :
  In nb repository -> In (stub, next) (with_next (cells nb)) ->
  is_stub stub = true ->
  is_stub next = false /\
  (In (nb_title nb) verbatim_notebooks -> lines_not_kept stub next = []).
Proof.
  intros Hnb Hpr Hstub.
  pose proof exercises_checked as H. rewrite forallb_forall in H.
  specialize (H nb Hnb). apply andb_true_iff in H. destruct H as [H _].
  rewrite forallb_forall in H. specialize (H (stub, next) Hpr).
  cbn [fst snd] in H. rewrite Hstub in H.
  apply andb_true_iff in H. destruct H as [Hnext Hkept]. split.
  - now apply negb_true_iff.
  - intro Hv.
    assert (E : existsb (String.eqb (nb_title nb)) verbatim_notebooks = true).
    { apply existsb_exists. exists (nb_title nb). split; [assumption|].
      apply String.eqb_refl. }
    rewrite E in Hkept.
    destruct (lines_not_kept stub next); [reflexivity|discriminate].
Qed.

Lemma every_exercise_has_its_solution_witness :
  is_stub nb06_cell_971 = false /\
  (In (nb_title nb06) verbatim_notebooks -> lines_not_kept nb06_cell_935 nb06_cell_971 = []).
Proof.
  apply (every_exercise_has_its_solution nb06 nb06_cell_935 nb06_cell_971).
  - in_list.
  - in_list.
  - vm_compute. reflexivity.
Defined.
